(** * LEED credit assessment: rule sets, calculations and data consolidation

    A shallow embedding of [src/utils/LEEDRules.js] (classes [LEEDRuleEngine],
    [EACr6RuleSet], [IEQCr5RuleSet], [CalculationModule], [LEEDUtils],
    [LEEDDataConsolidator]) and of the second rule engine of the repository
    ([RULE_DEFINITIONS], [RuleEngine] with its seven credits, and
    [CalculationEngine], file [src/rules/ruleEngine.js]).

    JavaScript numbers are IEEE 754 binary64 values, so they are embedded as
    the kernel's primitive floats; strings are [string]; a dynamically typed
    parameter value is the inductive [value].  A plain object used as a
    dictionary is an association list kept in insertion order, which is the
    order [Object.entries] enumerates keys that are not array indices.
    Keys (parameter names, document labels, credit ids, building types) are
    taken not to be canonical numeric strings and not to be names every
    object inherits ([constructor], [toString], ...), so that a lookup sees
    own properties only.  A template literal is kept as the list of its
    pieces. *)

From Stdlib Require Import String Ascii List Bool Arith ZArith Lia.
From Stdlib Require Import Floats.
Import ListNotations.

Set Implicit Arguments.
Set Warnings "-inexact-float".

Open Scope string_scope.
Open Scope list_scope.

(* ================================================================== *)
(** ** JavaScript values *)
(* ================================================================== *)

Module JS.

(** A scalar parameter value: [undefined], [null], a string or a number. *)
Inductive value : Type :=
| VUndefined
| VNull
| VStr (s : string)
| VNum (x : float).

(** Abrupt completion of a call: the thrown error object, with its
    [message] property. *)
Inductive exn : Type :=
| Error (message : string)
| TypeError (message : string).

Definition message (e : exn) : string :=
  match e with Error m => m | TypeError m => m end.

(** A call either returns a value or throws. *)
Inductive completion (A : Type) : Type :=
| Return (a : A)
| Throw (e : exn).
Arguments Return {A} a.
Arguments Throw {A} e.

(** Straight-line code with early [return]: a block either falls through
    with the updated local object or returns from the enclosing function. *)
Inductive flow (S R : Type) : Type :=
| Continue (s : S)
| ReturnEarly (r : R).
Arguments Continue {S R} s.
Arguments ReturnEarly {S R} r.

Definition isNaN (x : float) : bool := negb (PrimFloat.eqb x x).

(** [!!v]: the falsy scalars are [undefined], [null], the empty string,
    [0], [-0] and [NaN]. *)
Definition truthy (v : value) : bool :=
  match v with
  | VUndefined => false
  | VNull => false
  | VStr s => negb (String.eqb s "")
  | VNum x => negb (PrimFloat.eqb x 0%float || isNaN x)
  end.

(** [a === b] on scalars. *)
Definition strictEq (a b : value) : bool :=
  match a, b with
  | VUndefined, VUndefined => true
  | VNull, VNull => true
  | VStr s, VStr t => String.eqb s t
  | VNum x, VNum y => PrimFloat.eqb x y
  | _, _ => false
  end.

Definition isUndefined (v : value) : bool := strictEq v VUndefined.
Definition isNull (v : value) : bool := strictEq v VNull.

(** JavaScript's [a || b] on numbers. *)
Definition orElse (x d : float) : float :=
  if PrimFloat.eqb x 0%float || isNaN x then d else x.

(** [String.prototype.toLowerCase] on the ASCII letters.  The only strings
    searched for after lower-casing are ASCII patterns. *)
Definition lowerAscii (c : ascii) : ascii :=
  let n := nat_of_ascii c in
  if Nat.leb 65 n && Nat.leb n 90 then ascii_of_nat (n + 32) else c.

Fixpoint toLowerCase (s : string) : string :=
  match s with
  | EmptyString => EmptyString
  | String c r => String (lowerAscii c) (toLowerCase r)
  end.

(** [s.includes(pat)]. *)
Fixpoint includes (s pat : string) : bool :=
  String.prefix pat s ||
  match s with
  | EmptyString => false
  | String _ r => includes r pat
  end.

End JS.
Import JS.

Notation "'block' x ':=' e 'in' k" :=
  (match e with Continue x => k | ReturnEarly r => r end)
  (at level 10, x name, e at level 100, k at level 200, only parsing).

(** [try { ... } catch (error) { ... }] around a call. *)
Notation "'try' x ':=' e 'in' k 'catch' err '=>' h" :=
  (match e with Return x => k | Throw err => h end)
  (at level 10, x name, err name, e at level 100, k at level 200,
   h at level 200, only parsing).

(** A call outside any [try]: an exception propagates to the caller. *)
Notation "'call' x ':=' e 'in' k" :=
  (match e with Return x => k | Throw err => Throw err end)
  (at level 10, x name, e at level 100, k at level 200, only parsing).

(* ================================================================== *)
(** ** Plain objects as insertion-ordered dictionaries *)
(* ================================================================== *)

Module Obj.

Definition t (V : Type) : Type := list (string * V).

Definition empty {V : Type} : t V := [].

(** Own-property lookup, [None] when the key is absent. *)
Fixpoint get {V : Type} (o : t V) (k : string) : option V :=
  match o with
  | [] => None
  | (k', v) :: r => if String.eqb k' k then Some v else get r k
  end.

(** [o[k] = v]: an existing key keeps its place, a new key goes last. *)
Fixpoint set {V : Type} (o : t V) (k : string) (v : V) : t V :=
  match o with
  | [] => [(k, v)]
  | (k', v') :: r =>
      if String.eqb k' k then (k', v) :: r else (k', v') :: set r k v
  end.

Definition keys {V : Type} (o : t V) : list string := map fst o.

(** [{...a, ...b}]. *)
Definition spread {V : Type} (a b : t V) : t V :=
  fold_left (fun acc kv => set acc (fst kv) (snd kv)) b a.

(** [o[k]] on an object of scalars: a missing key reads [undefined]. *)
Definition prop (o : t value) (k : string) : value :=
  match get o k with
  | Some v => v
  | None => VUndefined
  end.

End Obj.

(* ================================================================== *)
(** ** What the runtime supplies *)
(* ================================================================== *)

(** The two string-to-number conversions of the JavaScript runtime, which
    the repository calls and does not define: [parseFloat] on a string
    (longest numeric prefix) and the [ToNumber] coercion of a string (used
    by [>=] and [/]).  Every result below holds for any such pair. *)
Class Host : Type := {
  parseFloatStr : string -> float;
  toNumberStr : string -> float
}.

Section Conversions.
Context {host : Host}.

(** [parseFloat(v)]: the argument is first converted to a string.  A number
    prints to the shortest decimal that reads back as itself, except that
    [-0] prints as ["0"]; ["undefined"] and ["null"] have no numeric
    prefix. *)
Definition parseFloat (v : value) : float :=
  match v with
  | VUndefined => nan
  | VNull => nan
  | VStr s => parseFloatStr s
  | VNum x => if PrimFloat.eqb x 0%float then 0%float else x
  end.

(** The [ToNumber] coercion applied by relational and arithmetic
    operators. *)
Definition toNumber (v : value) : float :=
  match v with
  | VUndefined => nan
  | VNull => 0%float
  | VStr s => toNumberStr s
  | VNum x => x
  end.

End Conversions.

(** A template literal, kept unrendered: literal chunks and the
    substitutions [${s}] of a string, [${x}] of a number and
    [${x.toFixed(d)}]. *)
Inductive piece : Type :=
| Lit (s : string)
| StrSub (s : string)
| NumSub (x : float)
| FixedSub (x : float) (digits : nat).

Definition template : Type := list piece.

(* ================================================================== *)
(** ** CalculationModule *)
(* ================================================================== *)

(** The shape of the calculation module object that the rule sets receive
    as an argument of [assess] and call methods on. *)
Module Calc.

(** The object [calculateRefrigerantImpact] returns. *)
Record RefrigerantImpact : Type := {
  lcodp : float;
  lcgwp : float;
  unitImpact : float;
  totalImpact : float;
  totalCapacity : float;
  weightedAverage : float;
  threshold : float;
  units : string;
  compliant : bool
}.

Record t : Type := {
  calculateRefrigerantImpact :
    Obj.t value -> string -> completion RefrigerantImpact;
  calculateSpacePercentage : value -> value -> completion float
}.

End Calc.

Module CalculationModule.
Section Methods.
Context {host : Host}.

Definition calculateRefrigerantImpact (data : Obj.t value) (units : string)
  : completion Calc.RefrigerantImpact :=
  let gwp := parseFloat (Obj.prop data "GWP") in
  let odp := orElse (parseFloat (Obj.prop data "ODP")) 0%float in
  let leakageRate := (parseFloat (Obj.prop data "Leakage Rate") / 100)%float in
  let life := parseFloat (Obj.prop data "Equipment Life") in
  let refrigerantCharge := parseFloat (Obj.prop data "Refrigerant charge") in
  let coolingCapacity := parseFloat (Obj.prop data "Equipment Cooling Capacity") in
  let quantity := orElse (parseFloat (Obj.prop data "Equipment Quantity")) 1%float in
  let maintenanceFactor := 1%float in
  let lcodp := ((odp * (leakageRate * life + maintenanceFactor) * refrigerantCharge) / life)%float in
  let lcgwp := ((gwp * (leakageRate * life + maintenanceFactor) * refrigerantCharge) / life)%float in
  let unitImpact := (lcgwp + lcodp * 100000)%float in
  let totalImpact := (unitImpact * coolingCapacity * quantity)%float in
  let totalCapacity := (coolingCapacity * quantity)%float in
  let weightedAverage := (totalImpact / totalCapacity)%float in
  Return {|
    Calc.lcodp := lcodp;
    Calc.lcgwp := lcgwp;
    Calc.unitImpact := unitImpact;
    Calc.totalImpact := totalImpact;
    Calc.totalCapacity := totalCapacity;
    Calc.weightedAverage := weightedAverage;
    Calc.threshold := if String.eqb units "IP" then 100%float else 13%float;
    Calc.units := units;
    Calc.compliant :=
      PrimFloat.leb weightedAverage
        (if String.eqb units "IP" then 100%float else 13%float)
  |}.

Definition calculateSpacePercentage (totalSpaces controlledSpaces : value)
  : completion float :=
  let total := parseFloat totalSpaces in
  let controlled := parseFloat controlledSpaces in
  if PrimFloat.leb total 0%float then
    Throw (Error "Total spaces must be greater than 0")
  else
    Return ((controlled / total) * 100)%float.

(** [new CalculationModule()]. *)
Definition new : Calc.t := {|
  Calc.calculateRefrigerantImpact := calculateRefrigerantImpact;
  Calc.calculateSpacePercentage := calculateSpacePercentage
|}.

End Methods.
End CalculationModule.

(* ================================================================== *)
(** ** EACr6RuleSet: Enhanced Refrigerant Management *)
(* ================================================================== *)

Module EACr6RuleSet.

Record Requirements : Type := {
  refrigerantUsed : bool;
  odpZero : bool;
  gwpLessThan50 : bool;
  confirmationStatement : bool
}.

(** The object [assessOption1] builds and returns. *)
Record Option1Result : Type := {
  o1_option : nat;
  o1_compliant : bool;
  o1_gaps : list string;
  o1_requirements : Requirements
}.

(** The object [assessOption2] builds and returns; [calculations] is
    [null] until the calculation has run. *)
Record Option2Result : Type := {
  o2_option : nat;
  o2_compliant : bool;
  o2_gaps : list string;
  o2_nonCompliant : list template;
  o2_calculations : option Calc.RefrigerantImpact
}.

Inductive Details : Type :=
| NoDetails
| Option1Details (r : Option1Result)
| Option2Details (r : Option2Result).

(** The assessment result; [option] is [null], [1] or [2]. *)
Record Result : Type := {
  creditId : string;
  creditName : string;
  awarded : bool;
  points : nat;
  maxPoints : nat;
  gaps : list string;
  nonCompliant : list template;
  option : Datatypes.option nat;
  details : Details
}.

(** Assignments to the fields of the local [result] objects. *)
Definition o1_pushGap (r : Option1Result) (g : string) : Option1Result :=
  {| o1_option := o1_option r; o1_compliant := o1_compliant r;
     o1_gaps := o1_gaps r ++ [g]; o1_requirements := o1_requirements r |}.

Definition o1_setRequirements (r : Option1Result) (q : Requirements)
  : Option1Result :=
  {| o1_option := o1_option r; o1_compliant := o1_compliant r;
     o1_gaps := o1_gaps r; o1_requirements := q |}.

Definition o1_setCompliant (r : Option1Result) (b : bool) : Option1Result :=
  {| o1_option := o1_option r; o1_compliant := b;
     o1_gaps := o1_gaps r; o1_requirements := o1_requirements r |}.

Definition setRefrigerantUsed (r : Option1Result) : Option1Result :=
  let q := o1_requirements r in
  o1_setRequirements r
    {| refrigerantUsed := true; odpZero := odpZero q;
       gwpLessThan50 := gwpLessThan50 q;
       confirmationStatement := confirmationStatement q |}.

Definition setOdpZero (r : Option1Result) : Option1Result :=
  let q := o1_requirements r in
  o1_setRequirements r
    {| refrigerantUsed := refrigerantUsed q; odpZero := true;
       gwpLessThan50 := gwpLessThan50 q;
       confirmationStatement := confirmationStatement q |}.

Definition setGwpLessThan50 (r : Option1Result) : Option1Result :=
  let q := o1_requirements r in
  o1_setRequirements r
    {| refrigerantUsed := refrigerantUsed q; odpZero := odpZero q;
       gwpLessThan50 := true;
       confirmationStatement := confirmationStatement q |}.

Definition setConfirmationStatement (r : Option1Result) : Option1Result :=
  let q := o1_requirements r in
  o1_setRequirements r
    {| refrigerantUsed := refrigerantUsed q; odpZero := odpZero q;
       gwpLessThan50 := gwpLessThan50 q;
       confirmationStatement := true |}.

Definition o2_pushGap (r : Option2Result) (g : string) : Option2Result :=
  {| o2_option := o2_option r; o2_compliant := o2_compliant r;
     o2_gaps := o2_gaps r ++ [g]; o2_nonCompliant := o2_nonCompliant r;
     o2_calculations := o2_calculations r |}.

Definition o2_pushNonCompliant (r : Option2Result) (m : template)
  : Option2Result :=
  {| o2_option := o2_option r; o2_compliant := o2_compliant r;
     o2_gaps := o2_gaps r; o2_nonCompliant := o2_nonCompliant r ++ [m];
     o2_calculations := o2_calculations r |}.

Definition o2_setCalculations (r : Option2Result) (c : Calc.RefrigerantImpact)
  : Option2Result :=
  {| o2_option := o2_option r; o2_compliant := o2_compliant r;
     o2_gaps := o2_gaps r; o2_nonCompliant := o2_nonCompliant r;
     o2_calculations := Some c |}.

Definition o2_setCompliant (r : Option2Result) (b : bool) : Option2Result :=
  {| o2_option := o2_option r; o2_compliant := b;
     o2_gaps := o2_gaps r; o2_nonCompliant := o2_nonCompliant r;
     o2_calculations := o2_calculations r |}.

Section Methods.
Context {host : Host}.

(** [Object.values(result.requirements).every(req => req)]. *)
Definition everyRequirement (q : Requirements) : bool :=
  refrigerantUsed q && odpZero q && gwpLessThan50 q && confirmationStatement q.

Definition assessOption1 (data : Obj.t value) : Option1Result :=
  let result :=
    {| o1_option := 1; o1_compliant := false; o1_gaps := [];
       o1_requirements :=
         {| refrigerantUsed := false; odpZero := false;
            gwpLessThan50 := false; confirmationStatement := false |} |} in
  (* Check Refrigerant Used *)
  let result :=
    if negb (truthy (Obj.prop data "Refrigerant Used"))
    then o1_pushGap result "Refrigerant Used"
    else setRefrigerantUsed result in
  (* Check ODP = 0 *)
  block result :=
    if isUndefined (Obj.prop data "ODP") || isNull (Obj.prop data "ODP")
    then Continue (o1_pushGap result "ODP Value")
    else if negb (strictEq (Obj.prop data "ODP") (VNum 0%float))
    then ReturnEarly result (* Exit for Option 2 if ODP is not 0 *)
    else Continue (setOdpZero result) in
  (* Check GWP < 50 *)
  block result :=
    if isUndefined (Obj.prop data "GWP") || isNull (Obj.prop data "GWP")
    then Continue (o1_pushGap result "GWP Value")
    else if PrimFloat.leb 50%float (toNumber (Obj.prop data "GWP"))
    then ReturnEarly result (* Exit for Option 2 if GWP >= 50 *)
    else Continue (setGwpLessThan50 result) in
  (* Check Confirmation Statement *)
  let result :=
    if negb (truthy (Obj.prop data "Confirmation Statement"))
    then o1_pushGap result "Confirmation Statement"
    else setConfirmationStatement result in
  (* All requirements met and no gaps *)
  if Nat.eqb (length (o1_gaps result)) 0
     && everyRequirement (o1_requirements result)
  then o1_setCompliant result true
  else result.

Definition requiredParams : list string :=
  ["GWP"; "Refrigerant charge"; "Leakage Rate"; "Equipment Life";
   "Equipment Cooling Capacity"; "Equipment Quantity"].

(** [data[param] === undefined || data[param] === null || data[param] === ''] *)
Definition missing (v : value) : bool :=
  isUndefined v || isNull v || strictEq v (VStr "").

(** The first half of [assessOption2]: the missing-parameter checks that
    fill [result.gaps] before the calculation is considered. *)
Definition checkMissing (data : Obj.t value) : completion Option2Result :=
  let result :=
    {| o2_option := 2; o2_compliant := false; o2_gaps := [];
       o2_nonCompliant := []; o2_calculations := None |} in
  (* Check for missing parameters *)
  let result :=
    fold_left
      (fun result param =>
         if missing (Obj.prop data param) then o2_pushGap result param
         else result)
      requiredParams result in
  (* For commercial refrigeration systems, check additional requirements;
     [toLowerCase] is a method of strings only *)
  if truthy (Obj.prop data "Equipment Type") then
    match Obj.prop data "Equipment Type" with
    | VStr equipmentType =>
        if includes (toLowerCase equipmentType) "refrigeration" then
          let result :=
            if negb (truthy (Obj.prop data "Leakage Test Results"))
            then o2_pushGap result "Leakage Test Results" else result in
          let result :=
            if negb (truthy (Obj.prop data "Greenchill Certification Status"))
            then o2_pushGap result "Greenchill Certification Status"
            else result in
          Return result
        else Return result
    | _ => Throw (TypeError "data.Equipment Type.toLowerCase is not a function")
    end
  else Return result.

Definition assessOption2 (data : Obj.t value) (units : string)
    (calculationModule : Calc.t) : completion Option2Result :=
  call result := checkMissing data in
  (* If no gaps, perform calculations *)
  if Nat.eqb (length (o2_gaps result)) 0 then
    try calculations := Calc.calculateRefrigerantImpact calculationModule data units in
      (let result := o2_setCalculations result calculations in
       let threshold := if String.eqb units "IP" then 100%float else 13%float in
       if PrimFloat.leb (Calc.weightedAverage calculations) threshold
       then Return (o2_setCompliant result true)
       else Return (o2_pushNonCompliant result
              [Lit "Weighted average (";
               FixedSub (Calc.weightedAverage calculations) 2;
               Lit ") exceeds threshold ("; NumSub threshold; Lit ")"]))
    catch error =>
      Return (o2_pushNonCompliant result
                [Lit "Calculation error: "; StrSub (message error)])
  else Return result.

(** [const hasBasicRefrigerantData = ...] of [assess]. *)
Definition hasBasicRefrigerantData (data : Obj.t value) : bool :=
  truthy (Obj.prop data "Refrigerant Used")
  && negb (isUndefined (Obj.prop data "ODP"))
  && negb (isUndefined (Obj.prop data "GWP")).

Definition assess (data : Obj.t value) (units : string)
    (calculationModule : Calc.t) : completion Result :=
  let result :=
    {| creditId := "EACr6";
       creditName := "Enhanced Refrigerant Management";
       awarded := false; points := 0; maxPoints := 1;
       gaps := []; nonCompliant := []; option := None;
       details := NoDetails |} in
  (* Determine which option to evaluate *)
  block result :=
    if hasBasicRefrigerantData data then
      (* Try Option 1 first *)
      let option1Result := assessOption1 data in
      if o1_compliant option1Result then
        ReturnEarly (Return
          {| creditId := creditId result; creditName := creditName result;
             awarded := true; points := 1; maxPoints := maxPoints result;
             gaps := gaps result; nonCompliant := nonCompliant result;
             option := Some 1; details := Option1Details option1Result |})
      else Continue result
    else Continue result in
  (* Try Option 2 *)
  call option2Result := assessOption2 data units calculationModule in
  let result :=
    {| creditId := creditId result; creditName := creditName result;
       awarded := awarded result; points := points result;
       maxPoints := maxPoints result;
       gaps := o2_gaps option2Result;
       nonCompliant := o2_nonCompliant option2Result;
       option := Some 2; details := Option2Details option2Result |} in
  if o2_compliant option2Result
     && Nat.eqb (length (o2_gaps option2Result)) 0
  then
    Return
      {| creditId := creditId result; creditName := creditName result;
         awarded := true; points := 1; maxPoints := maxPoints result;
         gaps := gaps result; nonCompliant := nonCompliant result;
         option := option result; details := details result |}
  else Return result.

End Methods.
End EACr6RuleSet.

(* ================================================================== *)
(** ** IEQCr5RuleSet: Thermal Comfort *)
(* ================================================================== *)

Module IEQCr5RuleSet.

Record Part1Requirements : Type := {
  compliancePath : bool;
  pmvInRange : bool;
  ppdCompliant : bool;
  environmentalDataComplete : bool
}.

Record Part1Result : Type := {
  p1_part : nat;
  p1_compliant : bool;
  p1_gaps : list string;
  p1_nonCompliant : list template;
  p1_requirements : Part1Requirements
}.

Record Part2Requirements : Type := {
  spacePercentageCompliant : bool;
  groupControlsPresent : bool;
  thermostatLocationsPresent : bool
}.

(** [calculations] is [null] or [{ spacePercentage: percentage }]. *)
Record Part2Result : Type := {
  p2_part : nat;
  p2_compliant : bool;
  p2_gaps : list string;
  p2_nonCompliant : list template;
  p2_calculations : option float;
  p2_requirements : Part2Requirements
}.

Record Result : Type := {
  creditId : string;
  creditName : string;
  awarded : bool;
  points : nat;
  maxPoints : nat;
  gaps : list string;
  nonCompliant : list template;
  part1 : option Part1Result;
  part2 : option Part2Result
}.

(** Assignments to the fields of the local [result] objects. *)
Definition p1_pushGaps (r : Part1Result) (g : list string) : Part1Result :=
  {| p1_part := p1_part r; p1_compliant := p1_compliant r;
     p1_gaps := p1_gaps r ++ g; p1_nonCompliant := p1_nonCompliant r;
     p1_requirements := p1_requirements r |}.

Definition p1_pushNonCompliant (r : Part1Result) (m : template) : Part1Result :=
  {| p1_part := p1_part r; p1_compliant := p1_compliant r;
     p1_gaps := p1_gaps r; p1_nonCompliant := p1_nonCompliant r ++ [m];
     p1_requirements := p1_requirements r |}.

Definition p1_setRequirements (r : Part1Result) (q : Part1Requirements)
  : Part1Result :=
  {| p1_part := p1_part r; p1_compliant := p1_compliant r;
     p1_gaps := p1_gaps r; p1_nonCompliant := p1_nonCompliant r;
     p1_requirements := q |}.

Definition p1_setCompliant (r : Part1Result) (b : bool) : Part1Result :=
  {| p1_part := p1_part r; p1_compliant := b;
     p1_gaps := p1_gaps r; p1_nonCompliant := p1_nonCompliant r;
     p1_requirements := p1_requirements r |}.

Definition setCompliancePath (r : Part1Result) : Part1Result :=
  let q := p1_requirements r in
  p1_setRequirements r
    {| compliancePath := true; pmvInRange := pmvInRange q;
       ppdCompliant := ppdCompliant q;
       environmentalDataComplete := environmentalDataComplete q |}.

Definition setPmvInRange (r : Part1Result) : Part1Result :=
  let q := p1_requirements r in
  p1_setRequirements r
    {| compliancePath := compliancePath q; pmvInRange := true;
       ppdCompliant := ppdCompliant q;
       environmentalDataComplete := environmentalDataComplete q |}.

Definition setPpdCompliant (r : Part1Result) : Part1Result :=
  let q := p1_requirements r in
  p1_setRequirements r
    {| compliancePath := compliancePath q; pmvInRange := pmvInRange q;
       ppdCompliant := true;
       environmentalDataComplete := environmentalDataComplete q |}.

Definition setEnvironmentalDataComplete (r : Part1Result) : Part1Result :=
  let q := p1_requirements r in
  p1_setRequirements r
    {| compliancePath := compliancePath q; pmvInRange := pmvInRange q;
       ppdCompliant := ppdCompliant q;
       environmentalDataComplete := true |}.

Definition p2_pushGap (r : Part2Result) (g : string) : Part2Result :=
  {| p2_part := p2_part r; p2_compliant := p2_compliant r;
     p2_gaps := p2_gaps r ++ [g]; p2_nonCompliant := p2_nonCompliant r;
     p2_calculations := p2_calculations r;
     p2_requirements := p2_requirements r |}.

Definition p2_pushNonCompliant (r : Part2Result) (m : template) : Part2Result :=
  {| p2_part := p2_part r; p2_compliant := p2_compliant r;
     p2_gaps := p2_gaps r; p2_nonCompliant := p2_nonCompliant r ++ [m];
     p2_calculations := p2_calculations r;
     p2_requirements := p2_requirements r |}.

Definition p2_setCalculations (r : Part2Result) (percentage : float)
  : Part2Result :=
  {| p2_part := p2_part r; p2_compliant := p2_compliant r;
     p2_gaps := p2_gaps r; p2_nonCompliant := p2_nonCompliant r;
     p2_calculations := Some percentage;
     p2_requirements := p2_requirements r |}.

Definition p2_setRequirements (r : Part2Result) (q : Part2Requirements)
  : Part2Result :=
  {| p2_part := p2_part r; p2_compliant := p2_compliant r;
     p2_gaps := p2_gaps r; p2_nonCompliant := p2_nonCompliant r;
     p2_calculations := p2_calculations r; p2_requirements := q |}.

Definition p2_setCompliant (r : Part2Result) (b : bool) : Part2Result :=
  {| p2_part := p2_part r; p2_compliant := b;
     p2_gaps := p2_gaps r; p2_nonCompliant := p2_nonCompliant r;
     p2_calculations := p2_calculations r;
     p2_requirements := p2_requirements r |}.

Definition setSpacePercentageCompliant (r : Part2Result) : Part2Result :=
  let q := p2_requirements r in
  p2_setRequirements r
    {| spacePercentageCompliant := true;
       groupControlsPresent := groupControlsPresent q;
       thermostatLocationsPresent := thermostatLocationsPresent q |}.

Definition setGroupControlsPresent (r : Part2Result) : Part2Result :=
  let q := p2_requirements r in
  p2_setRequirements r
    {| spacePercentageCompliant := spacePercentageCompliant q;
       groupControlsPresent := true;
       thermostatLocationsPresent := thermostatLocationsPresent q |}.

Definition setThermostatLocationsPresent (r : Part2Result) : Part2Result :=
  let q := p2_requirements r in
  p2_setRequirements r
    {| spacePercentageCompliant := spacePercentageCompliant q;
       groupControlsPresent := groupControlsPresent q;
       thermostatLocationsPresent := true |}.

Section Methods.
Context {host : Host}.

Definition environmentalParams : list string :=
  ["Operative Temperature Range"; "Relative Humidity Range";
   "Air Speed"; "Clothing Insulation"; "Metabolic Rate";
   "Weather Data Source"].

Definition everyPart1Requirement (q : Part1Requirements) : bool :=
  compliancePath q && pmvInRange q && ppdCompliant q
  && environmentalDataComplete q.

Definition everyPart2Requirement (q : Part2Requirements) : bool :=
  spacePercentageCompliant q && groupControlsPresent q
  && thermostatLocationsPresent q.

Definition assessPart1 (data : Obj.t value) : Part1Result :=
  let result :=
    {| p1_part := 1; p1_compliant := false; p1_gaps := [];
       p1_nonCompliant := [];
       p1_requirements :=
         {| compliancePath := false; pmvInRange := false;
            ppdCompliant := false; environmentalDataComplete := false |} |} in
  (* Check Compliance Path *)
  let result :=
    if negb (truthy (Obj.prop data "Compliance Path"))
    then p1_pushGaps result ["Compliance Path"]
    else setCompliancePath result in
  (* Check PMV range (-0.5 to 0.5) *)
  let result :=
    if isUndefined (Obj.prop data "PMV") || isNull (Obj.prop data "PMV")
    then p1_pushGaps result ["PMV"]
    else
      let pmv := parseFloat (Obj.prop data "PMV") in
      if PrimFloat.leb (-0.5)%float pmv && PrimFloat.leb pmv 0.5%float
      then setPmvInRange result
      else p1_pushNonCompliant result
             [Lit "PMV ("; NumSub pmv;
              Lit ") is outside acceptable range (-0.5 to 0.5)"] in
  (* Check PPD < 10% *)
  let result :=
    if isUndefined (Obj.prop data "PPD") || isNull (Obj.prop data "PPD")
    then p1_pushGaps result ["PPD"]
    else
      let ppd := parseFloat (Obj.prop data "PPD") in
      if PrimFloat.ltb ppd 10%float
      then setPpdCompliant result
      else p1_pushNonCompliant result
             [Lit "PPD ("; NumSub ppd; Lit "%) is not less than 10%"] in
  (* Check environmental data *)
  let missingEnvData :=
    filter
      (fun param =>
         negb (truthy (Obj.prop data param))
         || strictEq (Obj.prop data param) (VStr ""))
      environmentalParams in
  let result :=
    if Nat.ltb 0 (length missingEnvData)
    then p1_pushGaps result missingEnvData
    else setEnvironmentalDataComplete result in
  (* Check overall compliance *)
  if Nat.eqb (length (p1_gaps result)) 0
     && Nat.eqb (length (p1_nonCompliant result)) 0
     && everyPart1Requirement (p1_requirements result)
  then p1_setCompliant result true
  else result.

Definition assessPart2 (data : Obj.t value) (calculationModule : Calc.t)
  : Part2Result :=
  let result :=
    {| p2_part := 2; p2_compliant := false; p2_gaps := [];
       p2_nonCompliant := []; p2_calculations := None;
       p2_requirements :=
         {| spacePercentageCompliant := false;
            groupControlsPresent := false;
            thermostatLocationsPresent := false |} |} in
  (* Check space data and calculate percentage *)
  let result :=
    if negb (truthy (Obj.prop data "Total Individual Spaces"))
       || negb (truthy (Obj.prop data "Controlled Spaces"))
    then
      let result :=
        if negb (truthy (Obj.prop data "Total Individual Spaces"))
        then p2_pushGap result "Total Individual Spaces" else result in
      if negb (truthy (Obj.prop data "Controlled Spaces"))
      then p2_pushGap result "Controlled Spaces" else result
    else
      try percentage :=
        Calc.calculateSpacePercentage calculationModule
          (Obj.prop data "Total Individual Spaces")
          (Obj.prop data "Controlled Spaces") in
        (let result := p2_setCalculations result percentage in
         if PrimFloat.ltb 50%float percentage
         then setSpacePercentageCompliant result
         else p2_pushNonCompliant result
                [Lit "Controlled spaces percentage (";
                 FixedSub percentage 1; Lit "%) is not greater than 50%"])
      catch error =>
        p2_pushNonCompliant result
          [Lit "Space calculation error: "; StrSub (message error)] in
  (* Check Group Controls *)
  let result :=
    if negb (truthy (Obj.prop data "Group Controls"))
    then p2_pushGap result "Group Controls"
    else setGroupControlsPresent result in
  (* Check Thermostat Locations *)
  let result :=
    if negb (truthy (Obj.prop data "Thermostat Locations"))
    then p2_pushGap result "Thermostat Locations"
    else setThermostatLocationsPresent result in
  (* Check overall compliance *)
  if Nat.eqb (length (p2_gaps result)) 0
     && Nat.eqb (length (p2_nonCompliant result)) 0
     && everyPart2Requirement (p2_requirements result)
  then p2_setCompliant result true
  else result.

Definition assess (data : Obj.t value) (units : string)
    (calculationModule : Calc.t) : Result :=
  (* Assess Part 1 *)
  let part1Result := assessPart1 data in
  (* Assess Part 2 *)
  let part2Result := assessPart2 data calculationModule in
  (* Combine gaps and non-compliant issues *)
  let result :=
    {| creditId := "IEQCr5"; creditName := "Thermal Comfort";
       awarded := false; points := 0; maxPoints := 1;
       gaps := p1_gaps part1Result ++ p2_gaps part2Result;
       nonCompliant :=
         p1_nonCompliant part1Result ++ p2_nonCompliant part2Result;
       part1 := Some part1Result; part2 := Some part2Result |} in
  (* Award credit if both parts are compliant with no gaps *)
  if p1_compliant part1Result && p2_compliant part2Result
     && Nat.eqb (length (gaps result)) 0
     && Nat.eqb (length (nonCompliant result)) 0
  then
    {| creditId := creditId result; creditName := creditName result;
       awarded := true; points := 1; maxPoints := maxPoints result;
       gaps := gaps result; nonCompliant := nonCompliant result;
       part1 := part1 result; part2 := part2 result |}
  else result.

End Methods.
End IEQCr5RuleSet.

(* ================================================================== *)
(** ** RuleEngine and CalculationEngine (src/rules/ruleEngine.js) *)
(* ================================================================== *)

(** The repository's second evaluator of the same credits.  Its methods
    are declared [async] and awaited one after the other; nothing runs
    in between, so they are embedded as ordinary functions. *)
Module RuleEngine.

(** The object [calculateRefrigerantImpact] returns. *)
Record Calculations : Type := {
  lcodp : float;
  lcgwp : float;
  impact : float;
  weightedAverage : float;
  totalCoolingCapacity : float;
  unitSystem : string
}.

(** What [checkEACr6Option1] and [checkEACr6Option2] return;
    [calculations] is [{}] when no calculation ran. *)
Record Check : Type := {
  compliant : bool;
  c_gaps : list string;
  c_nonCompliant : list template;
  c_calculations : option Calculations
}.

(** The result object [evaluateCredit] creates and the per-credit
    evaluators fill in. *)
Record Result : Type := {
  creditId : string;
  creditName : string;
  maxPoints : nat;
  awardedPoints : nat;
  status : string;
  gaps : list string;
  nonCompliant : list template;
  calculations : option Calculations;
  details : list string
}.

Section Methods.
Context {host : Host}.

Definition calculateRefrigerantImpact (data : Obj.t value) (unitSystem : string)
  : Calculations :=
  let gwp := parseFloat (Obj.prop data "GWP") in
  let odp := orElse (parseFloat (Obj.prop data "ODP")) 0%float in
  let charge := parseFloat (Obj.prop data "Refrigerant Charge") in
  let leakageRate := (parseFloat (Obj.prop data "Leakage Rate") / 100)%float in
  let life := parseFloat (Obj.prop data "Equipment Life") in
  let coolingCapacity := parseFloat (Obj.prop data "Equipment Cooling Capacity") in
  let quantity := parseFloat (Obj.prop data "Equipment Quantity") in
  let mr := 1%float in
  let lcodp := ((odp * (leakageRate * life + mr) * charge) / life)%float in
  let lcgwp := ((gwp * (leakageRate * life + mr) * charge) / life)%float in
  let impact := (lcgwp + lcodp * 100000)%float in
  let totalCoolingCapacity := (coolingCapacity * quantity)%float in
  let weightedAverage :=
    ((impact * totalCoolingCapacity) / totalCoolingCapacity)%float in
  {| lcodp := lcodp; lcgwp := lcgwp; impact := impact;
     weightedAverage := weightedAverage;
     totalCoolingCapacity := totalCoolingCapacity;
     unitSystem := unitSystem |}.

Definition checkEACr6Option1 (data : Obj.t value) : Check :=
  let gaps : list string := [] in
  let compliant := true in
  (* Check Refrigerant Used *)
  let '(gaps, compliant) :=
    if negb (truthy (Obj.prop data "Refrigerant Used"))
    then (gaps ++ ["Refrigerant Used"], false)
    else (gaps, compliant) in
  (* Check ODP = 0 *)
  let compliant :=
    if negb (strictEq (Obj.prop data "ODP") (VNum 0%float))
       && negb (strictEq (Obj.prop data "ODP") (VStr "0"))
    then false else compliant in
  (* Check GWP < 50 *)
  let compliant :=
    if negb (truthy (Obj.prop data "GWP"))
       || PrimFloat.leb 50%float (parseFloat (Obj.prop data "GWP"))
    then false else compliant in
  (* Check Confirmation Statement *)
  let '(gaps, compliant) :=
    if negb (truthy (Obj.prop data "Confirmation Statement"))
    then (gaps ++ ["Confirmation Statement"], false)
    else (gaps, compliant) in
  {| compliant := compliant; c_gaps := gaps; c_nonCompliant := [];
     c_calculations := None |}.

Definition requiredParams : list string :=
  ["GWP"; "Refrigerant Charge"; "Leakage Rate"; "Equipment Life";
   "Equipment Cooling Capacity"; "Equipment Quantity"].

Definition checkEACr6Option2 (data : Obj.t value) (unitSystem : string)
  : Check :=
  (* Check for missing parameters *)
  let gaps :=
    fold_left
      (fun gaps param =>
         if negb (truthy (Obj.prop data param)) then gaps ++ [param]
         else gaps)
      requiredParams [] in
  let nonCompliant : list template := [] in
  if Nat.ltb 0 (length gaps) then
    {| compliant := false; c_gaps := gaps; c_nonCompliant := nonCompliant;
       c_calculations := None |}
  else
    (* Calculate LCODP and LCGWP *)
    let calculations := calculateRefrigerantImpact data unitSystem in
    let threshold :=
      if String.eqb unitSystem "SI" then 13%float else 100%float in
    let weightedAverage := weightedAverage calculations in
    if PrimFloat.leb weightedAverage threshold then
      {| compliant := true; c_gaps := []; c_nonCompliant := [];
         c_calculations := Some calculations |}
    else
      {| compliant := false; c_gaps := [];
         c_nonCompliant :=
           nonCompliant ++
           [[Lit "Weighted average ("; FixedSub weightedAverage 2;
             Lit ") exceeds threshold ("; NumSub threshold; Lit ")"]];
         c_calculations := Some calculations |}.

Definition evaluateEACr6 (data : Obj.t value) (unitSystem : string)
    (result : Result) : Result :=
  (* Option 1: No Refrigerants or Low-Impact Refrigerants *)
  let option1Result := checkEACr6Option1 data in
  if compliant option1Result then
    {| creditId := creditId result; creditName := creditName result;
       maxPoints := maxPoints result;
       awardedPoints := 1; status := "compliant";
       gaps := gaps result; nonCompliant := nonCompliant result;
       calculations := calculations result;
       details :=
         details result ++
         ["Option 1: No Refrigerants or Low-Impact Refrigerants"] |}
  else
    let result :=
      {| creditId := creditId result; creditName := creditName result;
         maxPoints := maxPoints result;
         awardedPoints := awardedPoints result; status := status result;
         gaps := gaps result ++ c_gaps option1Result;
         nonCompliant := nonCompliant result;
         calculations := calculations result;
         details := details result |} in
    (* Option 2: Calculation of Refrigerant Impact *)
    let option2Result := checkEACr6Option2 data unitSystem in
    if compliant option2Result then
      {| creditId := creditId result; creditName := creditName result;
         maxPoints := maxPoints result;
         awardedPoints := 1; status := "compliant";
         gaps := gaps result; nonCompliant := nonCompliant result;
         calculations := c_calculations option2Result;
         details :=
           details result ++ ["Option 2: Calculation of Refrigerant Impact"] |}
    else
      {| creditId := creditId result; creditName := creditName result;
         maxPoints := maxPoints result;
         awardedPoints := awardedPoints result; status := "non_compliant";
         gaps := gaps result ++ c_gaps option2Result;
         nonCompliant := nonCompliant result ++ c_nonCompliant option2Result;
         calculations := calculations result;
         details := details result |}.

(** [evaluateCredit('EACr6', extractedData, unitSystem)]: the result
    object is created from the rule definition ([name], [maxPoints]) and
    handed to [evaluateEACr6]; nothing in that path throws, so the
    [catch] that would set [status = 'error'] is not entered. *)
Definition evaluateCredit_EACr6 (extractedData : Obj.t value)
    (unitSystem : string) : Result :=
  evaluateEACr6 extractedData unitSystem
    {| creditId := "EACr6";
       creditName := "Enhanced Refrigerant Management";
       maxPoints := 1; awardedPoints := 0; status := "pending";
       gaps := []; nonCompliant := []; calculations := None;
       details := [] |}.

End Methods.
End RuleEngine.

Module CalculationEngine.
Section Methods.
Context {host : Host}.

(** Returns [null] or the number [(controlledSpaces / totalSpaces) * 100];
    the division coerces both operands with [ToNumber]. *)
Definition calculateThermalControlPercentage
    (totalSpaces controlledSpaces : value) : value :=
  if negb (truthy totalSpaces) || negb (truthy controlledSpaces) then VNull
  else VNum ((toNumber controlledSpaces / toNumber totalSpaces) * 100)%float.

End Methods.
End CalculationEngine.

(* ================================================================== *)
(** ** LEEDDataConsolidator *)
(* ================================================================== *)

Module LEEDDataConsolidator.

(** One document's entry for a credit: [{ Parameters: [...], Values: {...} }],
    either property possibly missing. *)
Record CreditData : Type := {
  Parameters : option (list string);
  Values : option (Obj.t value)
}.

(** A document maps credit ids to its data for that credit; the
    multi-document input maps document names to documents and is walked
    with [Object.entries], in the order of the list. *)
Definition DocData : Type := Obj.t CreditData.
Definition MultiDocData : Type := Obj.t DocData.

(** One candidate of a conflict: [{ document, value }]. *)
Record Candidate : Type := {
  document : value;
  val : value
}.

(** [manualResolutions[parameter]] is an object [{ document }]. *)
Record ManualChoice : Type := {
  chosenDocument : value
}.

Record Options : Type := {
  conflictResolution : string;
  customPriorities : Obj.t float;
  manualResolutions : Obj.t ManualChoice
}.

(** [options = {}]: the destructuring defaults. *)
Definition defaultOptions : Options :=
  {| conflictResolution := "priority";
     customPriorities := Obj.empty;
     manualResolutions := Obj.empty |}.

Record LogEntry : Type := {
  parameter : string;
  conflictList : list Candidate;
  resolvedValue : value;
  resolvedSource : value;
  method : option string
}.

(** What [resolveConflicts] returns. *)
Record Resolved : Type := {
  r_data : Obj.t value;
  r_sources : Obj.t value;
  r_resolutionLog : list LogEntry
}.

Record ProcessingInfo : Type := {
  documentsProcessed : nat;
  parametersFound : nat;
  conflictsDetected : nat;
  conflictsResolved : nat
}.

(** What [consolidateData] returns. *)
Record Consolidated : Type := {
  data : Obj.t value;
  sources : Obj.t value;
  conflicts : Obj.t (list Candidate);
  resolutionLog : list LogEntry;
  processingInfo : ProcessingInfo;
  processingLog : list string
}.

(** The four locals of [consolidateData] that the document loop updates. *)
Record Collected : Type := {
  consolidatedData : Obj.t value;
  dataSources : Obj.t value;
  conflictsSoFar : Obj.t (list Candidate);
  log : list string
}.

(** [this.priorityRules]. *)
Definition priorityRules : Obj.t float :=
  [("manufacturer_datasheet", 10%float);
   ("equipment_schedule", 8%float);
   ("specification", 7%float);
   ("calculation", 6%float);
   ("drawing", 5%float);
   ("narrative", 4%float);
   ("default", 1%float)].

(** [paramValue !== undefined && paramValue !== null && paramValue !== ''] *)
Definition nonEmpty (v : value) : bool :=
  negb (isUndefined v) && negb (isNull v) && negb (strictEq v (VStr "")).

(** The body of [parameters.forEach(parameter => ...)] for one document. *)
Definition recordParameter (docName : string) (values : Obj.t value)
    (st : Collected) (parameter : string) : Collected :=
  let paramValue := Obj.prop values parameter in
  if nonEmpty paramValue then
    if negb (isUndefined (Obj.prop (consolidatedData st) parameter)) then
      (* Conflict detected *)
      let conflicts :=
        match Obj.get (conflictsSoFar st) parameter with
        | None =>
            Obj.set (conflictsSoFar st) parameter
              [{| document := Obj.prop (dataSources st) parameter;
                  val := Obj.prop (consolidatedData st) parameter |}]
        | Some _ => conflictsSoFar st
        end in
      let conflicts :=
        match Obj.get conflicts parameter with
        | Some l =>
            Obj.set conflicts parameter
              (l ++ [{| document := VStr docName; val := paramValue |}])
        | None => conflicts
        end in
      {| consolidatedData := consolidatedData st;
         dataSources := dataSources st;
         conflictsSoFar := conflicts;
         log := log st |}
    else
      (* First occurrence of this parameter *)
      {| consolidatedData := Obj.set (consolidatedData st) parameter paramValue;
         dataSources := Obj.set (dataSources st) parameter (VStr docName);
         conflictsSoFar := conflictsSoFar st;
         log := log st |}
  else st.

(** The body of [Object.entries(multiDocData).forEach(...)]. *)
Definition recordDocument (creditId : string) (st : Collected)
    (entry : string * DocData) : Collected :=
  let '(docName, docData) := entry in
  match Obj.get docData creditId with
  | None =>
      {| consolidatedData := consolidatedData st;
         dataSources := dataSources st;
         conflictsSoFar := conflictsSoFar st;
         log := log st ++
                [("Document " ++ docName ++ " does not contain " ++ creditId
                  ++ " data")%string] |}
  | Some creditData =>
      let parameters :=
        match Parameters creditData with Some l => l | None => [] end in
      let values :=
        match Values creditData with Some o => o | None => Obj.empty end in
      fold_left (recordParameter docName values) parameters st
  end.

(** Extract parameter values from each document. *)
Definition collect (multiDocData : MultiDocData) (creditId : string)
  : Collected :=
  let consolidatedData := Obj.empty in
  let dataSources := Obj.empty in
  let conflicts := Obj.empty in
  let processingLog := [] in
  fold_left (recordDocument creditId) multiDocData
    {| consolidatedData := consolidatedData; dataSources := dataSources;
       conflictsSoFar := conflicts; log := processingLog |}.

(** [getDocumentPriority]: [docName.toLowerCase()] needs a string. *)
Definition getDocumentPriority (docName : value) (priorities : Obj.t float)
  : completion float :=
  match docName with
  | VStr docName =>
      let lowerDocName := toLowerCase docName in
      match
        find (fun entry => includes lowerDocName (toLowerCase (fst entry)))
          priorities
      with
      | Some (_, priority) => Return priority
      | None =>
          Return
            match Obj.get priorities "default" with
            | Some d => orElse d 1%float
            | None => 1%float
            end
      end
  | _ => Throw (TypeError "docName.toLowerCase is not a function")
  end.

Record PriorityResolution : Type := {
  pr_value : value;
  pr_source : value;
  pr_priority : float
}.

Definition resolveBypriority (conflictList : list Candidate)
    (customPriorities : Obj.t float) : completion PriorityResolution :=
  let priorities := Obj.spread priorityRules customPriorities in
  match conflictList with
  | [] => Throw (TypeError "Cannot read properties of undefined (reading 'document')")
  | first :: _ =>
      call bestPriority := getDocumentPriority (document first) priorities in
      call best :=
        fold_left
          (fun acc conflict =>
             call best := acc in
             call priority := getDocumentPriority (document conflict) priorities in
             if PrimFloat.ltb (snd best) priority
             then Return (conflict, priority)
             else Return best)
          conflictList (Return (first, bestPriority)) in
      Return {| pr_value := val (fst best);
                pr_source := document (fst best);
                pr_priority := snd best |}
  end.

(** The three [let]s of one iteration of [resolveConflicts]. *)
Record Resolution : Type := {
  res_value : value;
  res_source : value;
  res_method : option string
}.

Definition unresolved : Resolution :=
  {| res_value := VUndefined; res_source := VUndefined; res_method := None |}.

(** The [switch (strategy)] of [resolveConflicts]. *)
Definition resolveOne (data dataSources : Obj.t value) (strategy : string)
    (customPriorities : Obj.t float) (manualResolutions : Obj.t ManualChoice)
    (parameter : string) (conflictList : list Candidate)
  : completion Resolution :=
  if String.eqb strategy "priority" then
    call priorityResolution := resolveBypriority conflictList customPriorities in
    Return {| res_value := pr_value priorityResolution;
              res_source := pr_source priorityResolution;
              res_method := Some "priority-based" |}
  else if String.eqb strategy "latest" then
    match nth_error conflictList (length conflictList - 1) with
    | Some latestConflict =>
        Return {| res_value := val latestConflict;
                  res_source := document latestConflict;
                  res_method := Some "latest-document" |}
    | None => Throw (TypeError "Cannot read properties of undefined (reading 'value')")
    end
  else if String.eqb strategy "manual" then
    match Obj.get manualResolutions parameter with
    | Some manualChoice =>
        match
          find (fun c => strictEq (document c) (chosenDocument manualChoice))
            conflictList
        with
        | Some chosenConflict =>
            Return {| res_value := val chosenConflict;
                      res_source := document chosenConflict;
                      res_method := Some "manual-selection" |}
        | None => Return unresolved
        end
    | None => Return unresolved
    end
  else
    (* Default to first occurrence *)
    Return {| res_value := Obj.prop data parameter;
              res_source := Obj.prop dataSources parameter;
              res_method := Some "first-occurrence" |}.

(** The body of [Object.entries(conflicts).forEach(...)]. *)
Definition resolveEntry (data dataSources : Obj.t value) (strategy : string)
    (customPriorities : Obj.t float) (manualResolutions : Obj.t ManualChoice)
    (acc : completion Resolved) (entry : string * list Candidate)
  : completion Resolved :=
  call st := acc in
  let '(parameter, conflictList) := entry in
  call r := resolveOne data dataSources strategy customPriorities
              manualResolutions parameter conflictList in
  if negb (isUndefined (res_value r)) then
    Return
      {| r_data := Obj.set (r_data st) parameter (res_value r);
         r_sources := Obj.set (r_sources st) parameter (res_source r);
         r_resolutionLog :=
           r_resolutionLog st ++
           [{| parameter := parameter; conflictList := conflictList;
               resolvedValue := res_value r; resolvedSource := res_source r;
               method := res_method r |}] |}
  else Return st.

(** [resolveConflicts(data, conflicts, strategy, options)], with
    [options = { customPriorities, manualResolutions, dataSources }]. *)
Definition resolveConflicts (data : Obj.t value)
    (conflicts : Obj.t (list Candidate)) (strategy : string)
    (customPriorities : Obj.t float) (manualResolutions : Obj.t ManualChoice)
    (dataSources : Obj.t value) : completion Resolved :=
  fold_left
    (resolveEntry data dataSources strategy customPriorities manualResolutions)
    conflicts
    (Return {| r_data := data; r_sources := dataSources;
               r_resolutionLog := [] |}).

Definition consolidateData (multiDocData : MultiDocData) (creditId : string)
    (options : Options) : completion Consolidated :=
  let st := collect multiDocData creditId in
  (* Resolve conflicts *)
  call resolvedData :=
    resolveConflicts (consolidatedData st) (conflictsSoFar st)
      (conflictResolution options) (customPriorities options)
      (manualResolutions options) (dataSources st) in
  Return
    {| data := r_data resolvedData;
       sources := r_sources resolvedData;
       conflicts := conflictsSoFar st;
       resolutionLog := r_resolutionLog resolvedData;
       processingInfo :=
         {| documentsProcessed := length (Obj.keys multiDocData);
            parametersFound := length (Obj.keys (r_data resolvedData));
            conflictsDetected := length (Obj.keys (conflictsSoFar st));
            conflictsResolved := length (r_resolutionLog resolvedData) |};
       processingLog := log st |}.

End LEEDDataConsolidator.

(* ================================================================== *)
(** ** Vocabulary for the consolidator's properties *)
(* ================================================================== *)

Module Consolidation.
Import LEEDDataConsolidator.

(** A document supplies a parameter for a credit when it has an entry for
    the credit, declares the parameter in [Parameters] and gives it a
    non-empty value in [Values]. *)
Definition supplies (docData : DocData) (creditId parameter : string)
    (v : value) : Prop :=
  exists creditData parameters values,
    Obj.get docData creditId = Some creditData
    /\ Parameters creditData = Some parameters
    /\ In parameter parameters
    /\ Values creditData = Some values
    /\ Obj.prop values parameter = v
    /\ nonEmpty v = true.

Definition silent (docData : DocData) (creditId parameter : string) : Prop :=
  forall v, ~ supplies docData creditId parameter v.

(** A candidate as the document loop creates them: a defined value from
    a named document. *)
Definition sound (c : Candidate) : Prop :=
  isUndefined (val c) = false /\ exists d, document c = VStr d.

(** What the document loop maintains: conflict keys are distinct, a
    recorded parameter has a source, and a conflict list starts with the
    recorded value and source and has at least one more candidate. *)
Definition consistent (st : Collected) : Prop :=
  NoDup (Obj.keys (conflictsSoFar st))
  /\ (forall p,
        isUndefined (Obj.prop (consolidatedData st) p) = false ->
        exists d, Obj.prop (dataSources st) p = VStr d)
  /\ (forall p l,
        Obj.get (conflictsSoFar st) p = Some l ->
        exists rest,
          l = {| document := Obj.prop (dataSources st) p;
                 val := Obj.prop (consolidatedData st) p |} :: rest
          /\ rest <> []
          /\ Forall sound l).

(** Nothing changed for parameter [p]. *)
Definition same_at (p : string) (st st' : Collected) : Prop :=
  Obj.prop (consolidatedData st') p = Obj.prop (consolidatedData st) p
  /\ Obj.prop (dataSources st') p = Obj.prop (dataSources st) p
  /\ Obj.get (conflictsSoFar st') p = Obj.get (conflictsSoFar st) p.

(** For parameter [p], a recorded value and source stay and a conflict
    list only grows at its end. *)
Definition extends (p : string) (st st' : Collected) : Prop :=
  (isUndefined (Obj.prop (consolidatedData st) p) = false ->
   Obj.prop (consolidatedData st') p = Obj.prop (consolidatedData st) p
   /\ Obj.prop (dataSources st') p = Obj.prop (dataSources st) p)
  /\ (forall l,
        Obj.get (conflictsSoFar st) p = Some l ->
        exists more, Obj.get (conflictsSoFar st') p = Some (l ++ more)).

(** Resolution left parameter [p] as it was and logged nothing for it. *)
Definition untouched (p : string) (st st' : Resolved) : Prop :=
  Obj.prop (r_data st') p = Obj.prop (r_data st) p
  /\ Obj.prop (r_sources st') p = Obj.prop (r_sources st) p
  /\ (forall e, In e (r_resolutionLog st') -> parameter e = p ->
                In e (r_resolutionLog st)).

(** The initial locals of [consolidateData]. *)
Definition start : Collected :=
  {| consolidatedData := Obj.empty; dataSources := Obj.empty;
     conflictsSoFar := Obj.empty; log := [] |}.

End Consolidation.

(** Two documents that both give GWP for EACr6, 675 then 700, after a
    schedule that gives none. *)
Definition gwp_documents : LEEDDataConsolidator.MultiDocData :=
  [("hvac_schedule_doc",
    [("EACr6",
      {| LEEDDataConsolidator.Parameters :=
           Some ["Refrigerant Used"; "ODP"; "GWP"];
         LEEDDataConsolidator.Values :=
           Some [("Refrigerant Used", VStr "R-32")] |})]);
   ("manufacturer_datasheet",
    [("EACr6",
      {| LEEDDataConsolidator.Parameters := Some ["ODP"; "GWP"];
         LEEDDataConsolidator.Values :=
           Some [("ODP", VNum 0%float); ("GWP", VNum 675%float)] |})]);
   ("commissioning_report",
    [("EACr6",
      {| LEEDDataConsolidator.Parameters := Some ["GWP"; "Leakage Rate"];
         LEEDDataConsolidator.Values :=
           Some [("GWP", VNum 700%float); ("Leakage Rate", VNum 8%float)] |})])].

(** Two documents that give the same GWP. *)
Definition agreeing_documents : LEEDDataConsolidator.MultiDocData :=
  [("manufacturer_datasheet",
    [("EACr6",
      {| LEEDDataConsolidator.Parameters := Some ["GWP"];
         LEEDDataConsolidator.Values := Some [("GWP", VNum 675%float)] |})]);
   ("equipment_schedule",
    [("EACr6",
      {| LEEDDataConsolidator.Parameters := Some ["GWP"];
         LEEDDataConsolidator.Values := Some [("GWP", VNum 675%float)] |})])].

Definition latestOptions : LEEDDataConsolidator.Options :=
  {| LEEDDataConsolidator.conflictResolution := "latest";
     LEEDDataConsolidator.customPriorities := Obj.empty;
     LEEDDataConsolidator.manualResolutions := Obj.empty |}.

(** A manual choice that names a document outside the GWP conflict. *)
Definition manualOptions : LEEDDataConsolidator.Options :=
  {| LEEDDataConsolidator.conflictResolution := "manual";
     LEEDDataConsolidator.customPriorities := Obj.empty;
     LEEDDataConsolidator.manualResolutions :=
       [("GWP",
         {| LEEDDataConsolidator.chosenDocument := VStr "hvac_schedule_doc" |})] |}.

(* ================================================================== *)
(** ** LEEDUtils *)
(* ================================================================== *)

Module LEEDUtils.

(** What [validateData] returns. *)
Record Validation : Type := {
  valid : bool;
  missing : list string
}.

Definition validateData (data : Obj.t value) (requiredParams : list string)
  : Validation :=
  let missing :=
    filter
      (fun param =>
         isUndefined (Obj.prop data param) || isNull (Obj.prop data param)
         || strictEq (Obj.prop data param) (VStr ""))
      requiredParams in
  {| valid := Nat.eqb (length missing) 0; missing := missing |}.

End LEEDUtils.

(* ================================================================== *)
(** ** LEEDRuleEngine *)
(* ================================================================== *)

(** What a rule set's [assess] hands back: the result object of one of
    the two rule sets of the file. *)
Inductive Assessment : Type :=
| OfEACr6 (r : EACr6RuleSet.Result)
| OfIEQCr5 (r : IEQCr5RuleSet.Result).

(** The properties of an assessment result that its consumers read. *)
Module Assessed.

Definition creditId (a : Assessment) : string :=
  match a with
  | OfEACr6 r => EACr6RuleSet.creditId r
  | OfIEQCr5 r => IEQCr5RuleSet.creditId r
  end.

Definition awarded (a : Assessment) : bool :=
  match a with
  | OfEACr6 r => EACr6RuleSet.awarded r
  | OfIEQCr5 r => IEQCr5RuleSet.awarded r
  end.

Definition points (a : Assessment) : nat :=
  match a with
  | OfEACr6 r => EACr6RuleSet.points r
  | OfIEQCr5 r => IEQCr5RuleSet.points r
  end.

Definition gaps (a : Assessment) : list string :=
  match a with
  | OfEACr6 r => EACr6RuleSet.gaps r
  | OfIEQCr5 r => IEQCr5RuleSet.gaps r
  end.

Definition nonCompliant (a : Assessment) : list template :=
  match a with
  | OfEACr6 r => EACr6RuleSet.nonCompliant r
  | OfIEQCr5 r => IEQCr5RuleSet.nonCompliant r
  end.

End Assessed.

Module LEEDRuleEngine.

(** A rule set is an object with an [assess] method; the engine holds
    them by credit id, with the calculation module it passes on.  [A] is
    the type of the result objects. *)
Definition RuleSet (A : Type) : Type :=
  Obj.t value -> string -> Calc.t -> completion A.

Record t (A : Type) : Type := {
  credits : Obj.t (RuleSet A);
  calculationModule : Calc.t
}.

Section Methods.
Context {host : Host}.

(** [new LEEDRuleEngine()]. *)
Definition new : t Assessment := {|
  credits :=
    [("EACr6",
      fun data units calculationModule =>
        call r := EACr6RuleSet.assess data units calculationModule in
        Return (OfEACr6 r));
     ("IEQCr5",
      fun data units calculationModule =>
        Return (OfIEQCr5 (IEQCr5RuleSet.assess data units calculationModule)))];
  calculationModule := CalculationModule.new
|}.

End Methods.

Definition assessCredit (A : Type) (this : t A) (creditId : string)
    (data : Obj.t value) (units : string) : completion A :=
  match Obj.get (credits this) creditId with
  | None =>
      Throw (Error ("Credit " ++ creditId ++ " not found in rule engine")%string)
  | Some ruleSet => ruleSet data units (calculationModule this)
  end.


Definition getAvailableCredits (A : Type) (this : t A) : list string :=
  Obj.keys (credits this).

End LEEDRuleEngine.

(* ================================================================== *)
(** ** LEEDDataConsolidator: assessment, recommendations, validation *)
(* ================================================================== *)

Module Reports.
Import LEEDDataConsolidator.

(** What a recommendation carries besides its texts. *)
Inductive Payload : Type :=
| ParametersOf (parameters : list string)
| IssuesOf (issues : list template)
| ConflictsOf (conflicts : list string)
| PointsOf (points : nat).

Record Recommendation : Type := {
  type : string;
  priority : string;
  message : string;
  payload : Payload;
  action : string
}.

(** [l.join(sep)] on strings. *)
Definition join (sep : string) (l : list string) : string :=
  String.concat sep l.

Definition generateRecommendations (assessmentResult : Assessment)
    (consolidationResult : Consolidated) : list Recommendation :=
  let recommendations : list Recommendation := [] in
  (* Missing data recommendations *)
  let recommendations :=
    if Nat.ltb 0 (length (Assessed.gaps assessmentResult)) then
      recommendations ++
      [{| type := "missing_data"; priority := "high";
          message :=
            ("Required parameters missing: "
             ++ join ", " (Assessed.gaps assessmentResult))%string;
          payload := ParametersOf (Assessed.gaps assessmentResult);
          action :=
            "Provide values for missing parameters to complete assessment" |}]
    else recommendations in
  (* Non-compliance recommendations *)
  let recommendations :=
    if Nat.ltb 0 (length (Assessed.nonCompliant assessmentResult)) then
      recommendations ++
      [{| type := "non_compliance"; priority := "critical";
          message := "Credit requirements not met";
          payload := IssuesOf (Assessed.nonCompliant assessmentResult);
          action := "Address compliance issues to earn credit points" |}]
    else recommendations in
  (* Data conflict recommendations *)
  let recommendations :=
    if Nat.ltb 0 (length (Obj.keys (conflicts consolidationResult))) then
      recommendations ++
      [{| type := "data_conflicts"; priority := "medium";
          message := "Conflicting values found across documents";
          payload := ConflictsOf (Obj.keys (conflicts consolidationResult));
          action :=
            "Review and verify parameter values across all source documents" |}]
    else recommendations in
  (* Success recommendation *)
  if Assessed.awarded assessmentResult then
    recommendations ++
    [{| type := "success"; priority := "info";
        message :=
          ("Credit " ++ Assessed.creditId assessmentResult
           ++ " successfully earned")%string;
        payload := PointsOf (Assessed.points assessmentResult);
        action :=
          "Document and maintain compliance for final LEED submission" |}]
  else recommendations.

(** The options of [processAndAssess], with their defaults. *)
Record ProcessOptions : Type := {
  units : string;
  consolidation : Options;
  includeDetailedLog : bool
}.

Definition defaultProcessOptions : ProcessOptions :=
  {| units := "IP"; consolidation := defaultOptions;
     includeDetailedLog := false |}.

Record ConsolidationSummary : Type := {
  s_parametersFound : nat;
  s_documentsProcessed : nat;
  s_conflictsDetected : nat;
  s_conflictsResolved : nat;
  s_dataSources : Obj.t value
}.

Record DetailedLog : Type := {
  d_conflicts : Obj.t (list Candidate);
  d_resolutionLog : list LogEntry;
  d_processingLog : list string
}.

(** What [processAndAssess] returns; [detailedLog] is set on request. *)
Record Processed : Type := {
  assessment : Assessment;
  summary : ConsolidationSummary;
  recommendations : list Recommendation;
  detailedLog : option DetailedLog
}.

Definition processAndAssess (multiDocData : MultiDocData) (creditId : string)
    (ruleEngine : LEEDRuleEngine.t Assessment) (options : ProcessOptions)
  : completion Processed :=
  (* Step 1: Consolidate data from multiple documents *)
  call consolidationResult :=
    consolidateData multiDocData creditId (consolidation options) in
  (* Step 2: Assess with rule engine *)
  call assessmentResult :=
    LEEDRuleEngine.assessCredit ruleEngine creditId
      (data consolidationResult) (units options) in
  (* Step 3: Generate recommendations *)
  let recommendations :=
    generateRecommendations assessmentResult consolidationResult in
  (* Step 4: Compile final result *)
  Return
    {| assessment := assessmentResult;
       summary :=
         {| s_parametersFound :=
              parametersFound (processingInfo consolidationResult);
            s_documentsProcessed :=
              documentsProcessed (processingInfo consolidationResult);
            s_conflictsDetected :=
              conflictsDetected (processingInfo consolidationResult);
            s_conflictsResolved :=
              conflictsResolved (processingInfo consolidationResult);
            s_dataSources := sources consolidationResult |};
       recommendations := recommendations;
       detailedLog :=
         if includeDetailedLog options then
           Some {| d_conflicts := conflicts consolidationResult;
                   d_resolutionLog := resolutionLog consolidationResult;
                   d_processingLog := processingLog consolidationResult |}
         else None |}.

(** What [validateDataStructure] returns. *)
Record StructureValidation : Type := {
  v_valid : bool;
  v_errors : list string;
  v_warnings : list string;
  v_documentCount : nat;
  v_creditCoverage : Obj.t (list string)
}.

(** The check of one expected credit in one document that is an object. *)
Definition checkCredit (docName : string) (docData : DocData)
    (validation : StructureValidation) (creditId : string)
  : StructureValidation :=
  match Obj.get docData creditId with
  | Some creditData =>
      let coverage :=
        match Obj.get (v_creditCoverage validation) creditId with
        | None => Obj.set (v_creditCoverage validation) creditId []
        | Some _ => v_creditCoverage validation
        end in
      let coverage :=
        match Obj.get coverage creditId with
        | Some l => Obj.set coverage creditId (l ++ [docName])
        | None => coverage
        end in
      (* Validate credit structure *)
      let warnings :=
        match Parameters creditData with
        | None =>
            v_warnings validation ++
            [("Document " ++ docName ++ ", Credit " ++ creditId
              ++ ": Missing or invalid Parameters array")%string]
        | Some _ => v_warnings validation
        end in
      let warnings :=
        match Values creditData with
        | None =>
            warnings ++
            [("Document " ++ docName ++ ", Credit " ++ creditId
              ++ ": Missing or invalid Values object")%string]
        | Some _ => warnings
        end in
      {| v_valid := v_valid validation; v_errors := v_errors validation;
         v_warnings := warnings;
         v_documentCount := v_documentCount validation;
         v_creditCoverage := coverage |}
  | None => validation
  end.

(** The body of the loop over documents; a document that is not an
    object ([null], a string, a number) is [None]. *)
Definition checkDocument (expectedCredits : list string)
    (validation : StructureValidation) (entry : string * option DocData)
  : StructureValidation :=
  let '(docName, docData) := entry in
  match docData with
  | None =>
      {| v_valid := false;
         v_errors :=
           v_errors validation ++
           [("Document " ++ docName ++ ": Invalid structure")%string];
         v_warnings := v_warnings validation;
         v_documentCount := v_documentCount validation;
         v_creditCoverage := v_creditCoverage validation |}
  | Some docData =>
      (* Check for expected credits *)
      fold_left (checkCredit docName docData) expectedCredits validation
  end.

(** [validateDataStructure]; an argument that is not an object is
    [None]. *)
Definition validateDataStructure
    (multiDocData : option (Obj.t (option DocData)))
    (expectedCredits : list string) : StructureValidation :=
  let validation :=
    {| v_valid := true; v_errors := []; v_warnings := [];
       v_documentCount := 0; v_creditCoverage := Obj.empty |} in
  match multiDocData with
  | None =>
      {| v_valid := false;
         v_errors :=
           v_errors validation ++
           ["Invalid data structure: expected object with document keys"];
         v_warnings := v_warnings validation;
         v_documentCount := v_documentCount validation;
         v_creditCoverage := v_creditCoverage validation |}
  | Some multiDocData =>
      let validation :=
        {| v_valid := v_valid validation; v_errors := v_errors validation;
           v_warnings := v_warnings validation;
           v_documentCount := length (Obj.keys multiDocData);
           v_creditCoverage := v_creditCoverage validation |} in
      (* Validate each document *)
      fold_left (checkDocument expectedCredits) multiDocData validation
  end.

End Reports.

(* ================================================================== *)
(** ** RuleEngine: the other credits and evaluateCredit *)
(* ================================================================== *)

Module RuleEngineCredits.
Import RuleEngine.

(** What [checkIEQCr5Part1] and [checkIEQCr5Part2] return; their
    messages are plain strings and [calculations] holds named numbers. *)
Record PartCheck : Type := {
  pc_compliant : bool;
  pc_gaps : list string;
  pc_nonCompliant : list string;
  pc_calculations : Obj.t float
}.

(** The result object of [evaluateCredit] for any credit.  [result]
    holds the fields every credit fills in; its [calculations] is the
    refrigerant-impact object of EACr6, and [numbers] holds what the
    other credits store under [calculations] ([waterReduction],
    [energyImprovement], [thermalControlPercentage]); [error] is set by
    the [catch] of [evaluateCredit]. *)
Record Evaluation : Type := {
  result : Result;
  numbers : Obj.t float;
  error : option string
}.

(** An evaluator mutates the result object it is given, so the object
    as it stands at a [throw] is what the [catch] goes on with. *)
Inductive outcome : Type :=
| Done (r : Evaluation)
| Raised (r : Evaluation) (e : exn).

(** Assignments to the fields of the result object. *)
Definition setOutcome (r : Evaluation) (awardedPoints : nat) (status : string)
  : Evaluation :=
  {| result :=
       {| creditId := creditId (result r); creditName := creditName (result r);
          maxPoints := maxPoints (result r);
          awardedPoints := awardedPoints; status := status;
          gaps := gaps (result r); nonCompliant := nonCompliant (result r);
          calculations := calculations (result r);
          details := details (result r) |};
     numbers := numbers r; error := error r |}.

Definition setStatus (r : Evaluation) (status : string) : Evaluation :=
  setOutcome r (awardedPoints (result r)) status.

Definition setGaps (r : Evaluation) (g : list string) : Evaluation :=
  {| result :=
       {| creditId := creditId (result r); creditName := creditName (result r);
          maxPoints := maxPoints (result r);
          awardedPoints := awardedPoints (result r);
          status := status (result r);
          gaps := g; nonCompliant := nonCompliant (result r);
          calculations := calculations (result r);
          details := details (result r) |};
     numbers := numbers r; error := error r |}.

Definition setNonCompliant (r : Evaluation) (n : list template) : Evaluation :=
  {| result :=
       {| creditId := creditId (result r); creditName := creditName (result r);
          maxPoints := maxPoints (result r);
          awardedPoints := awardedPoints (result r);
          status := status (result r);
          gaps := gaps (result r); nonCompliant := n;
          calculations := calculations (result r);
          details := details (result r) |};
     numbers := numbers r; error := error r |}.

Definition setNumbers (r : Evaluation) (n : Obj.t float) : Evaluation :=
  {| result := result r; numbers := n; error := error r |}.

(** [RULE_DEFINITIONS[creditId]]: the name and the maximum points. *)
Definition RULE_DEFINITIONS : Obj.t (string * nat) :=
  [("EACr6", ("Enhanced Refrigerant Management", 1));
   ("IEQCr5", ("Indoor Environmental Quality", 1));
   ("WECr1", ("Water Efficiency - Outdoor Water Use Reduction", 2));
   ("EACr1", ("Energy Performance - Optimize Energy Performance", 18));
   ("SSCr1", ("Sustainable Sites - Site Assessment", 1));
   ("MRCr1",
    ("Materials and Resources - Building Life-Cycle Impact Reduction", 5));
   ("IEQCr1",
    ("Indoor Environmental Quality - Enhanced Indoor Air Quality Strategies",
     2))].

(** [RULE_DEFINITIONS.EACr1.rules.calculation.thresholds]. *)
Definition thresholds : Obj.t (Obj.t nat) :=
  [("new_buildings",
    [("6%", 1); ("8%", 2); ("10%", 3); ("12%", 4); ("14%", 5);
     ("16%", 6); ("18%", 7); ("20%", 8); ("22%", 9); ("24%", 10);
     ("26%", 11); ("28%", 12); ("30%", 13); ("32%", 14); ("34%", 15);
     ("36%", 16); ("38%", 17); ("40%", 18)]);
   ("existing_buildings",
    [("3%", 1); ("6%", 2); ("9%", 3); ("12%", 4); ("15%", 5);
     ("18%", 6); ("21%", 7); ("24%", 8); ("27%", 9); ("30%", 10);
     ("33%", 11); ("36%", 12); ("39%", 13); ("42%", 14); ("45%", 15);
     ("48%", 16); ("51%", 17); ("54%", 18)])].

(** [s.replace('%', '')]: the first percent sign is dropped. *)
Fixpoint dropPercent (s : string) : string :=
  match s with
  | EmptyString => EmptyString
  | String c r =>
      if Ascii.eqb c "%"%char then r else String c (dropPercent r)
  end.

(** [!x] on a number. *)
Definition falsyNumber (x : float) : bool :=
  PrimFloat.eqb x 0%float || isNaN x.

Section Methods.
Context {host : Host}.

(** [parseInt] on a parameter value, which the runtime supplies. *)
Variable parseInt : value -> float.

Definition requiredDocs : list string :=
  ["Operative Temperature Range"; "Relative Humidity Range";
   "Air Speed"; "Clothing Insulation"; "Metabolic Rate";
   "Weather Data Source"].

Definition checkIEQCr5Part1 (data : Obj.t value) : PartCheck :=
  let gaps : list string := [] in
  let nonCompliant : list string := [] in
  let compliant := true in
  (* Check Compliance Path *)
  let '(gaps, compliant) :=
    if negb (truthy (Obj.prop data "Compliance Path"))
    then (gaps ++ ["Compliance Path"], false)
    else (gaps, compliant) in
  (* Check PMV range (-0.5 to 0.5) *)
  let pmv := parseFloat (Obj.prop data "PMV") in
  let '(nonCompliant, compliant) :=
    if falsyNumber pmv || PrimFloat.ltb pmv (-0.5)%float
       || PrimFloat.ltb 0.5%float pmv
    then (nonCompliant ++ ["PMV must be between -0.5 and 0.5"], false)
    else (nonCompliant, compliant) in
  (* Check PPD < 10% *)
  let ppd := parseFloat (Obj.prop data "PPD") in
  let '(nonCompliant, compliant) :=
    if falsyNumber ppd || PrimFloat.leb 10%float ppd
    then (nonCompliant ++ ["PPD must be less than 10%"], false)
    else (nonCompliant, compliant) in
  (* Check required documentation *)
  let '(gaps, compliant) :=
    fold_left
      (fun '(gaps, compliant) param =>
         if negb (truthy (Obj.prop data param))
         then (gaps ++ [param], false)
         else (gaps, compliant))
      requiredDocs (gaps, compliant) in
  {| pc_compliant := compliant; pc_gaps := gaps;
     pc_nonCompliant := nonCompliant; pc_calculations := Obj.empty |}.

Definition checkIEQCr5Part2 (data : Obj.t value) : PartCheck :=
  let gaps : list string := [] in
  let nonCompliant : list string := [] in
  let compliant := true in
  let calculations : Obj.t float := Obj.empty in
  (* Calculate thermal control percentage *)
  let totalSpaces := parseInt (Obj.prop data "Total Individual Spaces") in
  let controlledSpaces := parseInt (Obj.prop data "Controlled Spaces") in
  let '(gaps, nonCompliant, compliant, calculations) :=
    if falsyNumber totalSpaces || falsyNumber controlledSpaces then
      (gaps ++ ["Total Individual Spaces and Controlled Spaces required"],
       nonCompliant, false, calculations)
    else
      let percentage := ((controlledSpaces / totalSpaces) * 100)%float in
      let calculations :=
        Obj.set calculations "thermalControlPercentage" percentage in
      if PrimFloat.ltb percentage 50%float
      then (gaps,
            nonCompliant ++ ["Thermal control percentage must be â‰¥ 50%"],
            false, calculations)
      else (gaps, nonCompliant, compliant, calculations) in
  (* Check markup requirements *)
  let '(gaps, compliant) :=
    if negb (truthy (Obj.prop data "Group Controls"))
    then (gaps ++ ["Group Controls markup"], false)
    else (gaps, compliant) in
  let '(gaps, compliant) :=
    if negb (truthy (Obj.prop data "Thermostat Locations"))
    then (gaps ++ ["Thermostat Locations markup"], false)
    else (gaps, compliant) in
  {| pc_compliant := compliant; pc_gaps := gaps;
     pc_nonCompliant := nonCompliant; pc_calculations := calculations |}.

Definition evaluateIEQCr5 (data : Obj.t value) (result : Evaluation)
  : Evaluation :=
  (* Part 1: Thermal Comfort Requirements *)
  let part1Result := checkIEQCr5Part1 data in
  (* Part 2: Individual Thermal Controls *)
  let part2Result := checkIEQCr5Part2 data in
  let result :=
    if pc_compliant part1Result && pc_compliant part2Result then
      setOutcome result 1 "compliant"
    else
      let result := setStatus result "non_compliant" in
      let result :=
        setGaps result (pc_gaps part1Result ++ pc_gaps part2Result) in
      setNonCompliant result
        (map (fun m => [Lit m])
           (pc_nonCompliant part1Result ++ pc_nonCompliant part2Result)) in
  setNumbers result
    (Obj.spread (pc_calculations part1Result) (pc_calculations part2Result)).

Definition evaluateWECr1 (data : Obj.t value) (result : Evaluation)
  : Evaluation :=
  let baselineWater := parseFloat (Obj.prop data "Baseline Water Use") in
  let designWater := parseFloat (Obj.prop data "Design Water Use") in
  if falsyNumber baselineWater || falsyNumber designWater then
    let result := setStatus result "gaps" in
    setGaps result
      (gaps (RuleEngineCredits.result result)
       ++ ["Baseline Water Use and Design Water Use required"])
  else
    let reduction :=
      (((baselineWater - designWater) / baselineWater) * 100)%float in
    let result :=
      setNumbers result (Obj.set (numbers result) "waterReduction" reduction) in
    if PrimFloat.leb 50%float reduction then
      setOutcome result 2 "compliant"
    else if PrimFloat.leb 30%float reduction then
      setOutcome result 1 "compliant"
    else
      let result := setStatus result "non_compliant" in
      setNonCompliant result
        (nonCompliant (RuleEngineCredits.result result)
         ++ [[Lit "Water reduction ("; FixedSub reduction 1;
              Lit "%) insufficient"]]).

(** [thresholds[buildingType]]: only a string can name a table. *)
Definition thresholdsFor (buildingType : value) : option (Obj.t nat) :=
  match buildingType with
  | VStr s => Obj.get thresholds s
  | _ => None
  end.

Definition evaluateEACr1 (data : Obj.t value) (result : Evaluation)
  : outcome :=
  let baselineEnergy := parseFloat (Obj.prop data "Baseline Energy Use") in
  let designEnergy := parseFloat (Obj.prop data "Design Energy Use") in
  let buildingType :=
    if truthy (Obj.prop data "Building Type")
    then Obj.prop data "Building Type" else VStr "new_buildings" in
  if falsyNumber baselineEnergy || falsyNumber designEnergy then
    let result := setStatus result "gaps" in
    Done (setGaps result
            (gaps (RuleEngineCredits.result result)
             ++ ["Baseline Energy Use and Design Energy Use required"]))
  else
    let improvement :=
      (((baselineEnergy - designEnergy) / baselineEnergy) * 100)%float in
    let result :=
      setNumbers result
        (Obj.set (numbers result) "energyImprovement" improvement) in
    match thresholdsFor buildingType with
    | None =>
        (* [Object.entries(undefined)] *)
        Raised result (TypeError "Cannot convert undefined or null to object")
    | Some thresholds =>
        let points :=
          fold_left
            (fun points entry =>
               let thresholdNum :=
                 parseFloat (VStr (dropPercent (fst entry))) in
               if PrimFloat.leb thresholdNum improvement
               then snd entry else points)
            thresholds 0 in
        Done (setOutcome result points
                (if Nat.ltb 0 points then "compliant" else "non_compliant"))
    end.

Definition evaluateSSCr1 (data : Obj.t value) (result : Evaluation)
  : Evaluation :=
  let requiredDocs :=
    ["Site Survey"; "Environmental Features"; "Previous Use";
     "Surrounding Development"; "Transportation Options"] in
  let gaps :=
    fold_left
      (fun gaps param =>
         if negb (truthy (Obj.prop data param)) then gaps ++ [param]
         else gaps)
      requiredDocs [] in
  if Nat.eqb (length gaps) 0 then setOutcome result 1 "compliant"
  else setGaps (setStatus result "gaps") gaps.

Definition evaluateMRCr1 (data : Obj.t value) (result : Evaluation)
  : Evaluation :=
  (* Check different options *)
  let buildingReusePercentage :=
    parseFloat (Obj.prop data "Building Reuse Percentage") in
  let structuralReuse :=
    parseFloat (Obj.prop data "Structural Elements Reuse") in
  let enclosureReuse :=
    parseFloat (Obj.prop data "Enclosure Materials Reuse") in
  let lcaImprovement :=
    parseFloat (Obj.prop data "Life Cycle Assessment Improvement") in
  let points := 0 in
  (* Option 1: Historic Building Reuse *)
  let points :=
    if PrimFloat.leb 50%float buildingReusePercentage
    then Nat.max points 2 else points in
  (* Option 2: Renovation *)
  let points :=
    if PrimFloat.leb 50%float structuralReuse
    then Nat.max points 2 else points in
  let points :=
    if PrimFloat.leb 50%float enclosureReuse
    then Nat.max points (points + 1) else points in
  (* Option 3: LCA *)
  let points :=
    if PrimFloat.leb 10%float lcaImprovement
    then Nat.max points 3 else points in
  setOutcome result (Nat.min points 5)
    (if Nat.ltb 0 points then "compliant" else "non_compliant").

Definition evaluateIEQCr1 (data : Obj.t value) (result : Evaluation)
  : Evaluation :=
  let points := 0 in
  let points :=
    if truthy (Obj.prop data "Outdoor Air Delivery Monitoring")
    then points + 1 else points in
  let points :=
    if strictEq (Obj.prop data "Increased Ventilation")
         (VStr "30_percent_above_standard")
    then points + 1 else points in
  let points :=
    if strictEq (Obj.prop data "Air Filtration") (VStr "MERV_13_or_higher")
    then points + 1 else points in
  setOutcome result (Nat.min points 2)
    (if Nat.ltb 0 points then "compliant" else "non_compliant").

(** [evaluateCredit]: an unknown credit throws before the [try]; inside
    it an exception is turned into status [error] on the result object
    as the evaluator left it. *)
Definition evaluateCredit (creditId : string) (extractedData : Obj.t value)
    (unitSystem : string) : completion Evaluation :=
  match Obj.get RULE_DEFINITIONS creditId with
  | None =>
      Throw (Error ("Rule not found for credit: " ++ creditId)%string)
  | Some (name, maxPoints) =>
      let result :=
        {| result :=
             {| creditId := creditId; creditName := name;
                maxPoints := maxPoints; awardedPoints := 0;
                status := "pending"; gaps := []; nonCompliant := [];
                calculations := None; details := [] |};
           numbers := Obj.empty; error := None |} in
      let caught (r : Evaluation) (e : exn) : Evaluation :=
        {| result := RuleEngineCredits.result (setStatus r "error");
           numbers := numbers r; error := Some (message e) |} in
      let finish (o : outcome) : completion Evaluation :=
        match o with
        | Done r => Return r
        | Raised r e => Return (caught r e)
        end in
      if String.eqb creditId "EACr6" then
        finish
          (Done {| result :=
                     evaluateEACr6 extractedData unitSystem
                       (RuleEngineCredits.result result);
                   numbers := numbers result; error := error result |})
      else if String.eqb creditId "IEQCr5" then
        finish (Done (evaluateIEQCr5 extractedData result))
      else if String.eqb creditId "WECr1" then
        finish (Done (evaluateWECr1 extractedData result))
      else if String.eqb creditId "EACr1" then
        finish (evaluateEACr1 extractedData result)
      else if String.eqb creditId "SSCr1" then
        finish (Done (evaluateSSCr1 extractedData result))
      else if String.eqb creditId "MRCr1" then
        finish (Done (evaluateMRCr1 extractedData result))
      else if String.eqb creditId "IEQCr1" then
        finish (Done (evaluateIEQCr1 extractedData result))
      else
        finish
          (Raised result
             (Error ("Evaluation not implemented for credit: "
                     ++ creditId)%string))
  end.

(** The utility methods. *)
Definition checkParameterPresence (data : Obj.t value) (parameter : string)
  : bool :=
  negb (isUndefined (Obj.prop data parameter))
  && negb (isNull (Obj.prop data parameter))
  && negb (strictEq (Obj.prop data parameter) (VStr "")).

Definition checkNumericRange (v : value) (min max : float) : bool :=
  let num := parseFloat v in
  negb (isNaN num) && PrimFloat.leb min num && PrimFloat.leb num max.

End Methods.

(** [calculatePercentage] on numbers. *)
Definition calculatePercentage (numerator denominator : float) : float :=
  if falsyNumber denominator || PrimFloat.eqb denominator 0%float
  then 0%float
  else ((numerator / denominator) * 100)%float.

End RuleEngineCredits.

(* ================================================================== *)
(** ** Vocabulary for the properties of resolution and evaluation *)
(* ================================================================== *)

(** What the proofs about conflict resolution speak of. *)
Module Strategy.
Import LEEDDataConsolidator Consolidation.

(** The loop of [resolveBypriority]. *)
Definition bestOf (priorities : Obj.t float) (l : list Candidate)
    (acc : completion (Candidate * float)) : completion (Candidate * float) :=
  fold_left
    (fun acc conflict =>
       call best := acc in
       call priority := getDocumentPriority (document conflict) priorities in
       if PrimFloat.ltb (snd best) priority
       then Return (conflict, priority)
       else Return best)
    l acc.

(** The running best is one of the candidates seen, carries that
    candidate's priority, and no candidate seen has a priority above
    it. *)
Definition leads (priorities : Obj.t float) (first : Candidate)
    (seen : list Candidate) (best : Candidate * float) : Prop :=
  In (fst best) (first :: seen)
  /\ getDocumentPriority (document (fst best)) priorities = Return (snd best)
  /\ forall c q,
       In c seen ->
       getDocumentPriority (document c) priorities = Return q ->
       PrimFloat.ltb (snd best) q = false.

(** Conflicts as a consistent state of the document loop holds them:
    each list starts with the recorded value and source, its candidates
    are sound, and its parameter is a key of the data and of the
    sources. *)
Definition wellFormed (data dataSources : Obj.t value)
    (cs : Obj.t (list Candidate)) : Prop :=
  forall p l,
    In (p, l) cs ->
    (exists rest,
       l = {| document := Obj.prop dataSources p; val := Obj.prop data p |}
           :: rest)
    /\ Forall sound l
    /\ In p (Obj.keys data) /\ In p (Obj.keys dataSources).

End Strategy.

(** What the result objects of [RuleEngine.evaluateCredit] are checked
    against. *)
Module Evaluated.
Import RuleEngine RuleEngineCredits.

(** The result object as [evaluateCredit] creates it: no points, no gaps
    and no issues yet. *)
Definition fresh (r : Evaluation) : Prop :=
  awardedPoints (result r) = 0
  /\ gaps (result r) = []
  /\ nonCompliant (result r) = [].

(** Points and status agree: the points are within the maximum, the
    status is [compliant] exactly when points were awarded, and it is no
    longer [pending]. *)
Definition agrees (r : Evaluation) : Prop :=
  awardedPoints (result r) <= maxPoints (result r)
  /\ (status (result r) = "compliant" <-> 0 < awardedPoints (result r))
  /\ In (status (result r)) ["compliant"; "non_compliant"; "gaps"; "error"].

(** A compliant result lists no gap and no issue. *)
Definition clean (r : Evaluation) : Prop :=
  status (result r) = "compliant" ->
  gaps (result r) = [] /\ nonCompliant (result r) = [].

End Evaluated.

(** Whether an entry of the multi-document input holds an object. *)
Definition isObject (entry : string * option LEEDDataConsolidator.DocData)
  : bool :=
  match snd entry with Some _ => true | None => false end.

(* ================================================================== *)
(** ** A runtime for the worked examples *)
(* ================================================================== *)

(** The value of a string of decimal digits, [None] when another
    character occurs. *)
Fixpoint digitsValue (s : string) (acc : float) : option float :=
  match s with
  | EmptyString => Some acc
  | String c r =>
      let n := nat_of_ascii c in
      if Nat.leb 48 n && Nat.leb n 57 then
        digitsValue r
          (acc * 10 +
           nth (n - 48)
             [0; 1; 2; 3; 4; 5; 6; 7; 8; 9]%float nan)%float
      else None
  end.

(** A runtime that reads a string of up to fifteen decimal digits as
    JavaScript does (the digits' value is exact in binary64) and anything
    else as [NaN]; the empty string is [NaN] for [parseFloat] and [0] for
    [ToNumber].  The worked examples below use no other numeric strings. *)
Definition decimalHost : Host := {|
  parseFloatStr s :=
    match s with
    | EmptyString => nan
    | _ => match digitsValue s 0%float with Some x => x | None => nan end
    end;
  toNumberStr s :=
    match digitsValue s 0%float with Some x => x | None => nan end
|}.

(** The three EACr6 cases and the third IEQCr5 case of [getStaticTestData]. *)
Definition eaCr6_option1_pass : Obj.t value :=
  [("Refrigerant Used", VStr "R-1234ze(E)");
   ("ODP", VNum 0%float);
   ("GWP", VNum 4%float);
   ("Confirmation Statement",
    VStr "Yes - All equipment uses low-GWP refrigerants");
   ("Equipment Type", VStr "Heat Pump");
   ("Equipment Quantity", VNum 2%float);
   ("Equipment Cooling Capacity", VNum 50%float)].

Definition eaCr6_fail : Obj.t value :=
  [("Refrigerant Used", VStr "R-410A");
   ("ODP", VNum 0%float);
   ("GWP", VNum 2088%float);
   ("Equipment Type", VStr "Split System");
   ("Refrigerant charge", VNum 8%float);
   ("Leakage Rate", VNum 15%float);
   ("Equipment Life", VNum 15%float);
   ("Equipment Cooling Capacity", VNum 25%float);
   ("Equipment Quantity", VNum 10%float)].

Definition ieqCr5_fail_spaces : Obj.t value :=
  [("Compliance Path", VStr "ASHRAE 55-2017");
   ("PMV", VNum 0.2%float);
   ("PPD", VNum 6%float);
   ("Operative Temperature Range", VStr "68-76F");
   ("Relative Humidity Range", VStr "30-60%");
   ("Air Speed", VStr "0.15 m/s");
   ("Clothing Insulation", VStr "0.5 clo");
   ("Metabolic Rate", VStr "1.0 met");
   ("Weather Data Source", VStr "TMY3");
   ("Total Individual Spaces", VNum 200%float);
   ("Controlled Spaces", VNum 85%float);
   ("Group Controls", VStr "Yes");
   ("Thermostat Locations", VStr "Per drawings")].

(** Option 1 met exactly at its limits: ODP the number 0, GWP 49.999. *)
Definition eaCr6_boundary : Obj.t value :=
  [("Refrigerant Used", VStr "R-1234ze(E)");
   ("ODP", VNum 0%float);
   ("GWP", VNum 49.999%float);
   ("Confirmation Statement", VStr "Yes")].

(** The same low-impact refrigerant with ODP given as the string ["0"]. *)
Definition eaCr6_string_odp : Obj.t value :=
  [("Refrigerant Used", VStr "R-1234ze(E)");
   ("ODP", VStr "0");
   ("GWP", VNum 4%float);
   ("Confirmation Statement", VStr "Yes")].

(** A calculation-path project for [RuleEngine]: R-32 with a small charge
    and no confirmation statement. *)
Definition r32_small_charge : Obj.t value :=
  [("Refrigerant Used", VStr "R-32");
   ("ODP", VNum 0%float);
   ("GWP", VNum 675%float);
   ("Refrigerant Charge", VNum 1%float);
   ("Leakage Rate", VNum 2%float);
   ("Equipment Life", VNum 15%float);
   ("Equipment Cooling Capacity", VNum 25%float);
   ("Equipment Quantity", VNum 10%float)].

(** R-410A with neither a confirmation statement nor a leakage rate. *)
Definition r410a_incomplete : Obj.t value :=
  [("Refrigerant Used", VStr "R-410A");
   ("ODP", VNum 0%float);
   ("GWP", VNum 2088%float);
   ("Refrigerant Charge", VNum 8%float);
   ("Equipment Life", VNum 15%float);
   ("Equipment Cooling Capacity", VNum 25%float);
   ("Equipment Quantity", VNum 10%float)].

(** A calculation module whose refrigerant-impact calculation fails, as
    an injected module may. *)
Definition failingModule : Calc.t := {|
  Calc.calculateRefrigerantImpact _ _ :=
    Throw (Error "Equipment life must be greater than 0");
  Calc.calculateSpacePercentage _ _ :=
    Throw (Error "Total spaces must be greater than 0")
|}.

(** A thermal-comfort submission whose space count is negative. *)
Definition ieqCr5_negative_spaces : Obj.t value :=
  [("Compliance Path", VStr "ASHRAE 55-2017");
   ("PMV", VNum 0.2%float);
   ("PPD", VNum 6%float);
   ("Total Individual Spaces", VNum (-5)%float);
   ("Controlled Spaces", VNum 85%float);
   ("Group Controls", VStr "Yes");
   ("Thermostat Locations", VStr "Per drawings")].

(** A low-impact refrigerant whose GWP was extracted as text that is not
    a number. *)
Definition eaCr6_unreadable_gwp : Obj.t value :=
  [("Refrigerant Used", VStr "R-1234ze(E)");
   ("ODP", VNum 0%float);
   ("GWP", VStr "unknown");
   ("Confirmation Statement", VStr "Yes")].

(** A thermal-comfort submission whose PMV and PPD were extracted as text. *)
Definition ieqCr5_unreadable_indices : Obj.t value :=
  [("Compliance Path", VStr "ASHRAE 55-2017");
   ("PMV", VStr "n/a");
   ("PPD", VStr "n/a")].


(** A schedule that lists GWP twice for EACr6. *)
Definition repeated_gwp_document : LEEDDataConsolidator.MultiDocData :=
  [("equipment_schedule",
    [("EACr6",
      {| LEEDDataConsolidator.Parameters := Some ["GWP"; "ODP"; "GWP"];
         LEEDDataConsolidator.Values :=
           Some [("GWP", VNum 675%float); ("ODP", VNum 0%float)] |})])].

(** The GWP candidates of [gwp_documents]. *)
Definition gwp_candidates : list LEEDDataConsolidator.Candidate :=
  [{| LEEDDataConsolidator.document := VStr "manufacturer_datasheet";
      LEEDDataConsolidator.val := VNum 675%float |};
   {| LEEDDataConsolidator.document := VStr "commissioning_report";
      LEEDDataConsolidator.val := VNum 700%float |}].

(** A strategy name that [resolveConflicts] does not know. *)
Definition newestOptions : LEEDDataConsolidator.Options :=
  {| LEEDDataConsolidator.conflictResolution := "newest";
     LEEDDataConsolidator.customPriorities := Obj.empty;
     LEEDDataConsolidator.manualResolutions := Obj.empty |}.

(** [parseInt] for the worked examples, which pass whole numbers and
    strings of digits only. *)
Definition wholeNumberParseInt : value -> float :=
  fun v =>
    match v with
    | VNum x => x
    | VStr s => @parseFloatStr decimalHost s
    | _ => nan
    end.

(** A thermally neutral space: PMV and PPD both zero. *)
Definition neutral_comfort : Obj.t value :=
  [("Compliance Path", VStr "ASHRAE 55-2017");
   ("PMV", VNum 0%float);
   ("PPD", VNum 0%float)].

(** A landscape that needs no irrigation, and a building with no energy
    use. *)
Definition no_irrigation : Obj.t value :=
  [("Baseline Water Use", VNum 1000%float);
   ("Design Water Use", VNum 0%float);
   ("Baseline Energy Use", VNum 500%float);
   ("Design Energy Use", VNum 0%float)].

(** An energy model for a building type that has no threshold table. *)
Definition warehouse_energy : Obj.t value :=
  [("Baseline Energy Use", VNum 100%float);
   ("Design Energy Use", VNum 80%float);
   ("Building Type", VStr "warehouse")].

(** An ammonia chiller: ODP and GWP are both zero. *)
Definition ammonia_chiller : Obj.t value :=
  [("Refrigerant Used", VStr "R-717");
   ("ODP", VNum 0%float);
   ("GWP", VNum 0%float);
   ("Confirmation Statement", VStr "Yes");
   ("Refrigerant Charge", VNum 8%float);
   ("Leakage Rate", VNum 2%float);
   ("Equipment Life", VNum 15%float);
   ("Equipment Cooling Capacity", VNum 25%float);
   ("Equipment Quantity", VNum 10%float)].

(* ================================================================== *)
(** ** Proof tools *)
(* ================================================================== *)

(** Split on the condition of the outermost [if] of the goal. *)
Ltac split_if :=
  match goal with
  | |- context [if ?b then _ else _] => destruct b eqn:?
  end.

(** Invert an equation between completions or options. *)
Ltac returned :=
  repeat match goal with
  | H : Return _ = Return _ |- _ => injection H as H; subst
  | H : Some _ = Some _ |- _ => injection H as H; subst
  | H : Throw _ = Return _ |- _ => discriminate H
  | H : Return _ = Throw _ |- _ => discriminate H
  | H : None = Some _ |- _ => discriminate H
  | H : Some _ = None |- _ => discriminate H
  end.

(* ================================================================== *)
(** ** The test cases, run *)
(* ================================================================== *)

Section Examples.
Existing Instance decimalHost.

Example eaCr6_option1_pass_run :
  exists r,
    EACr6RuleSet.assess eaCr6_option1_pass "IP" CalculationModule.new = Return r
    /\ EACr6RuleSet.awarded r = true
    /\ EACr6RuleSet.points r = 1
    /\ EACr6RuleSet.option r = Some 1.
Proof. eexists. split; [ vm_compute; reflexivity | repeat split ]. Qed.

Example eaCr6_fail_run :
  exists r w,
    EACr6RuleSet.assess eaCr6_fail "IP" CalculationModule.new = Return r
    /\ EACr6RuleSet.awarded r = false
    /\ EACr6RuleSet.option r = Some 2
    /\ EACr6RuleSet.gaps r = []
    /\ EACr6RuleSet.nonCompliant r =
         [[Lit "Weighted average ("; FixedSub w 2;
           Lit ") exceeds threshold ("; NumSub 100%float; Lit ")"]]
    /\ PrimFloat.ltb 100%float w = true.
Proof. do 2 eexists. split; [ vm_compute; reflexivity | repeat split ]. Qed.

Example ieqCr5_fail_spaces_run :
  let r := IEQCr5RuleSet.assess ieqCr5_fail_spaces "IP" CalculationModule.new in
  IEQCr5RuleSet.awarded r = false
  /\ IEQCr5RuleSet.gaps r = []
  /\ IEQCr5RuleSet.nonCompliant r =
       [[Lit "Controlled spaces percentage ("; FixedSub 42.5%float 1;
         Lit "%) is not greater than 50%"]].
Proof. vm_compute. repeat split. Qed.

End Examples.

(* ================================================================== *)
(** ** EACr6RuleSet: what the options report *)
(* ================================================================== *)

Module EACr6Facts.
Import EACr6RuleSet.

Section Facts.
Context {host : Host}.

(** The missing-parameter loop only ever touches [gaps]. *)
Lemma pushGaps_frame (data : Obj.t value) (ps : list string) :
  forall r,
    let r' :=
      fold_left
        (fun result param =>
           if missing (Obj.prop data param) then o2_pushGap result param
           else result) ps r in
    o2_compliant r' = o2_compliant r
    /\ o2_nonCompliant r' = o2_nonCompliant r
    /\ o2_calculations r' = o2_calculations r.
Proof.
  induction ps as [|p ps IH]; intros r; cbn.
  - repeat split.
  - destruct (missing (Obj.prop data p)).
    + specialize (IH (o2_pushGap r p)). cbn in IH. exact IH.
    + apply IH.
Qed.

(** Before the calculation nothing is compliant, nothing non-compliant. *)
Lemma checkMissing_frame (data : Obj.t value) (r : Option2Result) :
  checkMissing data = Return r ->
  o2_compliant r = false /\ o2_nonCompliant r = [] /\ o2_calculations r = None.
Proof.
  unfold checkMissing.
  pose proof (pushGaps_frame data requiredParams
    {| o2_option := 2; o2_compliant := false; o2_gaps := [];
       o2_nonCompliant := []; o2_calculations := None |}) as F.
  cbv zeta in F. cbn [o2_compliant o2_nonCompliant o2_calculations] in F.
  intros H.
  destruct (truthy (Obj.prop data "Equipment Type")).
  - destruct (Obj.prop data "Equipment Type"); try discriminate H.
    destruct (includes (toLowerCase s) "refrigeration").
    + destruct (negb (truthy (Obj.prop data "Leakage Test Results")));
        destruct (negb (truthy (Obj.prop data "Greenchill Certification Status")));
        returned; cbn; exact F.
    + returned. exact F.
  - returned. exact F.
Qed.

(** A compliant option-2 result lists no gap and no issue. *)
Lemma assessOption2_compliant (data : Obj.t value) (units : string)
    (calc : Calc.t) (r : Option2Result) :
  assessOption2 data units calc = Return r ->
  o2_compliant r = true ->
  o2_gaps r = [] /\ o2_nonCompliant r = [].
Proof.
  unfold assessOption2. intros H C.
  destruct (checkMissing data) as [r0|e] eqn:M; [|discriminate H].
  destruct (checkMissing_frame _ M) as (F1 & F2 & F3).
  destruct (Nat.eqb (length (o2_gaps r0)) 0) eqn:G.
  - apply Nat.eqb_eq, length_zero_iff_nil in G.
    destruct (Calc.calculateRefrigerantImpact calc data units) as [c|err].
    + destruct (PrimFloat.leb (Calc.weightedAverage c) _);
        returned; cbn in *; [ auto | congruence ].
    + returned. cbn in C. congruence.
  - returned. congruence.
Qed.

(** The two ways [assess] returns: through option 1, or with what
    option 2 reported. *)
Lemma assess_inv (data : Obj.t value) (units : string)
    (calc : Calc.t) (r : Result) :
  assess data units calc = Return r ->
  (hasBasicRefrigerantData data = true
   /\ o1_compliant (assessOption1 data) = true
   /\ r = {| creditId := "EACr6";
             creditName := "Enhanced Refrigerant Management";
             awarded := true; points := 1; maxPoints := 1;
             gaps := []; nonCompliant := []; option := Some 1;
             details := Option1Details (assessOption1 data) |})
  \/
  ((hasBasicRefrigerantData data = false
    \/ o1_compliant (assessOption1 data) = false)
   /\ exists o2,
        assessOption2 data units calc = Return o2
        /\ r = {| creditId := "EACr6";
                  creditName := "Enhanced Refrigerant Management";
                  awarded :=
                    o2_compliant o2 && Nat.eqb (length (o2_gaps o2)) 0;
                  points :=
                    if o2_compliant o2 && Nat.eqb (length (o2_gaps o2)) 0
                    then 1 else 0;
                  maxPoints := 1;
                  gaps := o2_gaps o2; nonCompliant := o2_nonCompliant o2;
                  option := Some 2; details := Option2Details o2 |}).
Proof.
  unfold assess. intros H.
  destruct (hasBasicRefrigerantData data) eqn:B.
  - destruct (o1_compliant (assessOption1 data)) eqn:C.
    + left. returned. auto.
    + right. split; [auto|].
      destruct (assessOption2 data units calc) as [o2|e]; [|discriminate H].
      exists o2. split; [reflexivity|].
      destruct (o2_compliant o2 && Nat.eqb (length (o2_gaps o2)) 0);
        returned; reflexivity.
  - right. split; [auto|].
    destruct (assessOption2 data units calc) as [o2|e]; [|discriminate H].
    exists o2. split; [reflexivity|].
    destruct (o2_compliant o2 && Nat.eqb (length (o2_gaps o2)) 0);
      returned; reflexivity.
Qed.

(** EACr6RuleSet.assess keeps the invariant of the assessment result:
    an awarded credit has no gap and no non-compliance entry. *)
Lemma assess_awarded_clean (data : Obj.t value) (units : string)
    (calc : Calc.t) (r : Result) :
  assess data units calc = Return r ->
  awarded r = true ->
  gaps r = [] /\ nonCompliant r = [].
Proof.
  intros H A.
  destruct (assess_inv _ _ _ H) as [(_ & _ & ->) | (_ & o2 & E & ->)].
  - cbn. auto.
  - cbn in *. apply andb_true_iff in A as [C _].
    exact (assessOption2_compliant _ _ _ E C).
Qed.

(** Option 1 names its gaps with labels of its own. *)
Lemma assessOption1_gaps (data : Obj.t value) (g : string) :
  In g (o1_gaps (assessOption1 data)) ->
  In g ["Refrigerant Used"; "ODP Value"; "GWP Value"; "Confirmation Statement"].
Proof.
  unfold assessOption1.
  repeat split_if; cbn; intuition.
Qed.

Lemma pushGaps_incl (data : Obj.t value) (ps : list string) :
  forall r,
    incl
      (o2_gaps
         (fold_left
            (fun result param =>
               if missing (Obj.prop data param) then o2_pushGap result param
               else result) ps r))
      (o2_gaps r ++ ps).
Proof.
  induction ps as [|p ps IH]; intros r; cbn.
  - rewrite app_nil_r. apply incl_refl.
  - destruct (missing (Obj.prop data p)).
    + eapply incl_tran; [apply IH|]. cbn.
      rewrite <- app_assoc. apply incl_refl.
    + eapply incl_tran; [apply IH|].
      apply incl_app; [apply incl_appl, incl_refl|].
      apply incl_appr, incl_tl, incl_refl.
Qed.

(** Option 2 names its gaps with the parameter names it requires. *)
Lemma checkMissing_gaps (data : Obj.t value) (r : Option2Result) :
  checkMissing data = Return r ->
  incl (o2_gaps r)
    (requiredParams ++
     ["Leakage Test Results"; "Greenchill Certification Status"]).
Proof.
  unfold checkMissing.
  pose proof (pushGaps_incl data requiredParams
    {| o2_option := 2; o2_compliant := false; o2_gaps := [];
       o2_nonCompliant := []; o2_calculations := None |}) as F.
  cbn [o2_gaps app] in F.
  intros H g G.
  assert (T : forall x, In x requiredParams ->
              In x (requiredParams ++
                    ["Leakage Test Results"; "Greenchill Certification Status"]))
    by (intros; apply in_or_app; auto).
  destruct (truthy (Obj.prop data "Equipment Type")).
  - destruct (Obj.prop data "Equipment Type"); try discriminate H.
    destruct (includes (toLowerCase s) "refrigeration").
    + destruct (negb (truthy (Obj.prop data "Leakage Test Results")));
        destruct (negb (truthy (Obj.prop data "Greenchill Certification Status")));
        returned; cbn [o2_gaps o2_pushGap] in G;
        repeat (apply in_app_or in G as [G|G]);
        try (apply T, F, G);
        apply in_or_app; right; cbn in *; intuition.
    + returned. apply T, F, G.
  - returned. apply T, F, G.
Qed.

Lemma assessOption2_gaps (data : Obj.t value) (units : string)
    (calc : Calc.t) (r : Option2Result) :
  assessOption2 data units calc = Return r ->
  incl (o2_gaps r)
    (requiredParams ++
     ["Leakage Test Results"; "Greenchill Certification Status"]).
Proof.
  unfold assessOption2. intros H.
  destruct (checkMissing data) as [r0|e] eqn:M; [|discriminate H].
  pose proof (checkMissing_gaps _ M) as I.
  destruct (Nat.eqb (length (o2_gaps r0)) 0).
  - destruct (Calc.calculateRefrigerantImpact calc data units) as [c|err].
    + destruct (PrimFloat.leb (Calc.weightedAverage c) _); returned; exact I.
    + returned. exact I.
  - returned. exact I.
Qed.

(** No label of option 1 is a parameter name of option 2. *)
Lemma option_gap_labels_disjoint (g : string) :
  In g ["Refrigerant Used"; "ODP Value"; "GWP Value"; "Confirmation Statement"] ->
  In g (requiredParams ++
        ["Leakage Test Results"; "Greenchill Certification Status"]) ->
  False.
Proof.
  cbn. intros [<-|[<-|[<-|[<-|[]]]]] H;
    repeat (destruct H as [H|H]; [discriminate H|]); exact H.
Qed.

(** Option 1 is compliant only on the number zero. *)
Lemma assessOption1_compliant_odp (data : Obj.t value) :
  o1_compliant (assessOption1 data) = true ->
  exists x, Obj.prop data "ODP" = VNum x /\ PrimFloat.eqb x 0%float = true.
Proof.
  unfold assessOption1.
  destruct (Obj.prop data "ODP") as [| |s|x] eqn:E; cbn;
    repeat split_if; cbn; try discriminate.
  all: intros _; eexists; split; [reflexivity|].
  all: match goal with
       | H : negb (PrimFloat.eqb _ 0) = false |- _ =>
           apply negb_false_iff in H; exact H
       end.
Qed.

(** Any string for ODP, also ["0"], makes option 1 return early. *)
Lemma assessOption1_string_odp (data : Obj.t value) (s : string) :
  Obj.prop data "ODP" = VStr s ->
  o1_compliant (assessOption1 data) = false.
Proof.
  intros E. destruct (o1_compliant (assessOption1 data)) eqn:C; [|reflexivity].
  destruct (assessOption1_compliant_odp _ C) as (x & E' & _). congruence.
Qed.

(** [assess] throws only from the [toLowerCase] call on a truthy
    Equipment Type that is not a string. *)
Lemma checkMissing_returns (data : Obj.t value) :
  truthy (Obj.prop data "Equipment Type") = false
  \/ (exists s, Obj.prop data "Equipment Type" = VStr s) ->
  exists r, checkMissing data = Return r.
Proof.
  unfold checkMissing. intros [F | (s & E)].
  - rewrite F. eexists; reflexivity.
  - rewrite E. repeat split_if; eexists; reflexivity.
Qed.

Lemma assess_returns (data : Obj.t value) (units : string) (calc : Calc.t) :
  truthy (Obj.prop data "Equipment Type") = false
  \/ (exists s, Obj.prop data "Equipment Type" = VStr s) ->
  exists r, assess data units calc = Return r.
Proof.
  intros T. destruct (checkMissing_returns _ T) as (r0 & M).
  assert (exists o2, assessOption2 data units calc = Return o2) as (o2 & E).
  { unfold assessOption2. rewrite M.
    destruct (Nat.eqb (length (o2_gaps r0)) 0); [|eexists; reflexivity].
    destruct (Calc.calculateRefrigerantImpact calc data units);
      repeat split_if; eexists; reflexivity. }
  unfold assess. rewrite E.
  repeat split_if; eexists; reflexivity.
Qed.

End Facts.
End EACr6Facts.

(* ================================================================== *)
(** ** RuleEngine: what evaluateEACr6 reports *)
(* ================================================================== *)

Module RuleEngineFacts.
Import RuleEngine.

Section Facts.
Context {host : Host}.

(** [checkEACr6Option1] takes the string ["0"] for a zero ODP. *)
Lemma checkEACr6Option1_string_zero (data : Obj.t value) :
  Obj.prop data "ODP" = VStr "0" ->
  truthy (Obj.prop data "Refrigerant Used") = true ->
  truthy (Obj.prop data "GWP") = true ->
  PrimFloat.leb 50%float (parseFloat (Obj.prop data "GWP")) = false ->
  truthy (Obj.prop data "Confirmation Statement") = true ->
  compliant (checkEACr6Option1 data) = true.
Proof.
  intros O R G L C. unfold checkEACr6Option1.
  rewrite O, R, G, L, C. reflexivity.
Qed.

(** [checkEACr6Option1] is compliant only on the number zero or the
    string ["0"]. *)
Lemma checkEACr6Option1_compliant_odp (data : Obj.t value) :
  compliant (checkEACr6Option1 data) = true ->
  strictEq (Obj.prop data "ODP") (VNum 0%float) = true
  \/ Obj.prop data "ODP" = VStr "0".
Proof.
  unfold checkEACr6Option1.
  destruct (strictEq (Obj.prop data "ODP") (VNum 0%float)) eqn:Z; [auto|].
  destruct (strictEq (Obj.prop data "ODP") (VStr "0")) eqn:S.
  - intros _. right.
    destruct (Obj.prop data "ODP"); cbn in S; try discriminate S.
    apply String.eqb_eq in S. congruence.
  - cbn. repeat split_if; cbn; discriminate.
Qed.

(** When neither option is compliant, [evaluateEACr6] adds the gaps of
    option 1 and then those of option 2 to the result it was given, and
    the issues of option 2. *)
Lemma evaluateEACr6_non_compliant (data : Obj.t value) (unitSystem : string)
    (result : Result) :
  compliant (checkEACr6Option1 data) = false ->
  compliant (checkEACr6Option2 data unitSystem) = false ->
  let r := evaluateEACr6 data unitSystem result in
  status r = "non_compliant"
  /\ awardedPoints r = awardedPoints result
  /\ gaps r =
       (gaps result ++ c_gaps (checkEACr6Option1 data))
       ++ c_gaps (checkEACr6Option2 data unitSystem)
  /\ nonCompliant r =
       nonCompliant result
       ++ c_nonCompliant (checkEACr6Option2 data unitSystem).
Proof.
  intros C1 C2. unfold evaluateEACr6. rewrite C1, C2. cbn. auto.
Qed.

(** When option 2 is compliant after option 1 was not, the gaps of
    option 1 stay in the result. *)
Lemma evaluateEACr6_option2 (data : Obj.t value) (unitSystem : string)
    (result : Result) :
  compliant (checkEACr6Option1 data) = false ->
  compliant (checkEACr6Option2 data unitSystem) = true ->
  let r := evaluateEACr6 data unitSystem result in
  status r = "compliant"
  /\ awardedPoints r = 1
  /\ gaps r = gaps result ++ c_gaps (checkEACr6Option1 data)
  /\ nonCompliant r = nonCompliant result.
Proof.
  intros C1 C2. unfold evaluateEACr6. rewrite C1, C2. cbn. auto.
Qed.

End Facts.
End RuleEngineFacts.

(* ================================================================== *)
(** ** The option strategy of EACr6 *)
(* ================================================================== *)

Section OptionStrategy.
Context {host : Host}.

(** C3. When every option-1 condition of EACr6 holds exactly at its
    limit (Refrigerant Used and Confirmation Statement pass the presence
    test of the code, ODP is the number 0, GWP is 49.999), [assess]
    returns an awarded result with the full points, reported under
    option 1 and not under option 2. *)
Theorem option1_awarded_at_boundary (data : Obj.t value) (units : string)
    (calc : Calc.t) :
  truthy (Obj.prop data "Refrigerant Used") = true ->
  truthy (Obj.prop data "Confirmation Statement") = true ->
  Obj.prop data "ODP" = VNum 0%float ->
  Obj.prop data "GWP" = VNum 49.999%float ->
  exists r,
    EACr6RuleSet.assess data units calc = Return r
    /\ EACr6RuleSet.awarded r = true
    /\ EACr6RuleSet.points r = EACr6RuleSet.maxPoints r
    /\ EACr6RuleSet.option r = Some 1
    /\ EACr6RuleSet.option r <> Some 2.
Proof.
  intros RU CS ODP GWP.
  assert (C : EACr6RuleSet.o1_compliant (EACr6RuleSet.assessOption1 data) = true).
  { unfold EACr6RuleSet.assessOption1. rewrite RU, CS, ODP, GWP. reflexivity. }
  assert (B : EACr6RuleSet.hasBasicRefrigerantData data = true).
  { unfold EACr6RuleSet.hasBasicRefrigerantData. rewrite RU, ODP, GWP.
    reflexivity. }
  unfold EACr6RuleSet.assess. rewrite B, C.
  eexists. split; [reflexivity|]. cbn. repeat split. discriminate.
Qed.

(** C9. A result of [EACr6RuleSet.assess] reports option 1 only when the
    credit is awarded with the full points; whenever option 1 is not
    compliant, or is skipped because Refrigerant Used is falsy or ODP or
    GWP is undefined, the result reports option 2. *)
Theorem option1_only_when_awarded (data : Obj.t value) (units : string)
    (calc : Calc.t) (r : EACr6RuleSet.Result) :
  EACr6RuleSet.assess data units calc = Return r ->
  (EACr6RuleSet.option r = Some 1 ->
   EACr6RuleSet.awarded r = true
   /\ EACr6RuleSet.points r = EACr6RuleSet.maxPoints r)
  /\ (EACr6RuleSet.o1_compliant (EACr6RuleSet.assessOption1 data) = false ->
      EACr6RuleSet.option r = Some 2)
  /\ (truthy (Obj.prop data "Refrigerant Used") = false
      \/ Obj.prop data "ODP" = VUndefined
      \/ Obj.prop data "GWP" = VUndefined ->
      EACr6RuleSet.option r = Some 2).
Proof.
  intros H.
  destruct (EACr6Facts.assess_inv _ _ _ H)
    as [(B & C & ->) | (N & o2 & E & ->)]; cbn.
  - split; [auto|]. split.
    + congruence.
    + unfold EACr6RuleSet.hasBasicRefrigerantData in B.
      apply andb_true_iff in B as [B G].
      apply andb_true_iff in B as [R O].
      intros [F | [F | F]]; rewrite F in *; discriminate.
  - split; [discriminate|]. auto.
Qed.

End OptionStrategy.

Section OptionStrategyRuns.
Existing Instance decimalHost.

Lemma option1_awarded_at_boundary_witness :
  exists r,
    EACr6RuleSet.assess eaCr6_boundary "IP" CalculationModule.new = Return r
    /\ EACr6RuleSet.awarded r = true
    /\ EACr6RuleSet.points r = EACr6RuleSet.maxPoints r
    /\ EACr6RuleSet.option r = Some 1
    /\ EACr6RuleSet.option r <> Some 2.
Proof.
  apply (@option1_awarded_at_boundary decimalHost eaCr6_boundary "IP"
           CalculationModule.new); reflexivity.
Defined.

Lemma option1_only_when_awarded_witness :
  exists r,
    EACr6RuleSet.assess eaCr6_fail "IP" CalculationModule.new = Return r
    /\ (EACr6RuleSet.option r = Some 1 ->
        EACr6RuleSet.awarded r = true
        /\ EACr6RuleSet.points r = EACr6RuleSet.maxPoints r)
    /\ EACr6RuleSet.option r = Some 2.
Proof.
  destruct (@EACr6Facts.assess_returns decimalHost eaCr6_fail "IP"
              CalculationModule.new) as (r & E).
  { right. eexists. reflexivity. }
  exists r. split; [exact E|].
  destruct (@option1_only_when_awarded decimalHost eaCr6_fail "IP"
              CalculationModule.new r E) as (A & B & _).
  split; [exact A|]. apply B. reflexivity.
Defined.

End OptionStrategyRuns.

(* ================================================================== *)
(** ** The two engines compared on EACr6 *)
(* ================================================================== *)

Section TwoEngines.
Context {host : Host}.

(** C10, amended. In [EACr6RuleSet.assessOption1] the ODP requirement is
    strict equality with the number 0: with ODP the string ["0"] option 1
    is not compliant and a result of [assess] reports option 2, and
    option 1 is compliant only when ODP is a number equal to 0.
    [RuleEngine.checkEACr6Option1] also takes the string ["0"]: with its
    other three checks met it is compliant on it, and it is compliant
    only on the number 0 or the string ["0"]. *)
Theorem odp_zero_requirement (data : Obj.t value) :
  (Obj.prop data "ODP" = VStr "0" ->
   EACr6RuleSet.o1_compliant (EACr6RuleSet.assessOption1 data) = false
   /\ forall units calc r,
        EACr6RuleSet.assess data units calc = Return r ->
        EACr6RuleSet.option r = Some 2)
  /\ (EACr6RuleSet.o1_compliant (EACr6RuleSet.assessOption1 data) = true ->
      exists x,
        Obj.prop data "ODP" = VNum x /\ PrimFloat.eqb x 0%float = true)
  /\ (Obj.prop data "ODP" = VStr "0" ->
      truthy (Obj.prop data "Refrigerant Used") = true ->
      truthy (Obj.prop data "GWP") = true ->
      PrimFloat.leb 50%float (parseFloat (Obj.prop data "GWP")) = false ->
      truthy (Obj.prop data "Confirmation Statement") = true ->
      RuleEngine.compliant (RuleEngine.checkEACr6Option1 data) = true)
  /\ (RuleEngine.compliant (RuleEngine.checkEACr6Option1 data) = true ->
      strictEq (Obj.prop data "ODP") (VNum 0%float) = true
      \/ Obj.prop data "ODP" = VStr "0").
Proof.
  split; [|split; [|split]].
  - intros O.
    pose proof (EACr6Facts.assessOption1_string_odp data O) as C.
    split; [exact C|]. intros units calc r H.
    destruct (EACr6Facts.assess_inv _ _ _ H)
      as [(_ & C' & _) | (_ & o2 & _ & ->)]; [congruence | reflexivity].
  - apply EACr6Facts.assessOption1_compliant_odp.
  - apply RuleEngineFacts.checkEACr6Option1_string_zero.
  - apply RuleEngineFacts.checkEACr6Option1_compliant_odp.
Qed.

(** C2, amended. In [EACr6RuleSet.assess], a result that is not awarded
    carries exactly the gaps and the non-compliance entries of option 2,
    and none of its gaps was recorded by option 1.  In
    [RuleEngine.evaluateEACr6], when neither option is compliant, the
    non-compliance entries are those of option 2 and the gaps are those
    of option 1 followed by those of option 2. *)
Theorem gaps_of_the_options (data : Obj.t value) (units : string) :
  (forall calc r,
     EACr6RuleSet.assess data units calc = Return r ->
     EACr6RuleSet.awarded r = false ->
     exists o2,
       EACr6RuleSet.assessOption2 data units calc = Return o2
       /\ EACr6RuleSet.gaps r = EACr6RuleSet.o2_gaps o2
       /\ EACr6RuleSet.nonCompliant r = EACr6RuleSet.o2_nonCompliant o2
       /\ forall g,
            In g (EACr6RuleSet.gaps r) ->
            ~ In g (EACr6RuleSet.o1_gaps (EACr6RuleSet.assessOption1 data)))
  /\ (RuleEngine.compliant (RuleEngine.checkEACr6Option1 data) = false ->
      RuleEngine.compliant (RuleEngine.checkEACr6Option2 data units) = false ->
      let r := RuleEngine.evaluateCredit_EACr6 data units in
      RuleEngine.gaps r =
        RuleEngine.c_gaps (RuleEngine.checkEACr6Option1 data)
        ++ RuleEngine.c_gaps (RuleEngine.checkEACr6Option2 data units)
      /\ RuleEngine.nonCompliant r =
           RuleEngine.c_nonCompliant (RuleEngine.checkEACr6Option2 data units)).
Proof.
  split.
  - intros calc r H A.
    destruct (EACr6Facts.assess_inv _ _ _ H)
      as [(_ & _ & ->) | (_ & o2 & E & ->)]; [discriminate A|].
    exists o2. cbn. repeat split; auto.
    intros g G1 G2.
    apply (@EACr6Facts.option_gap_labels_disjoint g).
    + eapply EACr6Facts.assessOption1_gaps, G2.
    + eapply EACr6Facts.assessOption2_gaps; [exact E | exact G1].
  - intros C1 C2.
    destruct (RuleEngineFacts.evaluateEACr6_non_compliant data units
                {| RuleEngine.creditId := "EACr6";
                   RuleEngine.creditName := "Enhanced Refrigerant Management";
                   RuleEngine.maxPoints := 1; RuleEngine.awardedPoints := 0;
                   RuleEngine.status := "pending"; RuleEngine.gaps := [];
                   RuleEngine.nonCompliant := [];
                   RuleEngine.calculations := None;
                   RuleEngine.details := [] |} C1 C2) as (_ & _ & G & N).
    cbn in G, N. split; [exact G | exact N].
Qed.

(** C1, where the code departs from it. [RuleEngine.evaluateCredit] on an
    R-32 project that passes the refrigerant-impact calculation but gave
    no confirmation statement: the credit is awarded (status compliant,
    one point) and the result still lists the gap that option 1
    recorded. *)
Theorem evaluateEACr6_awarded_with_gap :
  let r := RuleEngine.evaluateCredit_EACr6 r32_small_charge "IP" in
  RuleEngine.status r = "compliant"
  /\ RuleEngine.awardedPoints r = 1
  /\ RuleEngine.nonCompliant r = []
  /\ RuleEngine.gaps r = ["Confirmation Statement"].
Proof.
  assert (C1 : RuleEngine.compliant
                 (RuleEngine.checkEACr6Option1 r32_small_charge) = false)
    by reflexivity.
  assert (C2 : RuleEngine.compliant
                 (RuleEngine.checkEACr6Option2 r32_small_charge "IP") = true)
    by (vm_compute; reflexivity).
  destruct (RuleEngineFacts.evaluateEACr6_option2 r32_small_charge "IP"
              {| RuleEngine.creditId := "EACr6";
                 RuleEngine.creditName := "Enhanced Refrigerant Management";
                 RuleEngine.maxPoints := 1; RuleEngine.awardedPoints := 0;
                 RuleEngine.status := "pending"; RuleEngine.gaps := [];
                 RuleEngine.nonCompliant := [];
                 RuleEngine.calculations := None;
                 RuleEngine.details := [] |} C1 C2) as (S & P & G & N).
  cbv zeta. unfold RuleEngine.evaluateCredit_EACr6.
  rewrite S, P, G, N. repeat split.
Qed.

End TwoEngines.

Section TwoEnginesRuns.
Existing Instance decimalHost.

Lemma odp_zero_requirement_witness :
  (EACr6RuleSet.o1_compliant (EACr6RuleSet.assessOption1 eaCr6_string_odp)
   = false
   /\ forall units calc r,
        EACr6RuleSet.assess eaCr6_string_odp units calc = Return r ->
        EACr6RuleSet.option r = Some 2)
  /\ (exists x,
        Obj.prop eaCr6_boundary "ODP" = VNum x
        /\ PrimFloat.eqb x 0%float = true)
  /\ RuleEngine.compliant (RuleEngine.checkEACr6Option1 eaCr6_string_odp)
     = true
  /\ (strictEq (Obj.prop eaCr6_option1_pass "ODP") (VNum 0%float) = true
      \/ Obj.prop eaCr6_option1_pass "ODP" = VStr "0").
Proof.
  destruct (@odp_zero_requirement decimalHost eaCr6_string_odp)
    as (A & _ & B & _).
  destruct (@odp_zero_requirement decimalHost eaCr6_boundary)
    as (_ & C & _ & _).
  destruct (@odp_zero_requirement decimalHost eaCr6_option1_pass)
    as (_ & _ & _ & D).
  split; [apply A; reflexivity|].
  split; [apply C; reflexivity|].
  split; [apply B; reflexivity|].
  apply D; reflexivity.
Defined.

(** C10 as stated fails on [RuleEngine]: ODP is the string ["0"], and
    option 1 is compliant and is the option the credit is awarded under. *)
Lemma ruleEngine_takes_string_zero :
  Obj.prop eaCr6_string_odp "ODP" = VStr "0"
  /\ RuleEngine.compliant (RuleEngine.checkEACr6Option1 eaCr6_string_odp)
     = true
  /\ RuleEngine.status (RuleEngine.evaluateCredit_EACr6 eaCr6_string_odp "IP")
     = "compliant"
  /\ RuleEngine.details (RuleEngine.evaluateCredit_EACr6 eaCr6_string_odp "IP")
     = ["Option 1: No Refrigerants or Low-Impact Refrigerants"].
Proof. repeat split. Qed.

Lemma gaps_of_the_options_witness :
  (exists r o2,
     EACr6RuleSet.assess eaCr6_fail "IP" CalculationModule.new = Return r
     /\ EACr6RuleSet.assessOption2 eaCr6_fail "IP" CalculationModule.new
        = Return o2
     /\ EACr6RuleSet.gaps r = EACr6RuleSet.o2_gaps o2
     /\ EACr6RuleSet.nonCompliant r = EACr6RuleSet.o2_nonCompliant o2)
  /\ (let r := RuleEngine.evaluateCredit_EACr6 r410a_incomplete "IP" in
      RuleEngine.gaps r =
        RuleEngine.c_gaps (RuleEngine.checkEACr6Option1 r410a_incomplete)
        ++ RuleEngine.c_gaps
             (RuleEngine.checkEACr6Option2 r410a_incomplete "IP")
      /\ RuleEngine.nonCompliant r =
           RuleEngine.c_nonCompliant
             (RuleEngine.checkEACr6Option2 r410a_incomplete "IP")).
Proof.
  split.
  - destruct (@EACr6Facts.assess_returns decimalHost eaCr6_fail "IP"
                CalculationModule.new) as (r & E).
    { right. eexists. reflexivity. }
    assert (A : EACr6RuleSet.awarded r = false).
    { pose proof E as E'. vm_compute in E'. injection E' as <-. reflexivity. }
    destruct (proj1 (@gaps_of_the_options decimalHost eaCr6_fail "IP")
                CalculationModule.new r E A) as (o2 & E2 & G & N & _).
    exists r, o2. auto.
  - apply (proj2 (@gaps_of_the_options decimalHost r410a_incomplete "IP"));
      reflexivity.
Defined.

(** C2 as stated fails on [RuleEngine]: no option succeeds, and the
    reported gaps are not those of option 2 alone; the first one was
    recorded by option 1. *)
Lemma ruleEngine_reports_option1_gaps :
  let r := RuleEngine.evaluateCredit_EACr6 r410a_incomplete "IP" in
  RuleEngine.status r = "non_compliant"
  /\ RuleEngine.c_gaps (RuleEngine.checkEACr6Option1 r410a_incomplete)
     = ["Confirmation Statement"]
  /\ RuleEngine.c_gaps (RuleEngine.checkEACr6Option2 r410a_incomplete "IP")
     = ["Leakage Rate"]
  /\ RuleEngine.gaps r = ["Confirmation Statement"; "Leakage Rate"]
  /\ RuleEngine.gaps r
     <> RuleEngine.c_gaps (RuleEngine.checkEACr6Option2 r410a_incomplete "IP").
Proof. repeat split. discriminate. Qed.

End TwoEnginesRuns.

(* ================================================================== *)
(** ** The thermal-control percentage *)
(* ================================================================== *)

Section Percentage.
Context {host : Host}.

(** A number above zero is neither zero nor at most zero. *)
Lemma positive_float (x : float) :
  PrimFloat.ltb 0%float x = true ->
  PrimFloat.eqb x 0%float = false /\ PrimFloat.leb x 0%float = false.
Proof.
  rewrite ltb_spec, eqb_spec, leb_spec.
  change (Prim2SF 0%float) with (S754_zero false).
  destruct (Prim2SF x) as [s|s| |s m e]; cbn; try discriminate; auto.
  all: destruct s; cbn; try discriminate; auto.
Qed.

(** [parseFloat] keeps a number at most zero at most zero. *)
Lemma parseFloat_nonpositive (x : float) :
  PrimFloat.leb x 0%float = true ->
  PrimFloat.leb (parseFloat (VNum x)) 0%float = true.
Proof.
  intros L. cbn. destruct (PrimFloat.eqb x 0%float); [reflexivity | exact L].
Qed.

(** C5, amended. [CalculationModule.calculateSpacePercentage] throws
    whenever the parsed total is at most zero, whatever the controlled
    count, and otherwise returns (controlled / total) * 100 as computed,
    with no clamping; in particular it throws on every number at most
    zero and returns the quotient on every number above zero.
    [CalculationEngine.calculateThermalControlPercentage] never throws:
    it returns null when either argument is falsy and the same quotient
    otherwise, also for a negative total. *)
Theorem thermal_control_percentage (totalSpaces controlledSpaces : value) :
  (PrimFloat.leb (parseFloat totalSpaces) 0%float = true ->
   CalculationModule.calculateSpacePercentage totalSpaces controlledSpaces
   = Throw (Error "Total spaces must be greater than 0"))
  /\ (PrimFloat.leb (parseFloat totalSpaces) 0%float = false ->
      CalculationModule.calculateSpacePercentage totalSpaces controlledSpaces
      = Return ((parseFloat controlledSpaces / parseFloat totalSpaces) * 100)%float)
  /\ (forall x, totalSpaces = VNum x ->
      PrimFloat.leb x 0%float = true ->
      CalculationModule.calculateSpacePercentage totalSpaces controlledSpaces
      = Throw (Error "Total spaces must be greater than 0"))
  /\ (forall x, totalSpaces = VNum x ->
      PrimFloat.ltb 0%float x = true ->
      CalculationModule.calculateSpacePercentage totalSpaces controlledSpaces
      = Return ((parseFloat controlledSpaces / x) * 100)%float)
  /\ (truthy totalSpaces = false \/ truthy controlledSpaces = false ->
      CalculationEngine.calculateThermalControlPercentage
        totalSpaces controlledSpaces = VNull)
  /\ (truthy totalSpaces = true -> truthy controlledSpaces = true ->
      CalculationEngine.calculateThermalControlPercentage
        totalSpaces controlledSpaces
      = VNum ((toNumber controlledSpaces / toNumber totalSpaces) * 100)%float).
Proof.
  unfold CalculationModule.calculateSpacePercentage,
    CalculationEngine.calculateThermalControlPercentage.
  repeat split.
  - intros L. rewrite L. reflexivity.
  - intros L. rewrite L. reflexivity.
  - intros x -> L. rewrite (parseFloat_nonpositive L). reflexivity.
  - intros x -> L. destruct (positive_float L) as [Z N].
    cbn [parseFloat]. rewrite Z, N. reflexivity.
  - intros [F | F]; rewrite F; [reflexivity|].
    destruct (negb (truthy totalSpaces)); reflexivity.
  - intros T C. rewrite T, C. reflexivity.
Qed.

End Percentage.

Section PercentageRuns.
Existing Instance decimalHost.

Lemma thermal_control_percentage_witness :
  (CalculationModule.calculateSpacePercentage (VNum 0%float) (VNum 85%float)
   = Throw (Error "Total spaces must be greater than 0")
   /\ CalculationModule.calculateSpacePercentage (VNum (-3)%float) (VStr "85")
      = Throw (Error "Total spaces must be greater than 0")
   /\ CalculationEngine.calculateThermalControlPercentage
        (VNum 0%float) (VNum 85%float) = VNull)
  /\ (CalculationModule.calculateSpacePercentage (VNum 200%float) (VNum 85%float)
      = Return 42.5%float
      /\ CalculationModule.calculateSpacePercentage (VStr "200") (VStr "85")
         = Return 42.5%float
      /\ CalculationEngine.calculateThermalControlPercentage
           (VNum 200%float) (VNum 85%float) = VNum 42.5%float).
Proof.
  destruct (@thermal_control_percentage decimalHost
              (VNum 0%float) (VNum 85%float)) as (_ & _ & A & _ & E & _).
  destruct (@thermal_control_percentage decimalHost
              (VNum (-3)%float) (VStr "85")) as (A' & _).
  destruct (@thermal_control_percentage decimalHost
              (VNum 200%float) (VNum 85%float)) as (_ & _ & _ & B & _ & C).
  destruct (@thermal_control_percentage decimalHost
              (VStr "200") (VStr "85")) as (_ & B' & _).
  split; split.
  - apply (A 0%float); reflexivity.
  - split; [apply A'; reflexivity | apply E; left; reflexivity].
  - apply (B 200%float); reflexivity.
  - split; [apply B'; reflexivity | apply C; reflexivity].
Defined.

(** Nothing clamps the percentage: above 100 and below 0 come back as
    computed. *)
Example percentage_not_clamped :
  CalculationModule.calculateSpacePercentage (VNum 100%float) (VNum 250%float)
  = Return 250%float
  /\ CalculationModule.calculateSpacePercentage (VNum 10%float) (VNum (-5)%float)
     = Return (-50)%float.
Proof. split; reflexivity. Qed.

(** C5 as stated fails on [CalculationEngine]: with a total of zero, and
    with a negative total, the call returns instead of failing. *)
Lemma thermalControlPercentage_does_not_fail :
  CalculationEngine.calculateThermalControlPercentage
    (VNum 0%float) (VNum 85%float) = VNull
  /\ CalculationEngine.calculateThermalControlPercentage
       (VNum (-5)%float) (VNum 1%float) = VNum (-20)%float.
Proof. split; reflexivity. Qed.

End PercentageRuns.

(* ================================================================== *)
(** ** IEQCr5RuleSet and errors thrown by a calculation *)
(* ================================================================== *)

Section CalculationErrors.
Context {host : Host}.

(** IEQCr5RuleSet.assess keeps the invariant of the assessment result:
    the award is guarded by both lists being empty. *)
Lemma ieqCr5_awarded_clean (data : Obj.t value) (units : string)
    (calc : Calc.t) :
  let r := IEQCr5RuleSet.assess data units calc in
  IEQCr5RuleSet.awarded r = true ->
  IEQCr5RuleSet.gaps r = [] /\ IEQCr5RuleSet.nonCompliant r = [].
Proof.
  cbv zeta. unfold IEQCr5RuleSet.assess.
  destruct (IEQCr5RuleSet.p1_compliant _ && IEQCr5RuleSet.p2_compliant _
            && Nat.eqb (length _) 0 && Nat.eqb (length _) 0) eqn:G;
    cbn; [|discriminate].
  intros _.
  apply andb_true_iff in G as [G N]. apply andb_true_iff in G as [_ G].
  apply Nat.eqb_eq, length_zero_iff_nil in G, N. cbn in G, N. auto.
Qed.

(** The real refrigerant-impact calculation returns on every input. *)
Lemma calculateRefrigerantImpact_returns (data : Obj.t value) (units : string) :
  exists c, CalculationModule.calculateRefrigerantImpact data units = Return c.
Proof. unfold CalculationModule.calculateRefrigerantImpact. eexists; reflexivity. Qed.

(** Part 2 when the space calculation is reached and throws. *)
Lemma assessPart2_on_error (data : Obj.t value) (calc : Calc.t) (e : exn) :
  truthy (Obj.prop data "Total Individual Spaces") = true ->
  truthy (Obj.prop data "Controlled Spaces") = true ->
  Calc.calculateSpacePercentage calc
    (Obj.prop data "Total Individual Spaces")
    (Obj.prop data "Controlled Spaces") = Throw e ->
  let r := IEQCr5RuleSet.assessPart2 data calc in
  IEQCr5RuleSet.p2_nonCompliant r =
    [[Lit "Space calculation error: "; StrSub (message e)]]
  /\ IEQCr5RuleSet.p2_compliant r = false
  /\ IEQCr5RuleSet.p2_calculations r = None.
Proof.
  intros T C E. cbv zeta. unfold IEQCr5RuleSet.assessPart2.
  rewrite T, C, E. cbn.
  destruct (truthy (Obj.prop data "Group Controls"));
    destruct (truthy (Obj.prop data "Thermostat Locations"));
    cbn; auto.
Qed.

(** Option 2 when the impact calculation is reached and throws. *)
Lemma assessOption2_on_error (data : Obj.t value) (units : string)
    (calc : Calc.t) (e : exn) (r0 : EACr6RuleSet.Option2Result) :
  EACr6RuleSet.checkMissing data = Return r0 ->
  EACr6RuleSet.o2_gaps r0 = [] ->
  Calc.calculateRefrigerantImpact calc data units = Throw e ->
  exists o2,
    EACr6RuleSet.assessOption2 data units calc = Return o2
    /\ EACr6RuleSet.o2_nonCompliant o2 =
         [[Lit "Calculation error: "; StrSub (message e)]]
    /\ EACr6RuleSet.o2_gaps o2 = []
    /\ EACr6RuleSet.o2_compliant o2 = false.
Proof.
  intros M G E. unfold EACr6RuleSet.assessOption2. rewrite M, G, E. cbn.
  destruct (EACr6Facts.checkMissing_frame _ M) as (C & N & _).
  eexists. split; [reflexivity|]. cbn. rewrite N, G, C. auto.
Qed.

(** C6. When a calculation that an evaluator invokes throws, the
    evaluator catches the error, appends exactly one message carrying the
    error's text to the non-compliance list and still returns a complete
    result.  In [EACr6RuleSet.assess] the impact calculation is invoked
    when option 1 did not succeed and the missing-parameter checks left
    no gap; in [IEQCr5RuleSet.assess] the space calculation is invoked
    when both space counts are truthy. *)
Theorem calculation_error_is_reported (data : Obj.t value) (units : string)
    (calc : Calc.t) (e : exn) :
  (forall r0,
     EACr6RuleSet.hasBasicRefrigerantData data = false
     \/ EACr6RuleSet.o1_compliant (EACr6RuleSet.assessOption1 data) = false ->
     EACr6RuleSet.checkMissing data = Return r0 ->
     EACr6RuleSet.o2_gaps r0 = [] ->
     Calc.calculateRefrigerantImpact calc data units = Throw e ->
     exists r,
       EACr6RuleSet.assess data units calc = Return r
       /\ EACr6RuleSet.nonCompliant r =
            [[Lit "Calculation error: "; StrSub (message e)]]
       /\ EACr6RuleSet.gaps r = []
       /\ EACr6RuleSet.awarded r = false
       /\ EACr6RuleSet.points r = 0
       /\ EACr6RuleSet.option r = Some 2)
  /\ (truthy (Obj.prop data "Total Individual Spaces") = true ->
      truthy (Obj.prop data "Controlled Spaces") = true ->
      Calc.calculateSpacePercentage calc
        (Obj.prop data "Total Individual Spaces")
        (Obj.prop data "Controlled Spaces") = Throw e ->
      let r := IEQCr5RuleSet.assess data units calc in
      IEQCr5RuleSet.nonCompliant r =
        IEQCr5RuleSet.p1_nonCompliant (IEQCr5RuleSet.assessPart1 data)
        ++ [[Lit "Space calculation error: "; StrSub (message e)]]
      /\ IEQCr5RuleSet.gaps r =
           IEQCr5RuleSet.p1_gaps (IEQCr5RuleSet.assessPart1 data)
           ++ IEQCr5RuleSet.p2_gaps (IEQCr5RuleSet.assessPart2 data calc)
      /\ IEQCr5RuleSet.awarded r = false
      /\ IEQCr5RuleSet.points r = 0).
Proof.
  split.
  - intros r0 N M G E.
    destruct (assessOption2_on_error _ _ _ M G E) as (o2 & A & NC & GP & C).
    unfold EACr6RuleSet.assess. rewrite A, C. cbn.
    destruct N as [N | N]; rewrite N; cbn.
    + eexists. split; [reflexivity|]. cbn. auto.
    + destruct (EACr6RuleSet.hasBasicRefrigerantData data);
        (eexists; split; [reflexivity|]; cbn; auto).
  - intros T C E.
    destruct (assessPart2_on_error _ _ T C E) as (NC & P & _).
    cbv zeta. unfold IEQCr5RuleSet.assess. rewrite P, NC.
    rewrite andb_false_r. cbn. auto.
Qed.

End CalculationErrors.

Section CalculationErrorsRuns.
Existing Instance decimalHost.

(** The real space calculation throws on a negative count. *)
Example negative_spaces_throw :
  Calc.calculateSpacePercentage CalculationModule.new
    (Obj.prop ieqCr5_negative_spaces "Total Individual Spaces")
    (Obj.prop ieqCr5_negative_spaces "Controlled Spaces")
  = Throw (Error "Total spaces must be greater than 0").
Proof. reflexivity. Qed.

(** A total of zero reaches the calculation only as a string: the
    number 0 is falsy and is reported as a gap. *)
Example zero_spaces_number_is_a_gap :
  let r :=
    IEQCr5RuleSet.assessPart2
      [("Total Individual Spaces", VNum 0%float);
       ("Controlled Spaces", VNum 85%float);
       ("Group Controls", VStr "Yes");
       ("Thermostat Locations", VStr "Per drawings")]
      CalculationModule.new in
  IEQCr5RuleSet.p2_gaps r = ["Total Individual Spaces"]
  /\ IEQCr5RuleSet.p2_nonCompliant r = [].
Proof. split; reflexivity. Qed.

Example zero_spaces_string_is_reported :
  let r :=
    IEQCr5RuleSet.assessPart2
      [("Total Individual Spaces", VStr "0");
       ("Controlled Spaces", VNum 85%float);
       ("Group Controls", VStr "Yes");
       ("Thermostat Locations", VStr "Per drawings")]
      CalculationModule.new in
  IEQCr5RuleSet.p2_gaps r = []
  /\ IEQCr5RuleSet.p2_nonCompliant r =
       [[Lit "Space calculation error: ";
         StrSub "Total spaces must be greater than 0"]].
Proof. split; reflexivity. Qed.

Lemma calculation_error_is_reported_witness :
  (exists r,
     EACr6RuleSet.assess eaCr6_fail "IP" failingModule = Return r
     /\ EACr6RuleSet.nonCompliant r =
          [[Lit "Calculation error: ";
            StrSub "Equipment life must be greater than 0"]]
     /\ EACr6RuleSet.gaps r = []
     /\ EACr6RuleSet.awarded r = false
     /\ EACr6RuleSet.points r = 0
     /\ EACr6RuleSet.option r = Some 2)
  /\ (let r :=
        IEQCr5RuleSet.assess ieqCr5_negative_spaces "IP" CalculationModule.new in
      IEQCr5RuleSet.nonCompliant r =
        IEQCr5RuleSet.p1_nonCompliant
          (IEQCr5RuleSet.assessPart1 ieqCr5_negative_spaces)
        ++ [[Lit "Space calculation error: ";
             StrSub "Total spaces must be greater than 0"]]
      /\ IEQCr5RuleSet.gaps r =
           IEQCr5RuleSet.p1_gaps
             (IEQCr5RuleSet.assessPart1 ieqCr5_negative_spaces)
           ++ IEQCr5RuleSet.p2_gaps
                (IEQCr5RuleSet.assessPart2 ieqCr5_negative_spaces
                   CalculationModule.new)
      /\ IEQCr5RuleSet.awarded r = false
      /\ IEQCr5RuleSet.points r = 0).
Proof.
  split.
  - eapply (proj1 (@calculation_error_is_reported decimalHost eaCr6_fail "IP"
                     failingModule
                     (Error "Equipment life must be greater than 0")));
      [ right; reflexivity | reflexivity | reflexivity | reflexivity ].
  - apply (proj2 (@calculation_error_is_reported decimalHost
                    ieqCr5_negative_spaces "IP" CalculationModule.new
                    (Error "Total spaces must be greater than 0")));
      reflexivity.
Defined.

End CalculationErrorsRuns.

(* ================================================================== *)
(** ** Dictionaries *)
(* ================================================================== *)

Module ObjFacts.

Section Facts.
Variable V : Type.
Implicit Types (o : Obj.t V) (k : string) (v : V).

Lemma get_set_same o k v : Obj.get (Obj.set o k v) k = Some v.
Proof.
  induction o as [|[k' v'] o IH]; cbn.
  - rewrite String.eqb_refl. reflexivity.
  - destruct (String.eqb k' k) eqn:E; cbn; rewrite E; auto.
Qed.

Lemma get_set_other o k k' v :
  k <> k' -> Obj.get (Obj.set o k v) k' = Obj.get o k'.
Proof.
  intros N. induction o as [|[k0 v0] o IH]; cbn.
  - apply String.eqb_neq in N. rewrite N. reflexivity.
  - destruct (String.eqb k0 k) eqn:E; cbn.
    + apply String.eqb_eq in E. subst k0.
      apply String.eqb_neq in N. rewrite N. reflexivity.
    + rewrite IH. reflexivity.
Qed.

Lemma get_none_keys o k : Obj.get o k = None <-> ~ In k (Obj.keys o).
Proof.
  induction o as [|[k' v'] o IH]; cbn.
  - tauto.
  - destruct (String.eqb k' k) eqn:E.
    + apply String.eqb_eq in E. split; [discriminate | tauto].
    + apply String.eqb_neq in E. rewrite IH. tauto.
Qed.

Lemma keys_set o k v :
  Obj.keys (Obj.set o k v) =
  match Obj.get o k with
  | Some _ => Obj.keys o
  | None => Obj.keys o ++ [k]
  end.
Proof.
  induction o as [|[k' v'] o IH]; cbn.
  - reflexivity.
  - destruct (String.eqb k' k) eqn:E; cbn.
    + reflexivity.
    + unfold Obj.keys in IH. rewrite IH.
      destruct (Obj.get o k); reflexivity.
Qed.

Lemma keys_set_NoDup o k v :
  NoDup (Obj.keys o) -> NoDup (Obj.keys (Obj.set o k v)).
Proof.
  intros N. rewrite keys_set.
  destruct (Obj.get o k) eqn:G; [exact N|].
  apply get_none_keys in G.
  apply NoDup_rev in N. rewrite <- (rev_involutive (_ ++ _)).
  apply NoDup_rev. rewrite rev_app_distr. cbn.
  constructor; [|exact N]. rewrite <- in_rev. exact G.
Qed.

(** With distinct keys, the entry a lookup finds is the only one under
    its key. *)
Lemma get_split o k v :
  NoDup (Obj.keys o) -> Obj.get o k = Some v ->
  exists o1 o2,
    o = o1 ++ (k, v) :: o2
    /\ ~ In k (Obj.keys o1) /\ ~ In k (Obj.keys o2).
Proof.
  induction o as [|[k' v'] o IH]; cbn; intros N G; [discriminate|].
  inversion N as [|? ? N1 N2]; subst.
  destruct (String.eqb k' k) eqn:E.
  - apply String.eqb_eq in E. subst k'. injection G as ->.
    exists [], o. cbn. auto.
  - apply String.eqb_neq in E.
    destruct (IH N2 G) as (o1 & o2 & -> & A & B).
    exists ((k', v') :: o1), o2. cbn. repeat split; auto.
    intros [F | F]; [exact (E F) | exact (A F)].
Qed.

Lemma in_get o k v :
  NoDup (Obj.keys o) -> In (k, v) o -> Obj.get o k = Some v.
Proof.
  induction o as [|[k' v'] o IH]; cbn; intros N I; [contradiction|].
  inversion N as [|? ? N1 N2]; subst.
  destruct I as [I | I].
  - injection I as -> ->. rewrite String.eqb_refl. reflexivity.
  - destruct (String.eqb k' k) eqn:E; [|auto].
    apply String.eqb_eq in E. subst k'.
    exfalso. apply N1. apply (in_map fst) in I. exact I.
Qed.

End Facts.

Lemma prop_set_same (o : Obj.t value) k v : Obj.prop (Obj.set o k v) k = v.
Proof. unfold Obj.prop. rewrite get_set_same. reflexivity. Qed.

Lemma prop_set_other (o : Obj.t value) k k' v :
  k <> k' -> Obj.prop (Obj.set o k v) k' = Obj.prop o k'.
Proof. intros N. unfold Obj.prop. rewrite get_set_other; auto. Qed.

Lemma isUndefined_true (v : value) : isUndefined v = true <-> v = VUndefined.
Proof. destruct v; cbn; split; congruence. Qed.

End ObjFacts.

(* ================================================================== *)
(** ** The document loop of consolidateData *)
(* ================================================================== *)

Module CollectFacts.
Import LEEDDataConsolidator Consolidation ObjFacts.

Lemma fold_left_invariant (A B : Type) (f : A -> B -> A) (I : A -> Prop)
    (l : list B) :
  (forall a b, In b l -> I a -> I (f a b)) ->
  forall a, I a -> I (fold_left f l a).
Proof.
  induction l as [|b l IH]; cbn; intros S a Ia; [exact Ia|].
  apply IH; auto.
Qed.

Lemma fold_left_related (A B : Type) (f : A -> B -> A) (R : A -> A -> Prop)
    (l : list B) :
  (forall a, R a a) ->
  (forall a b c, R a b -> R b c -> R a c) ->
  (forall a b, In b l -> R a (f a b)) ->
  forall a, R a (fold_left f l a).
Proof.
  intros Rr Rt. induction l as [|b l IH]; cbn; intros S a; [apply Rr|].
  eapply Rt; [apply S; auto | apply IH; auto].
Qed.

Lemma nonEmpty_defined (v : value) :
  nonEmpty v = true -> isUndefined v = false.
Proof. unfold nonEmpty. destruct (isUndefined v); cbn; congruence. Qed.

Lemma same_at_refl p st : same_at p st st.
Proof. repeat split. Qed.

Lemma same_at_trans p a b c : same_at p a b -> same_at p b c -> same_at p a c.
Proof.
  intros (A1 & A2 & A3) (B1 & B2 & B3). repeat split; congruence.
Qed.

Lemma extends_refl p st : extends p st st.
Proof.
  split; [auto|]. intros l G. exists []. rewrite app_nil_r. exact G.
Qed.

Lemma extends_trans p a b c : extends p a b -> extends p b c -> extends p a c.
Proof.
  intros (A1 & A2) (B1 & B2). split.
  - intros D. destruct (A1 D) as (E1 & E2).
    rewrite <- E1 in D. destruct (B1 D) as (F1 & F2).
    split; congruence.
  - intros l G. destruct (A2 _ G) as (m1 & G1).
    destruct (B2 _ G1) as (m2 & G2).
    exists (m1 ++ m2). rewrite app_assoc. exact G2.
Qed.

Lemma same_at_extends p a b : same_at p a b -> extends p a b.
Proof.
  intros (A1 & A2 & A3). split; [auto|].
  intros l G. exists []. rewrite app_nil_r. congruence.
Qed.

(** An empty value records nothing. *)
Lemma recordParameter_empty docName values st q :
  nonEmpty (Obj.prop values q) = false ->
  recordParameter docName values st q = st.
Proof. unfold recordParameter. intros ->. reflexivity. Qed.

(** The first non-empty value of a parameter is recorded with its source. *)
Lemma recordParameter_first docName values st q :
  nonEmpty (Obj.prop values q) = true ->
  isUndefined (Obj.prop (consolidatedData st) q) = true ->
  let st' := recordParameter docName values st q in
  consolidatedData st' = Obj.set (consolidatedData st) q (Obj.prop values q)
  /\ dataSources st' = Obj.set (dataSources st) q (VStr docName)
  /\ conflictsSoFar st' = conflictsSoFar st.
Proof.
  unfold recordParameter. intros -> ->. cbn. auto.
Qed.

(** A later non-empty value goes to the end of the parameter's conflict
    list, which is created from the recorded value when there is none. *)
Lemma recordParameter_again docName values st q :
  nonEmpty (Obj.prop values q) = true ->
  isUndefined (Obj.prop (consolidatedData st) q) = false ->
  let st' := recordParameter docName values st q in
  consolidatedData st' = consolidatedData st
  /\ dataSources st' = dataSources st
  /\ Obj.get (conflictsSoFar st') q =
       Some (match Obj.get (conflictsSoFar st) q with
             | Some l => l
             | None =>
                 [{| document := Obj.prop (dataSources st) q;
                     val := Obj.prop (consolidatedData st) q |}]
             end
             ++ [{| document := VStr docName; val := Obj.prop values q |}])
  /\ (forall k, q <> k ->
        Obj.get (conflictsSoFar st') k = Obj.get (conflictsSoFar st) k)
  /\ (NoDup (Obj.keys (conflictsSoFar st)) ->
      NoDup (Obj.keys (conflictsSoFar st'))).
Proof.
  unfold recordParameter. intros -> ->. cbn.
  destruct (Obj.get (conflictsSoFar st) q) as [l|] eqn:G.
  - rewrite G. cbn. repeat split.
    + apply get_set_same.
    + intros k N. apply get_set_other, N.
    + apply keys_set_NoDup.
  - rewrite get_set_same. cbn. repeat split.
    + apply get_set_same.
    + intros k N. rewrite !get_set_other by exact N. reflexivity.
    + intros D. apply keys_set_NoDup, keys_set_NoDup, D.
Qed.

Lemma recordParameter_same_at docName values st q p :
  q <> p \/ nonEmpty (Obj.prop values p) = false ->
  same_at p st (recordParameter docName values st q).
Proof.
  intros C.
  destruct (nonEmpty (Obj.prop values q)) eqn:NE.
  - assert (N : q <> p).
    { destruct C as [N | F]; [exact N|]. intros ->. congruence. }
    destruct (isUndefined (Obj.prop (consolidatedData st) q)) eqn:U.
    + destruct (recordParameter_first docName values st q NE U) as (A & B & D).
      unfold same_at. rewrite A, B, D.
      rewrite !prop_set_other by exact N. auto.
    + destruct (recordParameter_again docName values st q NE U)
        as (A & B & _ & D & _).
      unfold same_at. rewrite A, B, (D _ N). auto.
  - rewrite (recordParameter_empty docName values st q NE). apply same_at_refl.
Qed.

Lemma recordParameter_extends docName values st q p :
  extends p st (recordParameter docName values st q).
Proof.
  destruct (string_dec q p) as [->|N];
    [| apply same_at_extends, recordParameter_same_at; auto].
  destruct (nonEmpty (Obj.prop values p)) eqn:NE;
    [| apply same_at_extends, recordParameter_same_at; auto].
  destruct (isUndefined (Obj.prop (consolidatedData st) p)) eqn:U.
  - destruct (recordParameter_first docName values st p NE U) as (A & B & D).
    split; [congruence|]. intros l G. exists []. rewrite app_nil_r. congruence.
  - destruct (recordParameter_again docName values st p NE U)
      as (A & B & G' & _).
    split; [intros _; rewrite A, B; auto|].
    intros l G. rewrite G in G'. eexists. exact G'.
Qed.

Lemma recordParameter_consistent docName values st q :
  consistent st -> consistent (recordParameter docName values st q).
Proof.
  intros (K1 & K2 & K3).
  destruct (nonEmpty (Obj.prop values q)) eqn:NE;
    [| rewrite (recordParameter_empty docName values st q NE);
       repeat split; assumption].
  destruct (isUndefined (Obj.prop (consolidatedData st) q)) eqn:U.
  - destruct (recordParameter_first docName values st q NE U) as (A & B & D).
    unfold consistent. rewrite A, B, D. repeat split; [exact K1| |].
    + intros p Dp. destruct (string_dec q p) as [->|N].
      * rewrite prop_set_same. eauto.
      * rewrite prop_set_other in * by exact N. auto.
    + intros p l G. destruct (K3 _ _ G) as (rest & -> & R & F).
      assert (N : q <> p).
      { intros ->. inversion F as [|? ? (S & _) _]; subst.
        cbn in S. congruence. }
      rewrite !prop_set_other by exact N. eauto.
  - destruct (recordParameter_again docName values st q NE U)
      as (A & B & G' & O & D).
    unfold consistent. rewrite A, B. repeat split; [auto|exact K2|].
    intros p l G. destruct (string_dec q p) as [<-|N].
    + rewrite G' in G. injection G as <-.
      assert (Snew : sound {| document := VStr docName;
                              val := Obj.prop values q |}).
      { split; [apply nonEmpty_defined, NE | cbn; eauto]. }
      destruct (Obj.get (conflictsSoFar st) q) as [l0|] eqn:G0.
      * destruct (K3 _ _ G0) as (rest & -> & R & F).
        eexists (rest ++ [_]). repeat split.
        -- intros E. apply app_eq_nil in E as [_ E]. discriminate E.
        -- apply Forall_app. split; [exact F | auto].
      * eexists [_]. repeat split; [discriminate|].
        repeat constructor; [exact U | apply K2, U | apply Snew | apply Snew].
    + rewrite (O _ N) in G. auto.
Qed.

Lemma recordDocument_consistent creditId st entry :
  consistent st -> consistent (recordDocument creditId st entry).
Proof.
  destruct entry as [docName docData]. unfold recordDocument.
  destruct (Obj.get docData creditId) as [creditData|]; [|auto].
  apply fold_left_invariant. intros a b _. apply recordParameter_consistent.
Qed.

Lemma recordDocument_extends creditId st entry p :
  extends p st (recordDocument creditId st entry).
Proof.
  destruct entry as [docName docData]. unfold recordDocument.
  destruct (Obj.get docData creditId) as [creditData|];
    [| split; cbn; [auto|];
       intros l G; exists []; rewrite app_nil_r; exact G].
  apply fold_left_related with (R := extends p).
  - apply extends_refl.
  - apply extends_trans.
  - intros a b _. apply recordParameter_extends.
Qed.

(** A document that does not supply [p] changes nothing for [p]. *)
Lemma recordDocument_same_at creditId st docName docData p :
  silent docData creditId p ->
  same_at p st (recordDocument creditId st (docName, docData)).
Proof.
  intros S. unfold recordDocument.
  destruct (Obj.get docData creditId) as [creditData|] eqn:G;
    [| repeat split].
  apply fold_left_related with (R := same_at p).
  - apply same_at_refl.
  - apply same_at_trans.
  - intros a b I. apply recordParameter_same_at.
    destruct (string_dec b p) as [->|N]; [right | left; exact N].
    destruct (Parameters creditData) as [ps|] eqn:P; [|contradiction].
    destruct (Values creditData) as [vs|] eqn:Vs; [|reflexivity].
    destruct (nonEmpty (Obj.prop vs p)) eqn:NE; [|reflexivity].
    exfalso. apply (S (Obj.prop vs p)).
    exists creditData, ps, vs. auto 10.
Qed.

(** The first supplier of [p] gets its value and its name recorded. *)
Lemma recordDocument_first creditId st docName docData p v :
  supplies docData creditId p v ->
  isUndefined (Obj.prop (consolidatedData st) p) = true ->
  let st' := recordDocument creditId st (docName, docData) in
  Obj.prop (consolidatedData st') p = v
  /\ Obj.prop (dataSources st') p = VStr docName.
Proof.
  intros (creditData & ps & vs & G & P & I & Vs & <- & NE).
  cbv zeta. unfold recordDocument. rewrite G, P, Vs. clear G P Vs.
  revert st. induction ps as [|b ps IH]; intros st0 U; [contradiction|].
  cbn [fold_left]. destruct (string_dec b p) as [->|N].
  - destruct (recordParameter_first docName vs st0 p NE U) as (A & B & _).
    pose proof (fold_left_related (recordParameter docName vs) (extends p) ps
                  (extends_refl p) (@extends_trans p)
                  (fun a b _ => recordParameter_extends docName vs a b p)
                  (recordParameter docName vs st0 p)) as (E & _).
    rewrite A, B, !prop_set_same in E.
    apply E, nonEmpty_defined, NE.
  - destruct I as [I | I]; [contradiction|].
    apply IH; [exact I|].
    destruct (@recordParameter_same_at docName vs st0 b p (or_introl N))
      as (A & _). rewrite A. exact U.
Qed.

(** A later supplier of [p] is the last candidate of [p]'s conflict. *)
Lemma recordDocument_again creditId st docName docData p v :
  supplies docData creditId p v ->
  isUndefined (Obj.prop (consolidatedData st) p) = false ->
  exists l0,
    Obj.get (conflictsSoFar (recordDocument creditId st (docName, docData))) p
    = Some (l0 ++ [{| document := VStr docName; val := v |}]).
Proof.
  intros (creditData & ps & vs & G & P & I & Vs & <- & NE).
  unfold recordDocument. rewrite G, P, Vs. clear G P Vs.
  revert st. induction ps as [|b ps IH]; intros st0 U; [contradiction|].
  cbn [fold_left].
  destruct (in_dec string_dec p ps) as [Ip | Np].
  - apply IH; [exact Ip|].
    destruct (recordParameter_extends docName vs st0 b p) as (E & _).
    destruct (E U) as (E1 & _). rewrite E1. exact U.
  - destruct I as [-> | I]; [|contradiction].
    destruct (recordParameter_again docName vs st0 p NE U)
      as (_ & _ & G' & _).
    assert (S : same_at p (recordParameter docName vs st0 p)
                  (fold_left (recordParameter docName vs) ps
                     (recordParameter docName vs st0 p))).
    { apply fold_left_related with (R := same_at p).
      - apply same_at_refl.
      - apply same_at_trans.
      - intros a b Ib. apply recordParameter_same_at. left.
        intros ->. exact (Np Ib). }
    destruct S as (_ & _ & S). rewrite S, G'. eexists. reflexivity.
Qed.

Section Documents.
Variable creditId : string.

Lemma run_consistent docs st :
  consistent st -> consistent (fold_left (recordDocument creditId) docs st).
Proof.
  apply fold_left_invariant. intros a b _. apply recordDocument_consistent.
Qed.

Lemma run_extends docs st p :
  extends p st (fold_left (recordDocument creditId) docs st).
Proof.
  apply fold_left_related with (R := extends p).
  - apply extends_refl.
  - apply extends_trans.
  - intros a b _. apply recordDocument_extends.
Qed.

Lemma run_same_at docs st p :
  Forall (fun entry => silent (snd entry) creditId p) docs ->
  same_at p st (fold_left (recordDocument creditId) docs st).
Proof.
  intros F. apply fold_left_related with (R := same_at p).
  - apply same_at_refl.
  - apply same_at_trans.
  - intros a [d dd] I. apply recordDocument_same_at.
    rewrite Forall_forall in F. exact (F _ I).
Qed.

(** Once some document has supplied [p], [p] is recorded. *)
Lemma run_recorded docs p :
  Exists (fun entry => exists v, supplies (snd entry) creditId p v) docs ->
  forall st,
    isUndefined
      (Obj.prop (consolidatedData (fold_left (recordDocument creditId) docs st)) p)
    = false.
Proof.
  induction 1 as [[d dd] docs (v & S) | e docs _ IH]; intros st; cbn [fold_left].
  - cbn [snd] in S.
    assert (D : isUndefined
                  (Obj.prop (consolidatedData
                               (recordDocument creditId st (d, dd))) p) = false).
    { destruct (isUndefined (Obj.prop (consolidatedData st) p)) eqn:U.
      - destruct (recordDocument_first st d S U) as (A & _).
        rewrite A. destruct S as (? & ? & ? & _ & _ & _ & _ & _ & NE).
        apply nonEmpty_defined, NE.
      - destruct (recordDocument_extends creditId st (d, dd) p) as (E & _).
        destruct (E U) as (E1 & _). rewrite E1. exact U. }
    destruct (run_extends docs (recordDocument creditId st (d, dd)) p)
      as (E & _).
    destruct (E D) as (E1 & _). rewrite E1. exact D.
  - apply IH.
Qed.

Lemma start_consistent : consistent start.
Proof.
  repeat split; cbn; [constructor | discriminate | discriminate].
Qed.

Lemma collect_consistent docs : consistent (collect docs creditId).
Proof. apply run_consistent, start_consistent. Qed.

(** The first supplier of [p] in document order is what stays recorded. *)
Lemma collect_first pre d1 dd1 post p v1 :
  Forall (fun entry => silent (snd entry) creditId p) pre ->
  supplies dd1 creditId p v1 ->
  let st := collect (pre ++ (d1, dd1) :: post) creditId in
  Obj.prop (consolidatedData st) p = v1
  /\ Obj.prop (dataSources st) p = VStr d1.
Proof.
  intros Q S. cbv zeta. unfold collect. cbv zeta.
  rewrite fold_left_app. cbn [fold_left].
  fold start.
  set (st1 := fold_left (recordDocument creditId) pre start).
  destruct (run_same_at start Q) as (A & _). fold st1 in A.
  assert (U : isUndefined (Obj.prop (consolidatedData st1) p) = true)
    by (rewrite A; reflexivity).
  destruct (recordDocument_first st1 d1 S U) as (B & C).
  destruct (run_extends post (recordDocument creditId st1 (d1, dd1)) p)
    as (E & _).
  destruct E as (E1 & E2).
  - rewrite B. destruct S as (? & ? & ? & _ & _ & _ & _ & _ & NE).
    apply nonEmpty_defined, NE.
  - split; congruence.
Qed.

(** Two suppliers of [p]: the conflict starts with the first one and
    holds the second one further on. *)
Lemma collect_conflict pre d1 dd1 mid d2 dd2 post p v1 v2 :
  Forall (fun entry => silent (snd entry) creditId p) pre ->
  supplies dd1 creditId p v1 ->
  supplies dd2 creditId p v2 ->
  exists rest,
    Obj.get
      (conflictsSoFar
         (collect (pre ++ (d1, dd1) :: mid ++ (d2, dd2) :: post) creditId)) p
    = Some ({| document := VStr d1; val := v1 |} :: rest)
    /\ In {| document := VStr d2; val := v2 |} rest.
Proof.
  intros Q S1 S2.
  destruct (collect_first (pre := pre) d1 (mid ++ (d2, dd2) :: post) Q S1)
    as (F1 & F2).
  pose proof (collect_consistent (pre ++ (d1, dd1) :: mid ++ (d2, dd2) :: post))
    as (_ & _ & K3).
  revert F1 F2 K3. unfold collect. cbv zeta. fold start.
  replace (pre ++ (d1, dd1) :: mid ++ (d2, dd2) :: post)
    with ((pre ++ (d1, dd1) :: mid) ++ (d2, dd2) :: post)
    by (rewrite <- app_assoc; reflexivity).
  rewrite fold_left_app. cbn [fold_left].
  set (st3 := fold_left (recordDocument creditId) (pre ++ (d1, dd1) :: mid) start).
  set (st4 := recordDocument creditId st3 (d2, dd2)).
  intros F1 F2 K3.
  assert (D3 : isUndefined (Obj.prop (consolidatedData st3) p) = false).
  { apply run_recorded. apply Exists_app. right. left. cbn. eauto. }
  destruct (recordDocument_again st3 d2 S2 D3) as (l0 & G4). fold st4 in G4.
  assert (K4 : consistent st4).
  { apply recordDocument_consistent, run_consistent, start_consistent. }
  destruct K4 as (_ & _ & K4).
  destruct (K4 _ _ G4) as (r4 & E4 & R4 & _).
  destruct l0 as [|c0 l0].
  { destruct r4; [contradiction | discriminate E4]. }
  clear E4 R4 r4 K4.
  destruct (run_extends post st4 p) as (_ & E).
  destruct (E _ G4) as (more & G5).
  destruct (K3 _ _ G5) as (rest & EQ & _ & _).
  rewrite F1, F2 in EQ.
  change (((c0 :: l0) ++ [{| document := VStr d2; val := v2 |}]) ++ more)
    with (c0 :: (l0 ++ [{| document := VStr d2; val := v2 |}]) ++ more)
    in EQ, G5.
  assert (C0 : c0 = {| document := VStr d1; val := v1 |}) by congruence.
  rewrite C0 in G5.
  eexists. split; [exact G5|].
  apply in_or_app. left. apply in_or_app. right. left. reflexivity.
Qed.

(** The last supplier of [p], when it is not the first, is the last
    candidate of [p]'s conflict. *)
Lemma collect_last pre d dd post p v :
  Exists (fun entry => exists v0, supplies (snd entry) creditId p v0) pre ->
  supplies dd creditId p v ->
  Forall (fun entry => silent (snd entry) creditId p) post ->
  exists l0,
    Obj.get (conflictsSoFar (collect (pre ++ (d, dd) :: post) creditId)) p
    = Some (l0 ++ [{| document := VStr d; val := v |}]).
Proof.
  intros X S Q. unfold collect. cbv zeta. fold start.
  rewrite fold_left_app. cbn [fold_left].
  set (st1 := fold_left (recordDocument creditId) pre start).
  destruct (recordDocument_again st1 d S (run_recorded X start)) as (l0 & G).
  destruct (run_same_at (recordDocument creditId st1 (d, dd)) Q)
    as (_ & _ & A).
  exists l0. rewrite A. exact G.
Qed.

End Documents.

End CollectFacts.

(* ================================================================== *)
(** ** resolveConflicts *)
(* ================================================================== *)

Module ResolveFacts.
Import LEEDDataConsolidator Consolidation ObjFacts.

Section Resolve.
Variables (data dataSources : Obj.t value) (strategy : string).
Variables (customPriorities : Obj.t float).
Variables (manualResolutions : Obj.t ManualChoice).

Abbreviation step :=
  (resolveEntry data dataSources strategy customPriorities manualResolutions).

Lemma untouched_refl p st : untouched p st st.
Proof. repeat split; auto. Qed.

Lemma untouched_trans p a b c :
  untouched p a b -> untouched p b c -> untouched p a c.
Proof.
  intros (A1 & A2 & A3) (B1 & B2 & B3). repeat split; try congruence.
  intros e I E. auto.
Qed.

(** Once an entry throws, the loop is left with that exception. *)
Lemma resolve_thrown cs e : fold_left step cs (Throw e) = Throw e.
Proof. induction cs as [|c cs IH]; cbn; auto. Qed.

Lemma resolve_cons entry cs st st' :
  fold_left step (entry :: cs) (Return st) = Return st' ->
  exists st1,
    step (Return st) entry = Return st1
    /\ fold_left step cs (Return st1) = Return st'.
Proof.
  cbn [fold_left]. intros H.
  destruct (step (Return st) entry) as [st1|e] eqn:E.
  - eauto.
  - rewrite resolve_thrown in H. discriminate H.
Qed.

Lemma resolve_app cs1 cs2 st st' :
  fold_left step (cs1 ++ cs2) (Return st) = Return st' ->
  exists st1,
    fold_left step cs1 (Return st) = Return st1
    /\ fold_left step cs2 (Return st1) = Return st'.
Proof.
  rewrite fold_left_app. intros H.
  destruct (fold_left step cs1 (Return st)) as [st1|e] eqn:E.
  - eauto.
  - rewrite resolve_thrown in H. discriminate H.
Qed.

(** Resolving one conflict touches its own parameter only and keeps the
    log written so far. *)
Lemma resolveEntry_untouched q l st st1 p :
  step (Return st) (q, l) = Return st1 ->
  q <> p ->
  untouched p st st1 /\ incl (r_resolutionLog st) (r_resolutionLog st1).
Proof.
  unfold resolveEntry. intros H N.
  destruct (resolveOne data dataSources strategy customPriorities
              manualResolutions q l) as [r|e]; [|discriminate H].
  destruct (negb (isUndefined (res_value r))); returned.
  - split; [|apply incl_appl, incl_refl].
    repeat split; cbn; try (apply prop_set_other, N).
    intros e I E. apply in_app_or in I as [I | [<- | []]]; [exact I|].
    cbn in E. contradiction.
  - split; [apply untouched_refl | apply incl_refl].
Qed.

Lemma resolve_untouched cs p :
  ~ In p (Obj.keys cs) ->
  forall st st',
    fold_left step cs (Return st) = Return st' ->
    untouched p st st' /\ incl (r_resolutionLog st) (r_resolutionLog st').
Proof.
  induction cs as [|[q l] cs IH]; intros N st st' H.
  - cbn in H. returned. split; [apply untouched_refl | apply incl_refl].
  - destruct (resolve_cons _ _ _ H) as (st1 & A & B).
    cbn in N.
    destruct (@resolveEntry_untouched q l st st1 p A) as (U1 & I1); [tauto|].
    destruct (IH (fun I => N (or_intror I)) st1 st' B) as (U2 & I2).
    split; [eapply untouched_trans; eauto | eapply incl_tran; eauto].
Qed.

(** With distinct keys, the loop resolves the conflict of [p] once, and
    what it does before and after leaves [p] alone. *)
Lemma resolve_at cs p l st st' :
  NoDup (Obj.keys cs) ->
  Obj.get cs p = Some l ->
  fold_left step cs (Return st) = Return st' ->
  exists st1 st2,
    untouched p st st1
    /\ step (Return st1) (p, l) = Return st2
    /\ untouched p st2 st'
    /\ incl (r_resolutionLog st2) (r_resolutionLog st').
Proof.
  intros D G H.
  destruct (get_split _ _ D G) as (cs1 & cs2 & -> & N1 & N2).
  destruct (resolve_app _ _ _ H) as (st1 & A & B).
  destruct (resolve_cons _ _ _ B) as (st2 & C & E).
  exists st1, st2.
  destruct (@resolve_untouched cs1 p N1 st st1 A) as (U1 & _).
  destruct (@resolve_untouched cs2 p N2 st2 st' E) as (U2 & I2).
  auto.
Qed.

End Resolve.

Lemma nth_error_last (A : Type) (l0 : list A) (c : A) :
  nth_error (l0 ++ [c]) (length (l0 ++ [c]) - 1) = Some c.
Proof.
  rewrite length_app. cbn. rewrite Nat.add_sub.
  rewrite nth_error_app2 by apply le_n. rewrite Nat.sub_diag. reflexivity.
Qed.

Lemma getDocumentPriority_string s priorities :
  exists x, getDocumentPriority (VStr s) priorities = Return x.
Proof.
  unfold getDocumentPriority.
  destruct (find _ priorities) as [[k x]|]; eexists; reflexivity.
Qed.

Lemma resolveBypriority_returns l customPriorities :
  l <> [] -> Forall sound l ->
  exists r, resolveBypriority l customPriorities = Return r.
Proof.
  intros N F. unfold resolveBypriority.
  destruct l as [|c l]; [contradiction|].
  set (priorities := Obj.spread priorityRules customPriorities).
  inversion F as [|? ? (_ & d & Dc) _]; subst.
  rewrite Dc.
  destruct (getDocumentPriority_string d priorities) as (bp & ->).
  assert (L : forall l' best,
            Forall sound l' ->
            exists b,
              fold_left
                (fun acc conflict =>
                   match acc with
                   | Return best =>
                       match getDocumentPriority (document conflict) priorities with
                       | Return priority =>
                           if PrimFloat.ltb (snd best) priority
                           then Return (conflict, priority)
                           else Return best
                       | Throw err => Throw err
                       end
                   | Throw err => Throw err
                   end) l' (Return best) = Return b).
  { induction l' as [|c' l' IH]; intros best F'; cbn.
    - eauto.
    - inversion F' as [|? ? (_ & d' & Dc') F'']; subst.
      rewrite Dc'.
      destruct (getDocumentPriority_string d' priorities) as (x & ->).
      destruct (PrimFloat.ltb (snd best) x); apply IH; exact F''. }
  destruct (L (c :: l) (c, bp) F) as (b & ->).
  eexists. reflexivity.
Qed.

(** On the conflicts the document loop builds, no strategy throws. *)
Lemma resolveOne_returns data dataSources strategy customPriorities
    manualResolutions p l :
  l <> [] -> Forall sound l ->
  exists r,
    resolveOne data dataSources strategy customPriorities manualResolutions p l
    = Return r.
Proof.
  intros N F. unfold resolveOne.
  destruct (String.eqb strategy "priority").
  - destruct (resolveBypriority_returns customPriorities N F) as (r & ->).
    eexists. reflexivity.
  - destruct (String.eqb strategy "latest").
    + destruct (exists_last N) as (l0 & c & ->).
      rewrite nth_error_last. eexists. reflexivity.
    + destruct (String.eqb strategy "manual"); [|eexists; reflexivity].
      destruct (Obj.get manualResolutions p) as [mc|]; [|eexists; reflexivity].
      destruct (find _ l); eexists; reflexivity.
Qed.

Lemma resolveConflicts_returns st strategy customPriorities manualResolutions :
  consistent st ->
  exists r,
    resolveConflicts (consolidatedData st) (conflictsSoFar st) strategy
      customPriorities manualResolutions (LEEDDataConsolidator.dataSources st)
    = Return r.
Proof.
  intros (K1 & _ & K3). unfold resolveConflicts.
  assert (G : forall q l, In (q, l) (conflictsSoFar st) ->
                          l <> [] /\ Forall sound l).
  { intros q l I. apply (in_get _ _ _ K1) in I.
    destruct (K3 _ _ I) as (rest & -> & _ & F). split; [discriminate | exact F]. }
  clear K1 K3.
  generalize {| r_data := consolidatedData st;
                r_sources := LEEDDataConsolidator.dataSources st;
                r_resolutionLog := [] |}.
  induction (conflictsSoFar st) as [|[q l] cs IH]; intros acc; cbn [fold_left].
  - eauto.
  - destruct (G q l (or_introl eq_refl)) as (N & F).
    unfold resolveEntry at 2.
    destruct (resolveOne_returns (consolidatedData st)
                (LEEDDataConsolidator.dataSources st) strategy customPriorities
                manualResolutions q N F) as (r & ->).
    destruct (negb (isUndefined (res_value r)));
      apply IH; intros q' l' I'; apply (G q' l'); right; assumption.
Qed.

(** [consolidateData] returns on every input, with the conflicts of the
    document loop and what [resolveConflicts] made of them. *)
Lemma consolidateData_returns multiDocData creditId options :
  exists out r,
    consolidateData multiDocData creditId options = Return out
    /\ resolveConflicts
         (consolidatedData (collect multiDocData creditId))
         (conflictsSoFar (collect multiDocData creditId))
         (conflictResolution options) (LEEDDataConsolidator.customPriorities options)
         (LEEDDataConsolidator.manualResolutions options)
         (LEEDDataConsolidator.dataSources (collect multiDocData creditId))
       = Return r
    /\ LEEDDataConsolidator.data out = r_data r
    /\ sources out = r_sources r
    /\ resolutionLog out = r_resolutionLog r
    /\ conflicts out = conflictsSoFar (collect multiDocData creditId).
Proof.
  destruct (resolveConflicts_returns (conflictResolution options)
              (LEEDDataConsolidator.customPriorities options)
              (LEEDDataConsolidator.manualResolutions options)
              (CollectFacts.collect_consistent creditId multiDocData))
    as (r & R).
  unfold consolidateData. cbv zeta. rewrite R.
  eexists. exists r. repeat split.
Qed.

End ResolveFacts.

(* ================================================================== *)
(** ** Consolidation: conflicts and their resolution *)
(* ================================================================== *)

Section ConsolidatorClaims.
Import LEEDDataConsolidator Consolidation.

Lemma find_none_all (A : Type) (f : A -> bool) (l : list A) :
  (forall x, In x l -> f x = false) -> find f l = None.
Proof.
  induction l as [|a l IH]; cbn; intros H; [reflexivity|].
  rewrite (H a (or_introl eq_refl)). apply IH. auto.
Qed.

(** C7. When two documents supply the same parameter for the target
    credit with non-empty values, the first of them being the first
    supplier in document order, [consolidateData] returns a result whose
    conflict entry for the parameter starts with the first supplier and
    its value and holds the later supplier and its value further on,
    whatever the two values are, equal ones included. *)
Theorem second_supplier_makes_conflict
    (creditId : string) (options : Options)
    (pre : MultiDocData) (d1 : string) (dd1 : DocData)
    (mid : MultiDocData) (d2 : string) (dd2 : DocData)
    (post : MultiDocData) (p : string) (v1 v2 : value) :
  Forall (fun entry => silent (snd entry) creditId p) pre ->
  supplies dd1 creditId p v1 ->
  supplies dd2 creditId p v2 ->
  exists out rest,
    consolidateData (pre ++ (d1, dd1) :: mid ++ (d2, dd2) :: post)
      creditId options = Return out
    /\ Obj.get (conflicts out) p
       = Some ({| document := VStr d1; val := v1 |} :: rest)
    /\ In {| document := VStr d2; val := v2 |} rest.
Proof.
  intros Q S1 S2.
  destruct (ResolveFacts.consolidateData_returns
              (pre ++ (d1, dd1) :: mid ++ (d2, dd2) :: post) creditId options)
    as (out & r & E & _ & _ & _ & _ & C).
  destruct (CollectFacts.collect_conflict d1 mid d2 post Q S1 S2)
    as (rest & G & I).
  exists out, rest. rewrite C. auto.
Qed.

(** C4. Under the [latest] policy [consolidateData] returns, and for
    every conflict the consolidated value and source are those of the
    last candidate of the conflict's list, logged as [latest-document];
    that candidate is the last document in processing order that
    supplies the parameter. *)
Theorem latest_takes_last_candidate
    (multiDocData : MultiDocData) (creditId : string) (options : Options) :
  conflictResolution options = "latest" ->
  exists out,
    consolidateData multiDocData creditId options = Return out
    /\ (forall p l,
          Obj.get (conflicts out) p = Some l ->
          exists c,
            nth_error l (length l - 1) = Some c
            /\ Obj.prop (data out) p = val c
            /\ Obj.prop (sources out) p = document c
            /\ In {| parameter := p; conflictList := l;
                     resolvedValue := val c; resolvedSource := document c;
                     method := Some "latest-document" |}
                  (resolutionLog out))
    /\ (forall pre d dd post p v,
          multiDocData = pre ++ (d, dd) :: post ->
          Exists (fun entry => exists v0, supplies (snd entry) creditId p v0)
            pre ->
          supplies dd creditId p v ->
          Forall (fun entry => silent (snd entry) creditId p) post ->
          Obj.prop (data out) p = v /\ Obj.prop (sources out) p = VStr d).
Proof.
  intros L.
  destruct (ResolveFacts.consolidateData_returns multiDocData creditId options)
    as (out & r & E & R & D & S & Lg & C).
  exists out. split; [exact E|].
  pose proof (CollectFacts.collect_consistent creditId multiDocData)
    as (K1 & _ & K3).
  assert (P1 : forall p l,
            Obj.get (conflicts out) p = Some l ->
            exists c,
              nth_error l (length l - 1) = Some c
              /\ Obj.prop (data out) p = val c
              /\ Obj.prop (sources out) p = document c
              /\ In {| parameter := p; conflictList := l;
                       resolvedValue := val c; resolvedSource := document c;
                       method := Some "latest-document" |}
                    (resolutionLog out)).
  { intros p l G. rewrite C in G.
    destruct (K3 _ _ G) as (rest & EQ & _ & F).
    assert (N : l <> []) by (rewrite EQ; discriminate).
    destruct (exists_last N) as (l0 & c & ->).
    exists c. split; [apply ResolveFacts.nth_error_last|].
    unfold resolveConflicts in R. rewrite L in R.
    destruct (@ResolveFacts.resolve_at _ _ _ _ _ _ _ _ _ _ K1 G R)
      as (st1 & st2 & _ & A & (U1 & U2 & _) & I).
    unfold resolveEntry, resolveOne in A. cbn [String.eqb Ascii.eqb Bool.eqb] in A.
    rewrite ResolveFacts.nth_error_last in A.
    apply Forall_app in F as (_ & F).
    inversion F as [|? ? (V & _) _]; subst.
    cbn [res_value res_source res_method] in A.
    rewrite V in A. cbn [negb] in A. returned.
    rewrite D, S, Lg, U1, U2. cbn.
    rewrite !ObjFacts.prop_set_same. repeat split.
    apply I. cbn. apply in_or_app. right. left. reflexivity. }
  split; [exact P1|].
  intros pre d dd post p v -> X Sp Q.
  destruct (CollectFacts.collect_last d X Sp Q) as (l0 & G).
  rewrite <- C in G.
  destruct (P1 _ _ G) as (c & Nth & Pd & Ps & _).
  rewrite ResolveFacts.nth_error_last in Nth. injection Nth as <-.
  auto.
Qed.

(** C8. Under the [manual] policy [consolidateData] returns, and a
    conflicted parameter with no manual choice, or whose chosen document
    is not among the candidates of its conflict, is left unresolved: the
    consolidated output has the value and source of the first candidate,
    which are those of the first supplier in document order, and the
    resolution log has no entry for the parameter. *)
Theorem manual_without_match_keeps_first
    (multiDocData : MultiDocData) (creditId : string) (options : Options) :
  conflictResolution options = "manual" ->
  exists out,
    consolidateData multiDocData creditId options = Return out
    /\ forall p l,
         Obj.get (conflicts out) p = Some l ->
         (Obj.get (manualResolutions options) p = None
          \/ exists choice,
               Obj.get (manualResolutions options) p = Some choice
               /\ forall c, In c l ->
                    strictEq (document c) (chosenDocument choice) = false) ->
         (exists first rest,
            l = first :: rest
            /\ Obj.prop (data out) p = val first
            /\ Obj.prop (sources out) p = document first)
         /\ (forall entry,
               In entry (resolutionLog out) -> parameter entry <> p)
         /\ (forall pre d1 dd1 post v1,
               multiDocData = pre ++ (d1, dd1) :: post ->
               Forall (fun entry => silent (snd entry) creditId p) pre ->
               supplies dd1 creditId p v1 ->
               Obj.prop (data out) p = v1
               /\ Obj.prop (sources out) p = VStr d1).
Proof.
  intros M.
  destruct (ResolveFacts.consolidateData_returns multiDocData creditId options)
    as (out & r & E & R & D & S & Lg & C).
  exists out. split; [exact E|].
  pose proof (CollectFacts.collect_consistent creditId multiDocData)
    as (K1 & _ & K3).
  intros p l G Choice. rewrite C in G.
  destruct (K3 _ _ G) as (rest & EQ & _ & _).
  unfold resolveConflicts in R. rewrite M in R.
  destruct (@ResolveFacts.resolve_at _ _ _ _ _ _ _ _ _ _ K1 G R)
    as (st1 & st2 & (T1 & T2 & T3) & A & (U1 & U2 & U3) & _).
  assert (A' : st2 = st1).
  { unfold resolveEntry, resolveOne in A.
    cbn [String.eqb Ascii.eqb Bool.eqb] in A.
    destruct Choice as [None_ | (choice & Some_ & Miss)].
    - rewrite None_ in A. cbn in A. returned. reflexivity.
    - rewrite Some_, (@find_none_all _ _ _ Miss) in A. cbn in A.
      returned. reflexivity. }
  subst st2.
  assert (Pd : Obj.prop (data out) p
               = Obj.prop (consolidatedData (collect multiDocData creditId)) p)
    by (rewrite D, U1, T1; reflexivity).
  assert (Ps : Obj.prop (sources out) p
               = Obj.prop (LEEDDataConsolidator.dataSources
                             (collect multiDocData creditId)) p)
    by (rewrite S, U2, T2; reflexivity).
  split; [|split].
  - eexists _, rest. split; [exact EQ|]. cbn. auto.
  - intros entry I Ep. rewrite Lg in I.
    exact (T3 _ (U3 _ I Ep) Ep).
  - intros pre d1 dd1 post v1 -> Q Sp.
    destruct (CollectFacts.collect_first d1 post Q Sp) as (F1 & F2).
    rewrite Pd, Ps. auto.
Qed.

End ConsolidatorClaims.

Section ConsolidatorRuns.
Import LEEDDataConsolidator Consolidation.

(** The conflict on GWP that the three documents produce. *)
Example gwp_conflict_run :
  Obj.get (conflictsSoFar (collect gwp_documents "EACr6")) "GWP"
  = Some [{| document := VStr "manufacturer_datasheet"; val := VNum 675%float |};
          {| document := VStr "commissioning_report"; val := VNum 700%float |}].
Proof. reflexivity. Qed.

Lemma datasheet_supplies_gwp :
  supplies
    [("EACr6",
      {| Parameters := Some ["ODP"; "GWP"];
         Values := Some [("ODP", VNum 0%float); ("GWP", VNum 675%float)] |})]
    "EACr6" "GWP" (VNum 675%float).
Proof.
  eexists _, _, _. repeat split; cbn; auto.
Qed.

Lemma report_supplies_gwp :
  supplies
    [("EACr6",
      {| Parameters := Some ["GWP"; "Leakage Rate"];
         Values := Some [("GWP", VNum 700%float);
                         ("Leakage Rate", VNum 8%float)] |})]
    "EACr6" "GWP" (VNum 700%float).
Proof.
  eexists _, _, _. repeat split; cbn; auto.
Qed.

Lemma schedule_silent_on_gwp :
  silent
    [("EACr6",
      {| Parameters := Some ["Refrigerant Used"; "ODP"; "GWP"];
         Values := Some [("Refrigerant Used", VStr "R-32")] |})]
    "EACr6" "GWP".
Proof.
  intros v (creditData & ps & vs & G & P & I & Vs & <- & NE).
  cbn in G. injection G as <-. cbn in Vs. injection Vs as <-.
  discriminate NE.
Qed.

Lemma sheet_supplies_gwp :
  supplies
    [("EACr6",
      {| Parameters := Some ["GWP"];
         Values := Some [("GWP", VNum 675%float)] |})]
    "EACr6" "GWP" (VNum 675%float).
Proof.
  eexists _, _, _. repeat split; cbn; auto.
Qed.

Lemma second_supplier_makes_conflict_witness :
  exists out rest,
    consolidateData agreeing_documents "EACr6" defaultOptions = Return out
    /\ Obj.get (conflicts out) "GWP"
       = Some ({| document := VStr "manufacturer_datasheet";
                  val := VNum 675%float |} :: rest)
    /\ In {| document := VStr "equipment_schedule"; val := VNum 675%float |}
          rest.
Proof.
  apply (@second_supplier_makes_conflict "EACr6" defaultOptions
           [] "manufacturer_datasheet" _ [] "equipment_schedule" _ []
           "GWP" (VNum 675%float) (VNum 675%float)).
  - constructor.
  - apply sheet_supplies_gwp.
  - apply sheet_supplies_gwp.
Defined.

Lemma latest_takes_last_candidate_witness :
  exists out,
    consolidateData gwp_documents "EACr6" latestOptions = Return out
    /\ Obj.prop (data out) "GWP" = VNum 700%float
    /\ Obj.prop (sources out) "GWP" = VStr "commissioning_report"
    /\ exists c,
         nth_error
           [{| document := VStr "manufacturer_datasheet";
               val := VNum 675%float |};
            {| document := VStr "commissioning_report";
               val := VNum 700%float |}] 1 = Some c
         /\ Obj.prop (data out) "GWP" = val c
         /\ Obj.prop (sources out) "GWP" = document c.
Proof.
  destruct (@latest_takes_last_candidate gwp_documents "EACr6" latestOptions
              eq_refl) as (out & E & Last & Order).
  exists out. split; [exact E|].
  destruct (Order [_; _] "commissioning_report" _ [] "GWP" (VNum 700%float)
              eq_refl) as (Pd & Ps).
  - right. left. exists (VNum 675%float). apply datasheet_supplies_gwp.
  - apply report_supplies_gwp.
  - constructor.
  - split; [exact Pd|]. split; [exact Ps|].
    pose proof E as E'. vm_compute in E'. injection E' as E'.
    assert (G : Obj.get (conflicts out) "GWP"
                = Some [{| document := VStr "manufacturer_datasheet";
                           val := VNum 675%float |};
                        {| document := VStr "commissioning_report";
                           val := VNum 700%float |}])
      by (rewrite <- E'; reflexivity).
    destruct (Last "GWP" _ G) as (c & Nth & Pc & Sc & _).
    exists c. auto.
Defined.

Lemma manual_without_match_keeps_first_witness :
  exists out,
    consolidateData gwp_documents "EACr6" manualOptions = Return out
    /\ Obj.prop (data out) "GWP" = VNum 675%float
    /\ Obj.prop (sources out) "GWP" = VStr "manufacturer_datasheet"
    /\ forall entry, In entry (resolutionLog out) -> parameter entry <> "GWP".
Proof.
  destruct (@manual_without_match_keeps_first gwp_documents "EACr6"
              manualOptions eq_refl) as (out & E & K).
  exists out. split; [exact E|].
  pose proof E as E'. vm_compute in E'. injection E' as E'.
  assert (G : Obj.get (conflicts out) "GWP"
              = Some [{| document := VStr "manufacturer_datasheet";
                         val := VNum 675%float |};
                      {| document := VStr "commissioning_report";
                         val := VNum 700%float |}])
    by (rewrite <- E'; reflexivity).
  destruct (K "GWP" _ G) as (_ & NoLog & First).
  - right. eexists. split; [reflexivity|].
    intros c [<- | [<- | []]]; reflexivity.
  - destruct (First [_] "manufacturer_datasheet" _ [_] (VNum 675%float)
                eq_refl) as (Pd & Ps).
    + repeat constructor. apply schedule_silent_on_gwp.
    + apply datasheet_supplies_gwp.
    + auto.
Defined.

(** The same documents under the three policies. *)
Example gwp_latest_run :
  exists out,
    consolidateData gwp_documents "EACr6" latestOptions = Return out
    /\ Obj.prop (data out) "GWP" = VNum 700%float
    /\ Obj.prop (data out) "ODP" = VNum 0%float
    /\ length (resolutionLog out) = 1.
Proof. eexists. split; [vm_compute; reflexivity | repeat split]. Qed.

Example gwp_priority_run :
  exists out,
    consolidateData gwp_documents "EACr6" defaultOptions = Return out
    /\ Obj.prop (data out) "GWP" = VNum 675%float
    /\ map method (resolutionLog out) = [Some "priority-based"].
Proof. eexists. split; [vm_compute; reflexivity | repeat split]. Qed.

Example gwp_manual_run :
  exists out,
    consolidateData gwp_documents "EACr6" manualOptions = Return out
    /\ Obj.prop (data out) "GWP" = VNum 675%float
    /\ resolutionLog out = [].
Proof. eexists. split; [vm_compute; reflexivity | repeat split]. Qed.

End ConsolidatorRuns.

(* ================================================================== *)
(** ** Comparisons of floating-point numbers *)
(* ================================================================== *)

Module FloatFacts.

Lemma SFcompare_refl (f : spec_float) :
  SFcompare f f = None \/ SFcompare f f = Some Eq.
Proof.
  destruct f as [s|s| |s m e]; cbn; auto.
  - destruct s; auto.
  - right. rewrite Z.compare_refl.
    change (Pos.compare_cont Eq m m) with (Pos.compare m m).
    rewrite Pos.compare_refl. destruct s; reflexivity.
Qed.

Lemma SFltb_irrefl f : SFltb f f = false.
Proof. unfold SFltb. destruct (SFcompare_refl f) as [-> | ->]; reflexivity. Qed.

Ltac cmp :=
  repeat match goal with
  | |- context [Z.compare ?a ?b] => destruct (Z.compare_spec a b); subst
  | H : context [Z.compare ?a ?b] |- _ => destruct (Z.compare_spec a b); subst
  | |- context [Pos.compare_cont Eq ?a ?b] =>
      change (Pos.compare_cont Eq a b) with (Pos.compare a b);
      destruct (Pos.compare_spec a b); subst
  | H : context [Pos.compare_cont Eq ?a ?b] |- _ =>
      change (Pos.compare_cont Eq a b) with (Pos.compare a b) in H;
      destruct (Pos.compare_spec a b); subst
  end.

Lemma SFltb_step a b c :
  SFltb a b = true -> SFltb a c = false -> SFltb b c = false.
Proof.
  unfold SFltb.
  destruct a as [sa|sa| |sa ma ea], b as [sb|sb| |sb mb eb],
           c as [sc|sc| |sc mc ec];
    cbn; try congruence;
    repeat match goal with s : bool |- _ => destruct s end;
    cbn; try congruence.
  all: cmp; cbn; try congruence; try lia.
Qed.

(** [<] is irreflexive, and what is not above [a] is not above anything
    above [a]. *)
Lemma ltb_irrefl x : PrimFloat.ltb x x = false.
Proof. rewrite ltb_spec. apply SFltb_irrefl. Qed.

Lemma ltb_step a b c :
  PrimFloat.ltb a b = true -> PrimFloat.ltb a c = false ->
  PrimFloat.ltb b c = false.
Proof. rewrite !ltb_spec. apply SFltb_step. Qed.

(** [NaN] is the only number that differs from itself, and every
    comparison with it is false. *)
Lemma nan_spec x : isNaN x = true -> Prim2SF x = S754_nan.
Proof.
  unfold isNaN. rewrite negb_true_iff, eqb_spec. unfold SFeqb.
  destruct (Prim2SF x) as [s|s| |s m e]; cbn; try congruence.
  - destruct s; congruence.
  - rewrite Z.compare_refl.
    change (Pos.compare_cont Eq m m) with (Pos.compare m m).
    rewrite Pos.compare_refl. destruct s; cbn; congruence.
Qed.

Lemma nan_compares x y :
  isNaN x = true ->
  PrimFloat.leb x y = false /\ PrimFloat.leb y x = false
  /\ PrimFloat.ltb x y = false /\ PrimFloat.ltb y x = false
  /\ PrimFloat.eqb x y = false /\ PrimFloat.eqb y x = false.
Proof.
  intros N. apply nan_spec in N.
  rewrite !leb_spec, !ltb_spec, !eqb_spec, N.
  unfold SFleb, SFltb, SFeqb. destruct (Prim2SF y); cbn; auto 7.
Qed.

(** A number equal to [0] is [0] or [-0], and compares as [0] does. *)
Lemma zero_spec x :
  PrimFloat.eqb x 0%float = true -> exists s, Prim2SF x = S754_zero s.
Proof.
  rewrite eqb_spec. change (Prim2SF 0%float) with (S754_zero false).
  unfold SFeqb.
  destruct (Prim2SF x) as [s|s| |s m e]; cbn; try congruence; eauto;
    destruct s; congruence.
Qed.

Lemma zero_compares x y :
  PrimFloat.eqb x 0%float = true ->
  PrimFloat.leb x y = PrimFloat.leb 0%float y
  /\ PrimFloat.leb y x = PrimFloat.leb y 0%float
  /\ PrimFloat.ltb x y = PrimFloat.ltb 0%float y
  /\ PrimFloat.ltb y x = PrimFloat.ltb y 0%float.
Proof.
  intros Z. destruct (zero_spec Z) as (s & E).
  rewrite !leb_spec, !ltb_spec, E.
  change (Prim2SF 0%float) with (S754_zero false).
  unfold SFleb, SFltb. destruct (Prim2SF y) as [t|t| |t m e]; cbn; auto.
Qed.

Lemma zero_not_nan x : PrimFloat.eqb x 0%float = true -> isNaN x = false.
Proof.
  intros Z. destruct (zero_spec Z) as (s & E).
  unfold isNaN. rewrite negb_false_iff, eqb_spec, E. reflexivity.
Qed.

End FloatFacts.

(* ================================================================== *)
(** ** The rule sets: when a credit is awarded *)
(* ================================================================== *)

Section RuleSetInvariants.
Context {host : Host}.

Lemma app_one_not_nil (A : Type) (l : list A) (x : A) : l ++ [x] <> [].
Proof. destruct l; discriminate. Qed.

Lemma assessOption2_clean (data : Obj.t value) (units : string)
    (calc : Calc.t) (o2 : EACr6RuleSet.Option2Result) :
  EACr6RuleSet.assessOption2 data units calc = Return o2 ->
  EACr6RuleSet.o2_gaps o2 = [] ->
  EACr6RuleSet.o2_nonCompliant o2 = [] ->
  EACr6RuleSet.o2_compliant o2 = true.
Proof.
  unfold EACr6RuleSet.assessOption2.
  destruct (EACr6RuleSet.checkMissing data) as [r0|e]; [|discriminate].
  destruct (Nat.eqb (length (EACr6RuleSet.o2_gaps r0)) 0) eqn:G.
  - destruct (Calc.calculateRefrigerantImpact calc data units) as [c|e].
    + destruct (PrimFloat.leb _ _); intros H; injection H as <-; cbn;
        intros _ N; [reflexivity|].
      exfalso. exact (app_one_not_nil _ _ N).
    + intros H; injection H as <-; cbn. intros _ N.
      exfalso. exact (app_one_not_nil _ _ N).
  - intros H; injection H as <-. intros E. rewrite E in G. discriminate G.
Qed.

(** A result without gaps and issues is an awarded one. *)
Lemma eacr6_clean_awarded (data : Obj.t value) (units : string)
    (calc : Calc.t) (r : EACr6RuleSet.Result) :
  EACr6RuleSet.assess data units calc = Return r ->
  EACr6RuleSet.gaps r = [] -> EACr6RuleSet.nonCompliant r = [] ->
  EACr6RuleSet.awarded r = true.
Proof.
  intros E.
  destruct (EACr6Facts.assess_inv _ _ _ E)
    as [(_ & _ & ->) | (_ & o2 & O & ->)]; cbn.
  - reflexivity.
  - intros G N. rewrite (assessOption2_clean _ _ _ O G N), G. reflexivity.
Qed.

(** X1. Whenever [EACr6RuleSet.assess] returns, the credit is awarded
    exactly when the result lists no gap and no non-compliance issue; the
    points are 1 when awarded and 0 otherwise, out of a maximum of 1. *)
Theorem eacr6_awarded_iff_clean (data : Obj.t value) (units : string)
    (calc : Calc.t) (r : EACr6RuleSet.Result) :
  EACr6RuleSet.assess data units calc = Return r ->
  (EACr6RuleSet.awarded r = true <->
   EACr6RuleSet.gaps r = [] /\ EACr6RuleSet.nonCompliant r = [])
  /\ EACr6RuleSet.points r = (if EACr6RuleSet.awarded r then 1 else 0)
  /\ EACr6RuleSet.maxPoints r = 1.
Proof.
  intros E. split.
  - split.
    + exact (EACr6Facts.assess_awarded_clean _ _ _ E).
    + intros (G & N). exact (eacr6_clean_awarded _ _ _ E G N).
  - destruct (EACr6Facts.assess_inv _ _ _ E)
      as [(_ & _ & ->) | (_ & o2 & O & ->)]; cbn.
    + split; reflexivity.
    + split; reflexivity.
Qed.

Lemma assessPart1_clean (data : Obj.t value) :
  IEQCr5RuleSet.p1_gaps (IEQCr5RuleSet.assessPart1 data) = [] ->
  IEQCr5RuleSet.p1_nonCompliant (IEQCr5RuleSet.assessPart1 data) = [] ->
  IEQCr5RuleSet.p1_compliant (IEQCr5RuleSet.assessPart1 data) = true.
Proof.
  unfold IEQCr5RuleSet.assessPart1. cbv zeta.
  set (m := filter _ IEQCr5RuleSet.environmentalParams).
  destruct (negb (truthy (Obj.prop data "Compliance Path")));
  destruct (isUndefined (Obj.prop data "PMV") || isNull (Obj.prop data "PMV"));
  try destruct (PrimFloat.leb (-0.5)%float (parseFloat (Obj.prop data "PMV"))
            && PrimFloat.leb (parseFloat (Obj.prop data "PMV")) 0.5%float);
  destruct (isUndefined (Obj.prop data "PPD") || isNull (Obj.prop data "PPD"));
  try destruct (PrimFloat.ltb (parseFloat (Obj.prop data "PPD")) 10%float);
  destruct m as [|x m]; cbn; try discriminate; auto.
Qed.

Lemma assessPart2_clean (data : Obj.t value) (calc : Calc.t) :
  IEQCr5RuleSet.p2_gaps (IEQCr5RuleSet.assessPart2 data calc) = [] ->
  IEQCr5RuleSet.p2_nonCompliant (IEQCr5RuleSet.assessPart2 data calc) = [] ->
  IEQCr5RuleSet.p2_compliant (IEQCr5RuleSet.assessPart2 data calc) = true.
Proof.
  unfold IEQCr5RuleSet.assessPart2. cbv zeta.
  destruct (negb (truthy (Obj.prop data "Total Individual Spaces")));
  destruct (negb (truthy (Obj.prop data "Controlled Spaces")));
  cbn [orb];
  try destruct (Calc.calculateSpacePercentage calc _ _) as [p|e];
  try destruct (PrimFloat.ltb 50%float p);
  destruct (negb (truthy (Obj.prop data "Group Controls")));
  destruct (negb (truthy (Obj.prop data "Thermostat Locations")));
  cbn; try discriminate; auto.
Qed.

(** A result without gaps and issues is an awarded one. *)
Lemma ieqcr5_clean_awarded (data : Obj.t value) (units : string)
    (calc : Calc.t) :
  let r := IEQCr5RuleSet.assess data units calc in
  IEQCr5RuleSet.gaps r = [] -> IEQCr5RuleSet.nonCompliant r = [] ->
  IEQCr5RuleSet.awarded r = true.
Proof.
  cbv zeta. unfold IEQCr5RuleSet.assess. cbv zeta.
  cbn [IEQCr5RuleSet.gaps IEQCr5RuleSet.nonCompliant].
  destruct (_ && _ && _ && _) eqn:C; cbn; [reflexivity|].
  intros G N. exfalso.
  apply app_eq_nil in G as (G1 & G2). apply app_eq_nil in N as (N1 & N2).
  rewrite (assessPart1_clean _ G1 N1), (assessPart2_clean _ _ G2 N2),
    G1, G2, N1, N2 in C.
  discriminate C.
Qed.

(** X2. [IEQCr5RuleSet.assess] awards the credit exactly when its result
    lists no gap and no non-compliance issue, whatever the calculation
    module does; the points are 1 when awarded and 0 otherwise. *)
Theorem ieqcr5_awarded_iff_clean (data : Obj.t value) (units : string)
    (calc : Calc.t) :
  let r := IEQCr5RuleSet.assess data units calc in
  (IEQCr5RuleSet.awarded r = true <->
   IEQCr5RuleSet.gaps r = [] /\ IEQCr5RuleSet.nonCompliant r = [])
  /\ IEQCr5RuleSet.points r = (if IEQCr5RuleSet.awarded r then 1 else 0)
  /\ IEQCr5RuleSet.maxPoints r = 1.
Proof.
  cbv zeta. split.
  - split.
    + apply ieqCr5_awarded_clean.
    + intros (G & N). exact (ieqcr5_clean_awarded data units calc G N).
  - unfold IEQCr5RuleSet.assess. cbv zeta.
    destruct (_ && _ && _ && _); split; reflexivity.
Qed.

End RuleSetInvariants.

Section RuleSetDecisions.
Context {host : Host}.

(** The four requirements of option 1, met. *)
Lemma assessOption1_met (data : Obj.t value) :
  truthy (Obj.prop data "Refrigerant Used") = true ->
  strictEq (Obj.prop data "ODP") (VNum 0%float) = true ->
  isUndefined (Obj.prop data "GWP") = false ->
  isNull (Obj.prop data "GWP") = false ->
  PrimFloat.leb 50%float (toNumber (Obj.prop data "GWP")) = false ->
  truthy (Obj.prop data "Confirmation Statement") = true ->
  EACr6RuleSet.o1_compliant (EACr6RuleSet.assessOption1 data) = true.
Proof.
  intros RU ODP GU GN G50 CS.
  unfold EACr6RuleSet.assessOption1. cbv zeta.
  rewrite RU, CS, GU, GN, G50, ODP.
  destruct (Obj.prop data "ODP") as [| |s|x]; try discriminate ODP.
  reflexivity.
Qed.

(** X3. Option 1 of [EACr6RuleSet] is met exactly when the refrigerant
    and the confirmation statement are truthy, ODP is the number zero,
    GWP is neither [undefined] nor [null], and the comparison
    [GWP >= 50] is false. *)
Theorem option1_decision (data : Obj.t value) :
  EACr6RuleSet.o1_compliant (EACr6RuleSet.assessOption1 data) = true <->
  truthy (Obj.prop data "Refrigerant Used") = true
  /\ strictEq (Obj.prop data "ODP") (VNum 0%float) = true
  /\ isUndefined (Obj.prop data "GWP") = false
  /\ isNull (Obj.prop data "GWP") = false
  /\ PrimFloat.leb 50%float (toNumber (Obj.prop data "GWP")) = false
  /\ truthy (Obj.prop data "Confirmation Statement") = true.
Proof.
  split.
  - unfold EACr6RuleSet.assessOption1. cbv zeta.
    destruct (truthy (Obj.prop data "Refrigerant Used"));
    destruct (truthy (Obj.prop data "Confirmation Statement"));
    destruct (Obj.prop data "ODP") as [| |s|x];
    cbn [negb isUndefined isNull strictEq orb];
    try destruct (PrimFloat.eqb x 0%float);
    cbn [negb];
    destruct (isUndefined (Obj.prop data "GWP"));
    destruct (isNull (Obj.prop data "GWP"));
    cbn [orb];
    try destruct (PrimFloat.leb 50%float (toNumber (Obj.prop data "GWP")));
    cbn; intuition congruence.
  - intros (RU & ODP & GU & GN & G50 & CS).
    apply assessOption1_met; assumption.
Qed.

(** X4. A GWP that is present but does not convert to a number passes the
    GWP test of option 1, since [NaN >= 50] is false: with the refrigerant
    and the confirmation statement given and ODP zero, the credit is
    awarded under option 1. *)
Theorem option1_accepts_unreadable_gwp (data : Obj.t value) (units : string)
    (calc : Calc.t) :
  truthy (Obj.prop data "Refrigerant Used") = true ->
  strictEq (Obj.prop data "ODP") (VNum 0%float) = true ->
  isUndefined (Obj.prop data "GWP") = false ->
  isNull (Obj.prop data "GWP") = false ->
  isNaN (toNumber (Obj.prop data "GWP")) = true ->
  truthy (Obj.prop data "Confirmation Statement") = true ->
  exists r,
    EACr6RuleSet.assess data units calc = Return r
    /\ EACr6RuleSet.awarded r = true
    /\ EACr6RuleSet.points r = 1
    /\ EACr6RuleSet.option r = Some 1.
Proof.
  intros RU ODP GU GN NaN CS.
  assert (O1 : EACr6RuleSet.o1_compliant (EACr6RuleSet.assessOption1 data)
               = true).
  { apply assessOption1_met; try assumption.
    apply (@FloatFacts.nan_compares _ 50%float NaN). }
  assert (B : EACr6RuleSet.hasBasicRefrigerantData data = true).
  { unfold EACr6RuleSet.hasBasicRefrigerantData. rewrite RU, GU.
    destruct (Obj.prop data "ODP"); try discriminate ODP. reflexivity. }
  unfold EACr6RuleSet.assess. cbv zeta. rewrite B, O1.
  eexists. repeat split.
Qed.

Lemma pushGaps_filter (data : Obj.t value) (ps : list string) :
  forall r,
    EACr6RuleSet.o2_gaps
      (fold_left
         (fun result param =>
            if EACr6RuleSet.missing (Obj.prop data param)
            then EACr6RuleSet.o2_pushGap result param
            else result) ps r)
    = EACr6RuleSet.o2_gaps r
      ++ filter (fun param => EACr6RuleSet.missing (Obj.prop data param)) ps.
Proof.
  induction ps as [|p ps IH]; intros r; cbn [fold_left filter].
  - symmetry. apply app_nil_r.
  - rewrite IH. destruct (EACr6RuleSet.missing (Obj.prop data p)); cbn.
    + rewrite <- app_assoc. reflexivity.
    + reflexivity.
Qed.

Lemma checkMissing_validateData (data : Obj.t value)
    (r : EACr6RuleSet.Option2Result) :
  EACr6RuleSet.checkMissing data = Return r ->
  exists extra,
    EACr6RuleSet.o2_gaps r =
      LEEDUtils.missing
        (LEEDUtils.validateData data EACr6RuleSet.requiredParams)
      ++ extra
    /\ incl extra ["Leakage Test Results"; "Greenchill Certification Status"]
    /\ (truthy (Obj.prop data "Equipment Type") = false -> extra = []).
Proof.
  unfold EACr6RuleSet.checkMissing. cbv zeta.
  set (r0 := fold_left _ EACr6RuleSet.requiredParams _).
  assert (G0 : EACr6RuleSet.o2_gaps r0 =
               LEEDUtils.missing
                 (LEEDUtils.validateData data EACr6RuleSet.requiredParams)).
  { unfold r0. rewrite pushGaps_filter. reflexivity. }
  clearbody r0.
  destruct (truthy (Obj.prop data "Equipment Type")).
  - destruct (Obj.prop data "Equipment Type") as [| |s|x]; try discriminate.
    destruct (includes (toLowerCase s) "refrigeration").
    + destruct (negb (truthy (Obj.prop data "Leakage Test Results")));
      destruct (negb (truthy (Obj.prop data "Greenchill Certification Status")));
      intros H; injection H as <-; cbn; rewrite ?G0, <- ?app_assoc;
      eexists; (split; [try reflexivity; symmetry; apply app_nil_r|]);
      (split; [|discriminate]);
      unfold incl; cbn; intuition.
    + intros H; injection H as <-. exists []. rewrite app_nil_r.
      repeat split; auto. intros x [].
  - intros H; injection H as <-. exists []. rewrite app_nil_r.
    repeat split; auto. intros x [].
Qed.

(** X5. The gaps that option 2 of [EACr6RuleSet] reports are the
    parameters that [LEEDUtils.validateData] finds missing among the six
    required ones, in the same order, followed only by the two
    refrigeration documents when an equipment type is given; and when
    [validateData] finds the data invalid, option 2 is not compliant and
    no calculation is run. *)
Theorem option2_gaps_are_validateData (data : Obj.t value) (units : string)
    (calc : Calc.t) (o2 : EACr6RuleSet.Option2Result) :
  EACr6RuleSet.assessOption2 data units calc = Return o2 ->
  (exists extra,
     EACr6RuleSet.o2_gaps o2 =
       LEEDUtils.missing
         (LEEDUtils.validateData data EACr6RuleSet.requiredParams)
       ++ extra
     /\ incl extra ["Leakage Test Results"; "Greenchill Certification Status"]
     /\ (truthy (Obj.prop data "Equipment Type") = false -> extra = []))
  /\ (LEEDUtils.valid
        (LEEDUtils.validateData data EACr6RuleSet.requiredParams) = false ->
      EACr6RuleSet.o2_compliant o2 = false
      /\ EACr6RuleSet.o2_calculations o2 = None
      /\ EACr6RuleSet.o2_nonCompliant o2 = []).
Proof.
  unfold EACr6RuleSet.assessOption2.
  destruct (EACr6RuleSet.checkMissing data) as [r0|e] eqn:M; [|discriminate].
  destruct (EACr6Facts.checkMissing_frame _ M) as (F1 & F2 & F3).
  destruct (checkMissing_validateData _ M) as (extra & G & I & T).
  destruct (Nat.eqb (length (EACr6RuleSet.o2_gaps r0)) 0) eqn:L.
  - assert (V : LEEDUtils.valid
                  (LEEDUtils.validateData data EACr6RuleSet.requiredParams)
                = true).
    { apply Nat.eqb_eq in L. rewrite G, length_app in L.
      change (LEEDUtils.valid
                (LEEDUtils.validateData data EACr6RuleSet.requiredParams))
        with (Nat.eqb
                (length
                   (LEEDUtils.missing
                      (LEEDUtils.validateData data
                         EACr6RuleSet.requiredParams))) 0).
      apply Nat.eqb_eq. lia. }
    destruct (Calc.calculateRefrigerantImpact calc data units) as [c|e];
      [destruct (PrimFloat.leb _ _)|];
      intros H; injection H as <-;
      (split; [cbn; exists extra; auto
              | intros V'; rewrite V in V'; discriminate V']).
  - intros H; injection H as <-.
    split; [exists extra; auto | auto].
Qed.

(** X6. [EACr6RuleSet.assess] throws exactly when option 1 is not
    awarded and the equipment type is a truthy value that is not a
    string; in every other case it returns a result. *)
Theorem eacr6_throws_on_equipment_type (data : Obj.t value) (units : string)
    (calc : Calc.t) :
  (exists e, EACr6RuleSet.assess data units calc = Throw e) <->
  ((EACr6RuleSet.hasBasicRefrigerantData data = false
    \/ EACr6RuleSet.o1_compliant (EACr6RuleSet.assessOption1 data) = false)
   /\ truthy (Obj.prop data "Equipment Type") = true
   /\ forall s, Obj.prop data "Equipment Type" <> VStr s).
Proof.
  split.
  - intros (e & T).
    assert (ET : truthy (Obj.prop data "Equipment Type") = true
                 /\ forall s, Obj.prop data "Equipment Type" <> VStr s).
    { destruct (truthy (Obj.prop data "Equipment Type")) eqn:Tr.
      - split; [reflexivity|]. intros s Es.
        destruct (@EACr6Facts.assess_returns _ data units calc) as (r & R).
        + right. exists s. exact Es.
        + rewrite R in T. discriminate T.
      - destruct (@EACr6Facts.assess_returns _ data units calc) as (r & R).
        + left. exact Tr.
        + rewrite R in T. discriminate T. }
    split; [|exact ET].
    unfold EACr6RuleSet.assess in T. cbv zeta in T.
    destruct (EACr6RuleSet.hasBasicRefrigerantData data); [|auto].
    destruct (EACr6RuleSet.o1_compliant (EACr6RuleSet.assessOption1 data));
      [discriminate T | auto].
  - intros (O & Tr & NS).
    assert (M : exists e, EACr6RuleSet.checkMissing data = Throw e).
    { unfold EACr6RuleSet.checkMissing. cbv zeta. rewrite Tr.
      destruct (Obj.prop data "Equipment Type") as [| |s|x];
        try (eexists; reflexivity).
      exfalso. exact (NS s eq_refl). }
    destruct M as (e & M). exists e.
    unfold EACr6RuleSet.assess, EACr6RuleSet.assessOption2. cbv zeta.
    rewrite M.
    destruct O as [-> | O]; [reflexivity|].
    rewrite O. destruct (EACr6RuleSet.hasBasicRefrigerantData data);
      reflexivity.
Qed.

Lemma filter_not_in (A : Type) (f : A -> bool) (l : list A) (x : A) :
  ~ In x l -> ~ In x (filter f l).
Proof. intros N I. apply filter_In in I as (I & _). exact (N I). Qed.

(** X7. A PMV or PPD that is present but does not parse as a number is
    reported by [assessPart1] as a non-compliance issue quoting the
    unparsed number, never as a gap. *)
Theorem unreadable_comfort_indices_are_issues (data : Obj.t value) :
  (isUndefined (Obj.prop data "PMV") = false ->
   isNull (Obj.prop data "PMV") = false ->
   isNaN (parseFloat (Obj.prop data "PMV")) = true ->
   In [Lit "PMV ("; NumSub (parseFloat (Obj.prop data "PMV"));
       Lit ") is outside acceptable range (-0.5 to 0.5)"]
      (IEQCr5RuleSet.p1_nonCompliant (IEQCr5RuleSet.assessPart1 data))
   /\ ~ In "PMV" (IEQCr5RuleSet.p1_gaps (IEQCr5RuleSet.assessPart1 data))
   /\ IEQCr5RuleSet.p1_compliant (IEQCr5RuleSet.assessPart1 data) = false)
  /\ (isUndefined (Obj.prop data "PPD") = false ->
      isNull (Obj.prop data "PPD") = false ->
      isNaN (parseFloat (Obj.prop data "PPD")) = true ->
      In [Lit "PPD ("; NumSub (parseFloat (Obj.prop data "PPD"));
          Lit "%) is not less than 10%"]
         (IEQCr5RuleSet.p1_nonCompliant (IEQCr5RuleSet.assessPart1 data))
      /\ ~ In "PPD" (IEQCr5RuleSet.p1_gaps (IEQCr5RuleSet.assessPart1 data))
      /\ IEQCr5RuleSet.p1_compliant (IEQCr5RuleSet.assessPart1 data) = false).
Proof.
  assert (E1 : ~ In "PMV" IEQCr5RuleSet.environmentalParams)
    by (cbn; intuition discriminate).
  assert (E2 : ~ In "PPD" IEQCr5RuleSet.environmentalParams)
    by (cbn; intuition discriminate).
  split; intros U N NaN;
    unfold IEQCr5RuleSet.assessPart1; cbv zeta;
    set (f := fun param : string => _);
    pose proof (@filter_not_in _ f _ _ E1) as M1;
    pose proof (@filter_not_in _ f _ _ E2) as M2;
    set (m := filter f IEQCr5RuleSet.environmentalParams) in *;
    clearbody m; rewrite U, N; cbn [orb].
  - rewrite (proj1 (proj2 (@FloatFacts.nan_compares _ (-0.5)%float NaN))).
    cbn [andb].
    destruct (negb (truthy (Obj.prop data "Compliance Path")));
    destruct (isUndefined (Obj.prop data "PPD") || isNull (Obj.prop data "PPD"));
    try destruct (PrimFloat.ltb (parseFloat (Obj.prop data "PPD")) 10%float);
    destruct m as [|x m]; cbn in *; intuition discriminate.
  - rewrite (proj1 (proj2 (proj2 (@FloatFacts.nan_compares _ 10%float NaN)))).
    destruct (negb (truthy (Obj.prop data "Compliance Path")));
    destruct (isUndefined (Obj.prop data "PMV") || isNull (Obj.prop data "PMV"));
    try destruct (PrimFloat.leb (-0.5)%float (parseFloat (Obj.prop data "PMV"))
              && PrimFloat.leb (parseFloat (Obj.prop data "PMV")) 0.5%float);
    destruct m as [|x m]; cbn in *; intuition discriminate.
Qed.

End RuleSetDecisions.

Section RuleSetRuns.
Existing Instance decimalHost.

Lemma eacr6_awarded_iff_clean_witness :
  exists r,
    EACr6RuleSet.assess eaCr6_fail "IP" CalculationModule.new = Return r
    /\ (EACr6RuleSet.awarded r = true <->
        EACr6RuleSet.gaps r = [] /\ EACr6RuleSet.nonCompliant r = [])
    /\ EACr6RuleSet.points r = (if EACr6RuleSet.awarded r then 1 else 0)
    /\ EACr6RuleSet.maxPoints r = 1.
Proof.
  eexists. split; [vm_compute; reflexivity|].
  apply (@eacr6_awarded_iff_clean _ eaCr6_fail "IP" CalculationModule.new).
  vm_compute. reflexivity.
Defined.

Lemma option1_accepts_unreadable_gwp_witness :
  exists r,
    EACr6RuleSet.assess eaCr6_unreadable_gwp "IP" CalculationModule.new
    = Return r
    /\ EACr6RuleSet.awarded r = true
    /\ EACr6RuleSet.points r = 1
    /\ EACr6RuleSet.option r = Some 1.
Proof.
  apply (@option1_accepts_unreadable_gwp _ eaCr6_unreadable_gwp "IP"
           CalculationModule.new); reflexivity.
Defined.

Lemma option2_gaps_are_validateData_witness :
  exists o2,
    EACr6RuleSet.assessOption2 r410a_incomplete "IP" CalculationModule.new
    = Return o2
    /\ EACr6RuleSet.o2_gaps o2 = ["Refrigerant charge"; "Leakage Rate"]
    /\ EACr6RuleSet.o2_compliant o2 = false
    /\ EACr6RuleSet.o2_calculations o2 = None
    /\ EACr6RuleSet.o2_nonCompliant o2 = [].
Proof.
  eexists. split; [vm_compute; reflexivity|].
  match goal with
  | |- context [EACr6RuleSet.o2_gaps ?o] =>
      destruct (@option2_gaps_are_validateData r410a_incomplete "IP"
                  CalculationModule.new o ltac:(vm_compute; reflexivity))
        as ((extra & G & _ & T) & V)
  end.
  split.
  - rewrite G, (T eq_refl). reflexivity.
  - apply V. reflexivity.
Defined.

Lemma unreadable_comfort_indices_are_issues_witness :
  (In [Lit "PMV ("; NumSub nan;
       Lit ") is outside acceptable range (-0.5 to 0.5)"]
      (IEQCr5RuleSet.p1_nonCompliant
         (IEQCr5RuleSet.assessPart1 ieqCr5_unreadable_indices))
   /\ ~ In "PMV"
         (IEQCr5RuleSet.p1_gaps
            (IEQCr5RuleSet.assessPart1 ieqCr5_unreadable_indices)))
  /\ (In [Lit "PPD ("; NumSub nan; Lit "%) is not less than 10%"]
         (IEQCr5RuleSet.p1_nonCompliant
            (IEQCr5RuleSet.assessPart1 ieqCr5_unreadable_indices))
      /\ ~ In "PPD"
            (IEQCr5RuleSet.p1_gaps
               (IEQCr5RuleSet.assessPart1 ieqCr5_unreadable_indices))).
Proof.
  destruct (@unreadable_comfort_indices_are_issues _ ieqCr5_unreadable_indices)
    as (A & B).
  destruct (A eq_refl eq_refl eq_refl) as (A1 & A2 & _).
  destruct (B eq_refl eq_refl eq_refl) as (B1 & B2 & _).
  repeat split; assumption.
Defined.

End RuleSetRuns.

(* ================================================================== *)
(** ** LEEDRuleEngine: the registry of rule sets *)
(* ================================================================== *)

Section Registry.
Variable A : Type.

(** X8. [assessCredit] on a credit id that is not among
    [getAvailableCredits] throws the error naming the credit, whatever
    the data.  (A credit id is not a name every object inherits, such as
    [toString]: the lookup [this.credits[creditId]] would find those.) *)
Theorem assessCredit_unknown_throws (this : LEEDRuleEngine.t A)
    (creditId : string) (data : Obj.t value) (units : string) :
  ~ In creditId (LEEDRuleEngine.getAvailableCredits this) ->
  LEEDRuleEngine.assessCredit this creditId data units
  = Throw (Error ("Credit " ++ creditId ++ " not found in rule engine")%string).
Proof.
  intros N. unfold LEEDRuleEngine.assessCredit.
  apply ObjFacts.get_none_keys in N.
  unfold LEEDRuleEngine.getAvailableCredits in N. rewrite N. reflexivity.
Qed.


End Registry.

Section RegistryRuns.
Existing Instance decimalHost.

Lemma assessCredit_unknown_throws_witness :
  LEEDRuleEngine.getAvailableCredits LEEDRuleEngine.new = ["EACr6"; "IEQCr5"]
  /\ LEEDRuleEngine.assessCredit LEEDRuleEngine.new "WECr1" eaCr6_fail "IP"
     = Throw (Error "Credit WECr1 not found in rule engine").
Proof.
  split; [reflexivity|].
  apply (@assessCredit_unknown_throws Assessment LEEDRuleEngine.new "WECr1"
           eaCr6_fail "IP").
  cbn. intuition discriminate.
Defined.


End RegistryRuns.

(* ================================================================== *)
(** ** Consolidation: what every strategy guarantees *)
(* ================================================================== *)

Module StrategyFacts.
Import LEEDDataConsolidator Consolidation Strategy ObjFacts.

Lemma bestOf_thrown priorities l e : bestOf priorities l (Throw e) = Throw e.
Proof. induction l as [|c l IH]; cbn; auto. Qed.

Lemma bestOf_leads priorities first l :
  forall seen best res,
    leads priorities first seen best ->
    bestOf priorities l (Return best) = Return res ->
    leads priorities first (seen ++ l) res.
Proof.
  induction l as [|c l IH]; intros seen best res L H.
  - cbn in H. injection H as <-. rewrite app_nil_r. exact L.
  - unfold bestOf in H. cbn [fold_left] in H.
    destruct (getDocumentPriority (document c) priorities) as [q|e] eqn:P.
    2:{ change (bestOf priorities l (Throw e) = Return res) in H.
        rewrite bestOf_thrown in H. discriminate H. }
    destruct L as (L1 & L2 & L3).
    replace (seen ++ c :: l) with ((seen ++ [c]) ++ l)
      by (rewrite <- app_assoc; reflexivity).
    destruct (PrimFloat.ltb (snd best) q) eqn:C;
      (eapply IH; [|exact H]); repeat split; cbn [fst snd].
    + right. apply in_or_app. right. left. reflexivity.
    + exact P.
    + intros c' q' I P'. apply in_app_or in I as [I | [<- | []]].
      * eapply FloatFacts.ltb_step; [exact C | eapply L3; eauto].
      * rewrite P in P'. injection P' as <-. apply FloatFacts.ltb_irrefl.
    + destruct L1 as [L1 | L1]; [left; exact L1 | right].
      apply in_or_app. left. exact L1.
    + exact L2.
    + intros c' q' I P'. apply in_app_or in I as [I | [<- | []]].
      * eapply L3; eauto.
      * rewrite P in P'. injection P' as <-. exact C.
Qed.

Lemma resolveBypriority_leads l customPriorities r :
  resolveBypriority l customPriorities = Return r ->
  exists first rest best,
    l = first :: rest
    /\ leads (Obj.spread priorityRules customPriorities) first l best
    /\ r = {| pr_value := val (fst best); pr_source := document (fst best);
              pr_priority := snd best |}.
Proof.
  unfold resolveBypriority. cbv zeta.
  set (priorities := Obj.spread priorityRules customPriorities).
  destruct l as [|first l]; [discriminate|].
  destruct (getDocumentPriority (document first) priorities) as [bp|e] eqn:P;
    [|discriminate].
  change (fold_left _ (first :: l) (Return (first, bp)))
    with (bestOf priorities (first :: l) (Return (first, bp))).
  destruct (bestOf priorities (first :: l) (Return (first, bp)))
    as [best|e] eqn:B; [|discriminate].
  intros H. injection H as <-.
  assert (L0 : leads priorities first [] (first, bp)).
  { repeat split; cbn [fst snd]; [left; reflexivity | exact P |].
    intros c q []. }
  exists first, l, best. split; [reflexivity|].
  split; [exact (bestOf_leads _ L0 B) | reflexivity].
Qed.

Lemma resolveBypriority_member l customPriorities r :
  resolveBypriority l customPriorities = Return r ->
  exists c, In c l /\ pr_value r = val c /\ pr_source r = document c.
Proof.
  intros R.
  destruct (resolveBypriority_leads _ _ R)
    as (first & rest & best & -> & (L1 & _) & ->).
  exists (fst best). cbn [pr_value pr_source]. split; [|auto].
  destruct L1 as [<- | L1]; [left; reflexivity | exact L1].
Qed.

(** What [resolveOne] hands back is a candidate of the conflict, unless
    the strategy is [manual] and nothing was chosen. *)
Lemma resolveOne_candidate data dataSources strategy customPriorities
    manualResolutions p l rest r :
  l = {| document := Obj.prop dataSources p; val := Obj.prop data p |} :: rest ->
  resolveOne data dataSources strategy customPriorities manualResolutions p l
  = Return r ->
  (strategy = "manual" /\ r = unresolved)
  \/ (exists c,
        In c l /\ res_value r = val c /\ res_source r = document c).
Proof.
  intros EQ. unfold resolveOne.
  destruct (String.eqb strategy "priority").
  - destruct (resolveBypriority l customPriorities) as [pr|e] eqn:R;
      [|discriminate].
    intros H. injection H as <-. right.
    destruct (resolveBypriority_member _ _ R) as (c & I & V & S).
    exists c. auto.
  - destruct (String.eqb strategy "latest").
    + destruct (nth_error l (length l - 1)) as [c|] eqn:N; [|discriminate].
      intros H. injection H as <-. right.
      exists c. split; [eapply nth_error_In; exact N | auto].
    + destruct (String.eqb strategy "manual") eqn:M.
      * apply String.eqb_eq in M.
        destruct (Obj.get manualResolutions p) as [mc|].
        -- destruct (find _ l) as [c|] eqn:F; intros H; injection H as <-.
           ++ right. exists c. apply find_some in F as (I & _). auto.
           ++ left. auto.
        -- intros H; injection H as <-. left. auto.
      * intros H; injection H as <-. right.
        eexists. split; [rewrite EQ; left; reflexivity | auto].
Qed.

Section Loop.
Variables (data dataSources : Obj.t value) (strategy : string).
Variables (customPriorities : Obj.t float).
Variables (manualResolutions : Obj.t ManualChoice).

Abbreviation step :=
  (resolveEntry data dataSources strategy customPriorities manualResolutions).

Lemma set_keeps_keys (V : Type) (o : Obj.t V) k v :
  In k (Obj.keys o) -> Obj.keys (Obj.set o k v) = Obj.keys o.
Proof.
  intros I. rewrite keys_set.
  destruct (Obj.get o k) eqn:G; [reflexivity|].
  apply get_none_keys in G. contradiction.
Qed.

(** The loop keeps the keys of the data and of the sources, and logs at
    most one entry for each conflict: exactly one unless the strategy is
    [manual]. *)
Lemma resolve_counts cs :
  wellFormed data dataSources cs ->
  forall st st',
    Obj.keys (r_data st) = Obj.keys data ->
    Obj.keys (r_sources st) = Obj.keys dataSources ->
    fold_left step cs (Return st) = Return st' ->
    Obj.keys (r_data st') = Obj.keys data
    /\ Obj.keys (r_sources st') = Obj.keys dataSources
    /\ length (r_resolutionLog st') <= length (r_resolutionLog st) + length cs
    /\ (strategy <> "manual" ->
        length (r_resolutionLog st')
        = length (r_resolutionLog st) + length cs).
Proof.
  induction cs as [|[p l] cs IH]; intros W st st' K1 K2 H.
  - cbn in H. injection H as <-. cbn. rewrite Nat.add_0_r. auto.
  - destruct (@ResolveFacts.resolve_cons _ _ _ _ _ _ _ _ _ H)
      as (st1 & A & B).
    destruct (W p l (or_introl eq_refl)) as ((rest & EQ) & F & I1 & I2).
    unfold resolveEntry in A.
    destruct (resolveOne data dataSources strategy customPriorities
                manualResolutions p l) as [r|e] eqn:R; [|discriminate A].
    assert (W' : wellFormed data dataSources cs)
      by (intros q m I; apply W; right; exact I).
    destruct (negb (isUndefined (res_value r))) eqn:U;
      injection A as <-.
    + assert (Ka : Obj.keys (Obj.set (r_data st) p (res_value r))
                   = Obj.keys data)
        by (rewrite set_keeps_keys; [exact K1 | rewrite K1; exact I1]).
      assert (Kb : Obj.keys (Obj.set (r_sources st) p (res_source r))
                   = Obj.keys dataSources)
        by (rewrite set_keeps_keys; [exact K2 | rewrite K2; exact I2]).
      match type of B with
      | fold_left _ _ (Return ?s) = _ =>
          destruct (IH W' s st' Ka Kb B) as (J1 & J2 & J3 & J4)
      end.
      cbn in J3, J4. rewrite length_app in J3, J4. cbn in J3, J4.
      cbn [length].
      repeat split; try assumption; [lia|].
      intros M. rewrite (J4 M). lia.
    + destruct (IH W' _ st' K1 K2 B) as (J1 & J2 & J3 & J4).
      cbn [length].
      repeat split; try assumption; [lia|].
      intros M. exfalso.
      destruct (@resolveOne_candidate _ _ _ _ _ _ _ _ _ EQ R)
        as [(M' & _) | (c & I & V & _)]; [contradiction|].
      rewrite Forall_forall in F. destruct (F c I) as (D & _).
      rewrite V, D in U. discriminate U.
Qed.

(** Every log entry is for one of the conflicts, with its list. *)
Lemma resolve_logged cs :
  forall st st',
    fold_left step cs (Return st) = Return st' ->
    forall e,
      In e (r_resolutionLog st') ->
      In e (r_resolutionLog st) \/ In (parameter e, conflictList e) cs.
Proof.
  induction cs as [|[p l] cs IH]; intros st st' H e I.
  - cbn in H. injection H as <-. left. exact I.
  - destruct (@ResolveFacts.resolve_cons _ _ _ _ _ _ _ _ _ H)
      as (st1 & A & B).
    destruct (IH _ _ B e I) as [I1 | I1]; [|right; right; exact I1].
    unfold resolveEntry in A.
    destruct (resolveOne data dataSources strategy customPriorities
                manualResolutions p l) as [r|x]; [|discriminate A].
    destruct (negb (isUndefined (res_value r))); injection A as <-.
    + cbn in I1. apply in_app_or in I1 as [I1 | [<- | []]];
        [left; exact I1 | right; left; reflexivity].
    + left. exact I1.
Qed.

End Loop.

(** The conflicts of the document loop are well formed. *)
Lemma collect_wellFormed st :
  consistent st ->
  wellFormed (consolidatedData st) (LEEDDataConsolidator.dataSources st)
    (conflictsSoFar st).
Proof.
  intros (K1 & K2 & K3) p l I.
  apply (@in_get _ _ _ _ K1) in I.
  destruct (K3 _ _ I) as (rest & EQ & _ & F).
  assert (D : isUndefined (Obj.prop (consolidatedData st) p) = false).
  { rewrite EQ in F. inversion F as [|? ? (D & _) _]; subst. exact D. }
  repeat split; [exists rest; exact EQ | exact F | |].
  - destruct (Obj.get (consolidatedData st) p) eqn:G.
    + destruct (in_dec string_dec p (Obj.keys (consolidatedData st)))
        as [Y|N]; [exact Y|].
      apply get_none_keys in N. congruence.
    + unfold Obj.prop in D. rewrite G in D. discriminate D.
  - destruct (K2 _ D) as (d & S).
    destruct (Obj.get (LEEDDataConsolidator.dataSources st) p) eqn:G.
    + destruct (in_dec string_dec p
                  (Obj.keys (LEEDDataConsolidator.dataSources st)))
        as [Y|N]; [exact Y|].
      apply get_none_keys in N. congruence.
    + unfold Obj.prop in S. rewrite G in S. discriminate S.
Qed.

(** For a conflicted parameter, the output holds the value and the
    source of one candidate, and the log entries of the parameter record
    that candidate. *)
Lemma resolve_provenance st strategy customPriorities manualResolutions r :
  consistent st ->
  resolveConflicts (consolidatedData st) (conflictsSoFar st) strategy
    customPriorities manualResolutions (LEEDDataConsolidator.dataSources st)
  = Return r ->
  forall p l,
    Obj.get (conflictsSoFar st) p = Some l ->
    exists c,
      In c l
      /\ Obj.prop (r_data r) p = val c
      /\ Obj.prop (r_sources r) p = document c
      /\ forall e,
           In e (r_resolutionLog r) -> parameter e = p ->
           conflictList e = l
           /\ resolvedValue e = val c
           /\ resolvedSource e = document c.
Proof.
  intros K R p l G.
  pose proof K as (K1 & _ & K3).
  destruct (K3 _ _ G) as (rest & EQ & _ & _).
  unfold resolveConflicts in R.
  destruct (@ResolveFacts.resolve_at _ _ _ _ _ _ _ _ _ _ K1 G R)
    as (st1 & st2 & (T1 & T2 & T3) & A & (U1 & U2 & U3) & _).
  cbn [r_data r_sources r_resolutionLog] in T1, T2, T3.
  unfold resolveEntry in A.
  destruct (resolveOne (consolidatedData st)
              (LEEDDataConsolidator.dataSources st) strategy customPriorities
              manualResolutions p l) as [x|e] eqn:O; [|discriminate A].
  destruct (negb (isUndefined (res_value x))) eqn:D; injection A as <-.
  - destruct (@resolveOne_candidate _ _ _ _ _ _ _ _ _ EQ O)
      as [(_ & ->) | (c & I & V & S)]; [discriminate D|].
    exists c. cbn [r_data r_sources r_resolutionLog] in U1, U2, U3.
    rewrite U1, U2, !prop_set_same.
    repeat split; try assumption;
      destruct (in_app_or _ _ _ (U3 _ H H0)) as [I' | [<- | []]];
      try (exfalso; exact (T3 _ I' H0)); cbn; auto.
  - eexists. split; [rewrite EQ; left; reflexivity|].
    rewrite U1, U2, T1, T2. cbn [val document].
    repeat split; exfalso; exact (T3 _ (U3 _ H H0) H0).
Qed.

End StrategyFacts.

Section ConsolidatorInvariants.
Import LEEDDataConsolidator Consolidation.


(** X11. Whatever the strategy, a conflicted parameter ends with the
    value and the source of one and the same candidate of its conflict,
    and whatever the resolution log says about the parameter names that
    candidate and the conflict's list. *)
Theorem every_strategy_picks_a_candidate
    (multiDocData : MultiDocData) (creditId : string) (options : Options) :
  exists out,
    consolidateData multiDocData creditId options = Return out
    /\ forall p l,
         Obj.get (conflicts out) p = Some l ->
         exists c,
           In c l
           /\ Obj.prop (data out) p = val c
           /\ Obj.prop (sources out) p = document c
           /\ forall e,
                In e (resolutionLog out) -> parameter e = p ->
                conflictList e = l
                /\ resolvedValue e = val c
                /\ resolvedSource e = document c.
Proof.
  destruct (ResolveFacts.consolidateData_returns multiDocData creditId options)
    as (out & r & E & R & D & S & Lg & C).
  exists out. split; [exact E|].
  intros p l G. rewrite C in G. rewrite D, S, Lg.
  exact (@StrategyFacts.resolve_provenance _ _ _ _ _
           (CollectFacts.collect_consistent creditId multiDocData) R _ _ G).
Qed.

(** X12. In the processing summary, the conflicts resolved never exceed
    the conflicts detected, which never exceed the parameters found; under
    every strategy but [manual] each detected conflict is resolved and
    logged; and resolution neither adds nor drops a parameter. *)
Theorem conflict_counts
    (multiDocData : MultiDocData) (creditId : string) (options : Options) :
  exists out,
    consolidateData multiDocData creditId options = Return out
    /\ conflictsResolved (processingInfo out)
       <= conflictsDetected (processingInfo out)
    /\ conflictsDetected (processingInfo out)
       <= parametersFound (processingInfo out)
    /\ (conflictResolution options <> "manual" ->
        conflictsResolved (processingInfo out)
        = conflictsDetected (processingInfo out))
    /\ Obj.keys (data out)
       = Obj.keys (consolidatedData (collect multiDocData creditId))
    /\ Obj.keys (sources out)
       = Obj.keys (dataSources (collect multiDocData creditId)).
Proof.
  destruct (ResolveFacts.consolidateData_returns multiDocData creditId options)
    as (out & r & E & R & D & S & Lg & C).
  exists out. split; [exact E|].
  pose proof (CollectFacts.collect_consistent creditId multiDocData) as K.
  pose proof (StrategyFacts.collect_wellFormed K) as W.
  unfold resolveConflicts in R.
  match type of R with
  | fold_left _ _ (Return ?s) = _ =>
      destruct (@StrategyFacts.resolve_counts _ _ _ _ _ _ W s r
                  eq_refl eq_refl R) as (J1 & J2 & J3 & J4)
  end.
  cbn [r_resolutionLog length Nat.add] in J3, J4.
  assert (PI : processingInfo out =
               {| documentsProcessed := length (Obj.keys multiDocData);
                  parametersFound := length (Obj.keys (r_data r));
                  conflictsDetected :=
                    length (Obj.keys (conflictsSoFar
                                        (collect multiDocData creditId)));
                  conflictsResolved := length (r_resolutionLog r) |}).
  { unfold consolidateData in E. cbv zeta in E.
    unfold resolveConflicts in E. rewrite R in E. injection E as <-.
    reflexivity. }
  assert (LK : forall (V : Type) (o : Obj.t V),
            length (Obj.keys o) = length o)
    by (intros; apply length_map).
  rewrite PI, D, S.
  cbn [conflictsResolved conflictsDetected parametersFound].
  rewrite J1, J2.
  split; [rewrite LK; exact J3|].
  split; [|split; [rewrite LK; exact J4 | split; reflexivity]].
  destruct K as (K1 & _ & _).
  apply NoDup_incl_length; [exact K1|].
  intros p I. apply in_map_iff in I as ((q & l) & <- & I).
  destruct (W q l I) as (_ & _ & Y & _). exact Y.
Qed.

(** X13. [resolveBypriority] returns the value and the source of a
    candidate of the list, with that candidate's priority, and no
    candidate of the list has a priority above it. *)
Theorem priority_picks_a_maximal_candidate
    (conflictList : list Candidate) (customPriorities : Obj.t float)
    (r : PriorityResolution) :
  resolveBypriority conflictList customPriorities = Return r ->
  exists c,
    In c conflictList
    /\ pr_value r = val c
    /\ pr_source r = document c
    /\ getDocumentPriority (document c)
         (Obj.spread priorityRules customPriorities)
       = Return (pr_priority r)
    /\ forall c' q,
         In c' conflictList ->
         getDocumentPriority (document c')
           (Obj.spread priorityRules customPriorities) = Return q ->
         PrimFloat.ltb (pr_priority r) q = false.
Proof.
  intros R.
  destruct (StrategyFacts.resolveBypriority_leads _ _ R)
    as (first & rest & best & -> & (L1 & L2 & L3) & ->).
  exists (fst best). cbn [pr_value pr_source pr_priority].
  split; [|split; [reflexivity | split; [reflexivity | split]]].
  - destruct L1 as [<- | L1]; [left; reflexivity | exact L1].
  - exact L2.
  - exact L3.
Qed.

End ConsolidatorInvariants.

Section ConsolidatorFrame.
Import LEEDDataConsolidator Consolidation.

(** What [resolveOne] returns under a strategy that is none of the three
    named ones. *)
Lemma resolveOne_default data dataSources strategy customPriorities
    manualResolutions p l :
  strategy <> "priority" -> strategy <> "latest" -> strategy <> "manual" ->
  resolveOne data dataSources strategy customPriorities manualResolutions p l
  = Return {| res_value := Obj.prop data p;
              res_source := Obj.prop dataSources p;
              res_method := Some "first-occurrence" |}.
Proof.
  intros N1 N2 N3. unfold resolveOne.
  apply String.eqb_neq in N1, N2, N3. rewrite N1, N2, N3. reflexivity.
Qed.

(** A property of the entries that one conflict can log holds of the
    whole log. *)
Lemma resolve_log_invariant data dataSources strategy customPriorities
    manualResolutions (P : LogEntry -> Prop) cs :
  (forall p l r,
     resolveOne data dataSources strategy customPriorities manualResolutions
       p l = Return r ->
     P {| parameter := p; conflictList := l; resolvedValue := res_value r;
          resolvedSource := res_source r; method := res_method r |}) ->
  forall st st',
    fold_left
      (resolveEntry data dataSources strategy customPriorities
         manualResolutions) cs (Return st) = Return st' ->
    Forall P (r_resolutionLog st) -> Forall P (r_resolutionLog st').
Proof.
  intros Step. induction cs as [|[p l] cs IH]; intros st st' H F.
  - cbn in H. injection H as <-. exact F.
  - destruct (@ResolveFacts.resolve_cons _ _ _ _ _ _ _ _ _ H)
      as (st1 & A & B).
    apply (IH _ _ B).
    unfold resolveEntry in A.
    destruct (resolveOne data dataSources strategy customPriorities
                manualResolutions p l) as [r|x] eqn:R; [|discriminate A].
    destruct (negb (isUndefined (res_value r))); injection A as <-.
    + cbn. apply Forall_app. split; [exact F|].
      constructor; [apply Step; exact R | constructor].
    + exact F.
Qed.

(** X14. A parameter for which no conflict was recorded is left to the
    document loop by every strategy: the resolution log has no entry for
    it, and its value and source are those of the first document that
    supplies it. *)
Theorem unconflicted_parameter_keeps_first_supplier
    (multiDocData : MultiDocData) (creditId : string) (options : Options) :
  exists out,
    consolidateData multiDocData creditId options = Return out
    /\ forall p,
         Obj.get (conflicts out) p = None ->
         (forall e, In e (resolutionLog out) -> parameter e = p -> False)
         /\ Obj.prop (data out) p
            = Obj.prop (consolidatedData (collect multiDocData creditId)) p
         /\ forall pre d dd post v,
              multiDocData = pre ++ (d, dd) :: post ->
              Forall (fun entry => silent (snd entry) creditId p) pre ->
              supplies dd creditId p v ->
              Obj.prop (data out) p = v
              /\ Obj.prop (sources out) p = VStr d.
Proof.
  destruct (ResolveFacts.consolidateData_returns multiDocData creditId options)
    as (out & r & E & R & D & S & Lg & C).
  exists out. split; [exact E|].
  intros p G. rewrite C in G. apply ObjFacts.get_none_keys in G.
  unfold resolveConflicts in R.
  destruct (@ResolveFacts.resolve_untouched _ _ _ _ _ _ _ G _ _ R)
    as ((U1 & U2 & U3) & _).
  cbn [r_data r_sources r_resolutionLog] in U1, U2, U3.
  rewrite D, S, Lg, U1, U2.
  split; [|split; [reflexivity|]].
  - intros e I Ep. exact (U3 e I Ep).
  - intros pre d dd post v -> Q Sp.
    exact (CollectFacts.collect_first d post Q Sp).
Qed.

(** X15. Under a strategy name that is none of [priority], [latest] and
    [manual], every value and source stays as the document loop recorded
    it, the first supplier's, while each conflict is still logged as
    resolved, by [first-occurrence]. *)
Theorem unknown_strategy_keeps_first_values
    (multiDocData : MultiDocData) (creditId : string) (options : Options) :
  conflictResolution options <> "priority" ->
  conflictResolution options <> "latest" ->
  conflictResolution options <> "manual" ->
  exists out,
    consolidateData multiDocData creditId options = Return out
    /\ (forall p,
          Obj.prop (data out) p
          = Obj.prop (consolidatedData (collect multiDocData creditId)) p
          /\ Obj.prop (sources out) p
             = Obj.prop (dataSources (collect multiDocData creditId)) p)
    /\ (forall e,
          In e (resolutionLog out) -> method e = Some "first-occurrence")
    /\ conflictsResolved (processingInfo out)
       = length (Obj.keys (conflicts out)).
Proof.
  intros N1 N2 N3.
  destruct (ResolveFacts.consolidateData_returns multiDocData creditId options)
    as (out & r & E & R & D & S & Lg & C).
  exists out. split; [exact E|].
  pose proof (CollectFacts.collect_consistent creditId multiDocData) as K.
  pose proof K as (K1 & _ & _).
  pose proof R as R'. unfold resolveConflicts in R.
  split; [|split].
  - intros p. rewrite D, S.
    destruct (Obj.get (conflictsSoFar (collect multiDocData creditId)) p)
      as [l|] eqn:G.
    + destruct (@ResolveFacts.resolve_at _ _ _ _ _ _ _ _ _ _ K1 G R)
        as (st1 & st2 & (T1 & T2 & _) & A & (U1 & U2 & _) & _).
      cbn [r_data r_sources] in T1, T2.
      unfold resolveEntry in A.
      rewrite (resolveOne_default _ _ _ _ _ _ N1 N2 N3) in A.
      cbn [res_value res_source res_method] in A.
      destruct (negb (isUndefined _)); injection A as <-.
      * rewrite U1, U2. cbn [r_data r_sources].
        rewrite !ObjFacts.prop_set_same. auto.
      * rewrite U1, U2, T1, T2. auto.
    + apply ObjFacts.get_none_keys in G.
      destruct (@ResolveFacts.resolve_untouched _ _ _ _ _ _ _ G _ _ R)
        as ((U1 & U2 & _) & _).
      auto.
  - rewrite Lg. apply Forall_forall.
    eapply (@resolve_log_invariant _ _ _ _ _
              (fun e => method e = Some "first-occurrence")); [|exact R|].
    + intros p l x X.
      rewrite (resolveOne_default _ _ _ _ _ _ N1 N2 N3) in X.
      injection X as <-. reflexivity.
    + constructor.
  - pose proof (StrategyFacts.collect_wellFormed K) as W.
    match type of R with
    | fold_left _ _ (Return ?s) = _ =>
        destruct (@StrategyFacts.resolve_counts _ _ _ _ _ _ W s r
                    eq_refl eq_refl R) as (_ & _ & _ & J4)
    end.
    specialize (J4 N3). cbn [r_resolutionLog length Nat.add] in J4.
    rewrite C. unfold Obj.keys. rewrite length_map, <- J4.
    unfold consolidateData in E. cbv zeta in E. rewrite R' in E.
    injection E as <-. reflexivity.
Qed.

Lemma recordParameters_same_at docName values ps p :
  ~ In p ps ->
  forall st, same_at p st (fold_left (recordParameter docName values) ps st).
Proof.
  induction ps as [|q ps IH]; intros N st; cbn [fold_left].
  - apply CollectFacts.same_at_refl.
  - eapply CollectFacts.same_at_trans.
    + apply (@CollectFacts.recordParameter_same_at docName values st q p).
      left. intros ->. apply N. left. reflexivity.
    + apply IH. intros I. apply N. right. exact I.
Qed.

Lemma recordParameters_extends docName values ps p :
  forall st, extends p st (fold_left (recordParameter docName values) ps st).
Proof.
  induction ps as [|q ps IH]; intros st; cbn [fold_left].
  - apply CollectFacts.extends_refl.
  - eapply CollectFacts.extends_trans; [|apply IH].
    apply CollectFacts.recordParameter_extends.
Qed.

(** X16. A document that lists a parameter twice for the credit, with a
    non-empty value and before any other document supplies it, is in
    conflict with itself: the conflict list of the parameter starts with
    two candidates from that one document, both with the same value. *)
Theorem repeated_parameter_conflicts_with_itself
    (creditId : string) (options : Options)
    (pre : MultiDocData) (d : string) (dd : DocData) (post : MultiDocData)
    (creditData : CreditData) (l1 l2 l3 : list string) (values : Obj.t value)
    (p : string) :
  Forall (fun entry => silent (snd entry) creditId p) pre ->
  Obj.get dd creditId = Some creditData ->
  Parameters creditData = Some (l1 ++ p :: l2 ++ p :: l3) ->
  ~ In p l1 -> ~ In p l2 ->
  Values creditData = Some values ->
  nonEmpty (Obj.prop values p) = true ->
  exists out more,
    consolidateData (pre ++ (d, dd) :: post) creditId options = Return out
    /\ Obj.get (conflicts out) p
       = Some ({| document := VStr d; val := Obj.prop values p |}
               :: {| document := VStr d; val := Obj.prop values p |}
               :: more).
Proof.
  intros Q G P N1 N2 V NE.
  destruct (ResolveFacts.consolidateData_returns (pre ++ (d, dd) :: post)
              creditId options) as (out & r & E & _ & _ & _ & _ & C).
  exists out. rewrite C. unfold collect. cbv zeta.
  rewrite fold_left_app. cbn [fold_left].
  fold start.
  set (st0 := fold_left (recordDocument creditId) pre start).
  destruct (@CollectFacts.run_same_at creditId pre start p Q) as (S1 & S2 & S3).
  fold st0 in S1, S2, S3. cbn in S1, S2, S3.
  unfold recordDocument at 2. rewrite G, P, V.
  rewrite fold_left_app. cbn [fold_left].
  set (f := recordParameter d values).
  set (st1 := fold_left f l1 st0).
  destruct (@recordParameters_same_at d values l1 p N1 st0) as (A1 & A2 & A3).
  fold f in A1, A2, A3. fold st1 in A1, A2, A3.
  assert (U1 : isUndefined (Obj.prop (consolidatedData st1) p) = true)
    by (rewrite A1, S1; reflexivity).
  destruct (@CollectFacts.recordParameter_first d values st1 p NE U1)
    as (B1 & B2 & B3).
  fold f in B1, B2, B3.
  set (st2 := f st1 p) in *.
  rewrite fold_left_app. cbn [fold_left].
  set (st3 := fold_left f l2 st2).
  destruct (@recordParameters_same_at d values l2 p N2 st2) as (C1 & C2 & C3).
  fold f in C1, C2, C3. fold st3 in C1, C2, C3.
  assert (D1 : Obj.prop (consolidatedData st3) p = Obj.prop values p)
    by (rewrite C1, B1; apply ObjFacts.prop_set_same).
  assert (D2 : Obj.prop (dataSources st3) p = VStr d)
    by (rewrite C2, B2; apply ObjFacts.prop_set_same).
  assert (D3 : Obj.get (conflictsSoFar st3) p = None)
    by (rewrite C3, B3, A3, S3; reflexivity).
  assert (U3 : isUndefined (Obj.prop (consolidatedData st3) p) = false)
    by (rewrite D1; apply CollectFacts.nonEmpty_defined; exact NE).
  destruct (@CollectFacts.recordParameter_again d values st3 p NE U3)
    as (_ & _ & F3 & _).
  fold f in F3. rewrite D3, D1, D2 in F3. cbn [app] in F3.
  set (st4 := f st3 p) in *.
  destruct (@recordParameters_extends d values l3 p st4) as (_ & X1).
  fold f in X1.
  destruct (X1 _ F3) as (m1 & M1).
  destruct (@CollectFacts.run_extends creditId post (fold_left f l3 st4) p)
    as (_ & X2).
  destruct (X2 _ M1) as (m2 & M2).
  exists (m1 ++ m2). split; [exact E|].
  rewrite M2. cbn [app]. reflexivity.
Qed.

End ConsolidatorFrame.

Section ConsolidatorFrameRuns.
Import LEEDDataConsolidator Consolidation.

Lemma priority_picks_a_maximal_candidate_witness :
  exists r c,
    resolveBypriority gwp_candidates Obj.empty = Return r
    /\ In c gwp_candidates
    /\ pr_value r = val c
    /\ pr_source r = document c
    /\ pr_source r = VStr "manufacturer_datasheet"
    /\ PrimFloat.ltb (pr_priority r) 1%float = false.
Proof.
  eexists.
  match goal with
  | |- exists c, _ = Return ?r /\ _ =>
      destruct (@priority_picks_a_maximal_candidate gwp_candidates Obj.empty
                  r ltac:(vm_compute; reflexivity))
        as (c & I & V & S & _ & Max)
  end.
  exists c. split; [vm_compute; reflexivity|].
  split; [exact I|]. split; [exact V|]. split; [exact S|].
  split; [reflexivity|].
  apply (Max {| document := VStr "commissioning_report";
                val := VNum 700%float |}).
  - right. left. reflexivity.
  - reflexivity.
Defined.

Lemma unknown_strategy_keeps_first_values_witness :
  exists out,
    consolidateData gwp_documents "EACr6" newestOptions = Return out
    /\ Obj.prop (data out) "GWP" = VNum 675%float
    /\ Obj.prop (sources out) "GWP" = VStr "manufacturer_datasheet"
    /\ (forall e,
          In e (resolutionLog out) -> method e = Some "first-occurrence")
    /\ conflictsResolved (processingInfo out) = 1.
Proof.
  destruct (@unknown_strategy_keeps_first_values gwp_documents "EACr6"
              newestOptions) as (out & E & Same & Log & Count);
    try discriminate.
  exists out. split; [exact E|].
  destruct (Same "GWP") as (Sd & Ss).
  split; [rewrite Sd; reflexivity|].
  split; [rewrite Ss; reflexivity|].
  split; [exact Log|].
  rewrite Count.
  pose proof E as E'. vm_compute in E'. injection E' as E'.
  rewrite <- E'. reflexivity.
Defined.

Lemma repeated_parameter_conflicts_with_itself_witness :
  exists out more,
    consolidateData repeated_gwp_document "EACr6" defaultOptions = Return out
    /\ Obj.get (conflicts out) "GWP"
       = Some ({| document := VStr "equipment_schedule";
                  val := VNum 675%float |}
               :: {| document := VStr "equipment_schedule";
                     val := VNum 675%float |}
               :: more).
Proof.
  apply (@repeated_parameter_conflicts_with_itself "EACr6" defaultOptions
           [] "equipment_schedule" _ []
           {| Parameters := Some ["GWP"; "ODP"; "GWP"];
              Values := Some [("GWP", VNum 675%float);
                              ("ODP", VNum 0%float)] |}
           [] ["ODP"] [] [("GWP", VNum 675%float); ("ODP", VNum 0%float)]
           "GWP").
  - constructor.
  - reflexivity.
  - reflexivity.
  - intros [].
  - intros [H | []]. discriminate H.
  - reflexivity.
  - reflexivity.
Defined.

End ConsolidatorFrameRuns.

(* ================================================================== *)
(** ** Assessment of consolidated data and recommendations *)
(* ================================================================== *)

Section Recommendations.
Context {host : Host}.
Import LEEDDataConsolidator Reports.

(** What the engine of the file hands back is awarded exactly when it
    is free of gaps and issues. *)
Lemma assessCredit_clean_iff (creditId : string) (data : Obj.t value)
    (units : string) (a : Assessment) :
  LEEDRuleEngine.assessCredit LEEDRuleEngine.new creditId data units
  = Return a ->
  (Assessed.awarded a = true <->
   Assessed.gaps a = [] /\ Assessed.nonCompliant a = []).
Proof.
  unfold LEEDRuleEngine.assessCredit, LEEDRuleEngine.new.
  cbn [LEEDRuleEngine.credits LEEDRuleEngine.calculationModule Obj.get].
  destruct (String.eqb "EACr6" creditId).
  - destruct (EACr6RuleSet.assess data units CalculationModule.new)
      as [r|e] eqn:E; [|discriminate].
    intros H. injection H as <-. cbn. split.
    + exact (EACr6Facts.assess_awarded_clean _ _ _ E).
    + intros (G & N). exact (eacr6_clean_awarded _ _ _ E G N).
  - destruct (String.eqb "IEQCr5" creditId); [|discriminate].
    intros H. injection H as <-. cbn. split.
    + apply ieqCr5_awarded_clean.
    + intros (G & N).
      exact (ieqcr5_clean_awarded data units CalculationModule.new G N).
Qed.

Lemma recommendations_of (a : Assessment) (c : Consolidated) :
  (Assessed.awarded a = true <->
   Assessed.gaps a = [] /\ Assessed.nonCompliant a = []) ->
  let kinds := map type (generateRecommendations a c) in
  (In "success" kinds <-> Assessed.awarded a = true)
  /\ (Assessed.awarded a = true ->
      kinds = (if Nat.ltb 0 (length (Obj.keys (conflicts c)))
               then ["data_conflicts"] else [])
              ++ ["success"])
  /\ (Assessed.awarded a = false ->
      In "missing_data" kinds \/ In "non_compliance" kinds)
  /\ kinds <> [].
Proof.
  intros I. cbv zeta. unfold generateRecommendations. cbv zeta.
  destruct (Assessed.gaps a) as [|g gs];
  destruct (Assessed.nonCompliant a) as [|n ns];
  destruct (Obj.keys (conflicts c)) as [|k ks];
  destruct (Assessed.awarded a);
  cbn; repeat split; intros; try discriminate; try reflexivity; auto;
  try (destruct I as (I1 & I2);
       first [ destruct (I1 eq_refl); discriminate
             | specialize (I2 (conj eq_refl eq_refl)); discriminate ]);
  repeat match goal with
  | H : _ \/ _ |- _ => destruct H
  | H : False |- _ => destruct H
  | H : _ = _ |- _ => discriminate H
  end; auto.
Qed.

(** X17. When [processAndAssess] returns with the engine of the file,
    its recommendations contain [success] exactly when the credit is
    awarded; an awarded credit has no [missing_data] and no
    [non_compliance] recommendation, only [success] after a possible
    [data_conflicts]; a credit that is not awarded has at least one of
    the two; so the list is never empty. *)
Theorem recommendations_follow_the_award
    (multiDocData : MultiDocData) (creditId : string)
    (options : ProcessOptions) (out : Processed) :
  processAndAssess multiDocData creditId LEEDRuleEngine.new options
  = Return out ->
  let kinds := map type (recommendations out) in
  (In "success" kinds <-> Assessed.awarded (assessment out) = true)
  /\ (Assessed.awarded (assessment out) = true ->
      kinds = (if Nat.ltb 0 (s_conflictsDetected (summary out))
               then ["data_conflicts"] else [])
              ++ ["success"])
  /\ (Assessed.awarded (assessment out) = false ->
      In "missing_data" kinds \/ In "non_compliance" kinds)
  /\ kinds <> [].
Proof.
  unfold processAndAssess.
  destruct (ResolveFacts.consolidateData_returns multiDocData creditId
              (consolidation options)) as (c & r & E & _ & _ & _ & _ & C).
  rewrite E.
  destruct (LEEDRuleEngine.assessCredit LEEDRuleEngine.new creditId
              (data c) (units options)) as [a|e] eqn:A; [|discriminate].
  intros H. injection H as <-.
  cbn [recommendations assessment summary s_conflictsDetected].
  pose proof (assessCredit_clean_iff _ _ _ A) as I.
  assert (D : conflictsDetected (processingInfo c)
              = length (Obj.keys (conflicts c))).
  { unfold consolidateData in E. cbv zeta in E.
    destruct (resolveConflicts _ _ _ _ _ _); [|discriminate E].
    injection E as <-. reflexivity. }
  rewrite D. exact (@recommendations_of a c I).
Qed.


End Recommendations.

Section StructureValidation.
Import LEEDDataConsolidator Reports.

Lemma checkCredits_frame docName docData expectedCredits :
  forall v,
    let v' := fold_left (checkCredit docName docData) expectedCredits v in
    v_valid v' = v_valid v /\ v_errors v' = v_errors v
    /\ v_documentCount v' = v_documentCount v.
Proof.
  induction expectedCredits as [|c cs IH]; intros v; cbn [fold_left].
  - auto.
  - destruct (IH (checkCredit docName docData v c)) as (A & B & C).
    cbv zeta. rewrite A, B, C. unfold checkCredit.
    destruct (Obj.get docData c); auto.
Qed.

Lemma checkDocuments_spec expectedCredits docs :
  forall v,
    let v' := fold_left (checkDocument expectedCredits) docs v in
    v_valid v' = v_valid v && forallb isObject docs
    /\ v_errors v' =
         v_errors v
         ++ map (fun entry =>
                   ("Document " ++ fst entry ++ ": Invalid structure")%string)
              (filter (fun entry => negb (isObject entry)) docs)
    /\ v_documentCount v' = v_documentCount v.
Proof.
  induction docs as [|[d dd] docs IH]; intros v; cbn [fold_left].
  - cbn. rewrite andb_true_r, app_nil_r. auto.
  - destruct (IH (checkDocument expectedCredits v (d, dd))) as (A & B & C).
    cbv zeta. rewrite A, B, C. unfold checkDocument.
    destruct dd as [dd|]; cbn.
    + destruct (checkCredits_frame d dd expectedCredits v) as (F1 & F2 & F3).
      cbv zeta in F1, F2, F3. rewrite F1, F2, F3. auto.
    + rewrite andb_false_r, <- app_assoc. auto.
Qed.

(** X19. [validateDataStructure] reports the structure valid exactly
    when its error list is empty; for an input that is an object, that is
    exactly when every document is an object, the errors being one
    message for each document that is not, in document order, and the
    document count being the number of documents.  Warnings never make
    the structure invalid. *)
Theorem validateDataStructure_valid_iff
    (multiDocData : option (Obj.t (option DocData)))
    (expectedCredits : list string) :
  let r := validateDataStructure multiDocData expectedCredits in
  (v_valid r = true <-> v_errors r = [])
  /\ (multiDocData = None ->
      v_valid r = false /\ v_documentCount r = 0 /\ v_warnings r = [])
  /\ (forall docs,
        multiDocData = Some docs ->
        v_valid r = forallb isObject docs
        /\ v_errors r =
             map (fun entry =>
                    ("Document " ++ fst entry ++ ": Invalid structure")%string)
               (filter (fun entry => negb (isObject entry)) docs)
        /\ v_documentCount r = length docs).
Proof.
  cbv zeta. unfold validateDataStructure. cbv zeta.
  destruct multiDocData as [docs|]; cbn [v_valid v_errors v_warnings
                                          v_documentCount app].
  - match goal with
    | |- context [fold_left _ docs ?v0] =>
        destruct (checkDocuments_spec expectedCredits docs v0) as (A & B & C)
    end.
    cbv zeta in A, B, C. cbn [v_valid v_errors v_documentCount app andb] in A, B, C.
    rewrite A, B, C.
    split; [|split; [discriminate|]].
    + clear. induction docs as [|[d [dd|]] docs IH]; cbn.
      * tauto.
      * exact IH.
      * split; discriminate.
    + intros docs' H. injection H as <-.
      unfold Obj.keys. rewrite length_map. auto.
  - split; [split; discriminate|].
    split; [auto | discriminate].
Qed.

End StructureValidation.

Section RecommendationRuns.
Existing Instance decimalHost.
Import LEEDDataConsolidator Reports.

Lemma recommendations_follow_the_award_witness :
  exists out,
    processAndAssess gwp_documents "EACr6" LEEDRuleEngine.new
      defaultProcessOptions = Return out
    /\ Assessed.awarded (assessment out) = false
    /\ (In "missing_data" (map type (recommendations out))
        \/ In "non_compliance" (map type (recommendations out)))
    /\ ~ In "success" (map type (recommendations out)).
Proof.
  eexists. split; [vm_compute; reflexivity|].
  match goal with
  | |- Assessed.awarded (assessment ?o) = _ /\ _ =>
      destruct (@recommendations_follow_the_award _ gwp_documents "EACr6"
                  defaultProcessOptions o ltac:(vm_compute; reflexivity))
        as (S & _ & M & _)
  end.
  split; [reflexivity|].
  split; [apply M; reflexivity|].
  intros I. apply S in I. discriminate I.
Defined.


End RecommendationRuns.

(* ================================================================== *)
(** ** RuleEngine: every credit *)
(* ================================================================== *)

Module CreditFacts.
Import RuleEngine RuleEngineCredits Evaluated.

Section Facts.
Context {host : Host}.
Variable parseInt : value -> float.

Lemma evaluateEACr6_agrees data unitSystem (r0 : Result) :
  awardedPoints r0 = 0 -> 1 <= maxPoints r0 ->
  let r := evaluateEACr6 data unitSystem r0 in
  awardedPoints r <= maxPoints r
  /\ (status r = "compliant" <-> 0 < awardedPoints r)
  /\ In (status r) ["compliant"; "non_compliant"; "gaps"; "error"]
  /\ creditId r = creditId r0 /\ maxPoints r = maxPoints r0
  /\ status r <> "error".
Proof.
  intros P M. cbv zeta. unfold evaluateEACr6. cbv zeta.
  destruct (compliant (checkEACr6Option1 data));
    [|destruct (compliant (checkEACr6Option2 data unitSystem))];
    cbn; rewrite ?P; repeat split; intros; try congruence; try lia; auto 6.
Qed.

Lemma evaluateIEQCr5_settled data (r0 : Evaluation) :
  fresh r0 -> 1 <= maxPoints (result r0) ->
  let r := evaluateIEQCr5 parseInt data r0 in
  agrees r /\ clean r
  /\ creditId (result r) = creditId (result r0)
  /\ maxPoints (result r) = maxPoints (result r0)
  /\ error r = error r0
  /\ status (result r) <> "error".
Proof.
  intros (P & G & N) M. cbv zeta. unfold evaluateIEQCr5. cbv zeta.
  destruct (pc_compliant (checkIEQCr5Part1 data)
            && pc_compliant (checkIEQCr5Part2 parseInt data));
    unfold agrees, clean; cbn; rewrite ?P;
    repeat split; intros; try congruence; try lia; auto 6.
Qed.

Lemma evaluateWECr1_settled data (r0 : Evaluation) :
  fresh r0 -> 2 <= maxPoints (result r0) ->
  let r := evaluateWECr1 data r0 in
  agrees r /\ clean r
  /\ creditId (result r) = creditId (result r0)
  /\ maxPoints (result r) = maxPoints (result r0)
  /\ error r = error r0
  /\ status (result r) <> "error".
Proof.
  intros (P & G & N) M. cbv zeta. unfold evaluateWECr1. cbv zeta.
  destruct (falsyNumber _ || falsyNumber _);
    [|destruct (PrimFloat.leb 50%float _);
      [|destruct (PrimFloat.leb 30%float _)]];
    unfold agrees, clean; cbn; rewrite ?P;
    repeat split; intros; try congruence; try lia; auto 6.
Qed.

(** The loop of [evaluateEACr1] over a threshold table. *)
Lemma thresholds_bound (improvement : float) (table : Obj.t nat) (n : nat) :
  Forall (fun entry => snd entry <= n) table ->
  fold_left
    (fun points entry =>
       if PrimFloat.leb (parseFloat (VStr (dropPercent (fst entry))))
            improvement
       then snd entry else points)
    table 0 <= n.
Proof.
  intros F.
  apply (@CollectFacts.fold_left_invariant _ _ _ (fun p => p <= n)).
  - intros a b I A. rewrite Forall_forall in F.
    destruct (PrimFloat.leb _ _); [apply F; exact I | exact A].
  - lia.
Qed.

Lemma thresholdsFor_bound (buildingType : value) (table : Obj.t nat) :
  thresholdsFor buildingType = Some table ->
  Forall (fun entry => snd entry <= 18) table.
Proof.
  unfold thresholdsFor. destruct buildingType as [| |s|x]; try discriminate.
  unfold thresholds. cbn [Obj.get].
  destruct (String.eqb "new_buildings" s);
    [|destruct (String.eqb "existing_buildings" s); [|discriminate]];
    intros H; injection H as <-;
    repeat constructor; cbn; lia.
Qed.

Lemma evaluateEACr1_settled data (r0 : Evaluation) :
  fresh r0 -> maxPoints (result r0) = 18 ->
  match evaluateEACr1 data r0 with
  | Done r =>
      agrees r /\ clean r
      /\ creditId (result r) = creditId (result r0)
      /\ maxPoints (result r) = maxPoints (result r0)
      /\ error r = error r0
      /\ status (result r) <> "error"
  | Raised r e =>
      awardedPoints (result r) = 0
      /\ creditId (result r) = creditId (result r0)
      /\ maxPoints (result r) = maxPoints (result r0)
      /\ gaps (result r) = [] /\ nonCompliant (result r) = []
  end.
Proof.
  intros (P & G & N) M. unfold evaluateEACr1. cbv zeta.
  destruct (falsyNumber _ || falsyNumber _).
  - unfold agrees, clean; cbn; rewrite ?P;
      repeat split; intros; try congruence; try lia; auto 6.
  - destruct (thresholdsFor _) as [table|] eqn:T.
    + pose proof (thresholds_bound
                    (((parseFloat (Obj.prop data "Baseline Energy Use")
                       - parseFloat (Obj.prop data "Design Energy Use"))
                      / parseFloat (Obj.prop data "Baseline Energy Use"))
                     * 100)%float
                    (thresholdsFor_bound _ T)) as B.
      set (points := fold_left _ table 0) in *. clearbody points.
      destruct (Nat.ltb 0 points) eqn:L;
        [apply Nat.ltb_lt in L | apply Nat.ltb_ge in L];
        unfold agrees, clean; cbn; rewrite ?M;
        repeat split; intros; try congruence; try lia; auto 6.
    + cbn. auto.
Qed.

Lemma missingDocs_nil data (ps : list string) :
  forall acc,
    fold_left
      (fun gaps param =>
         if negb (truthy (Obj.prop data param)) then gaps ++ [param]
         else gaps) ps acc
    = acc ++ filter (fun param => negb (truthy (Obj.prop data param))) ps.
Proof.
  induction ps as [|p ps IH]; intros acc; cbn [fold_left filter].
  - symmetry. apply app_nil_r.
  - rewrite IH. destruct (negb (truthy (Obj.prop data p))).
    + rewrite <- app_assoc. reflexivity.
    + reflexivity.
Qed.

Lemma evaluateSSCr1_settled data (r0 : Evaluation) :
  fresh r0 -> 1 <= maxPoints (result r0) ->
  let r := evaluateSSCr1 data r0 in
  agrees r /\ clean r
  /\ creditId (result r) = creditId (result r0)
  /\ maxPoints (result r) = maxPoints (result r0)
  /\ error r = error r0
  /\ status (result r) <> "error".
Proof.
  intros (P & G & N) M. cbv zeta. unfold evaluateSSCr1. cbv zeta.
  destruct (Nat.eqb _ 0);
    unfold agrees, clean; cbn [result setOutcome setGaps setStatus
      awardedPoints maxPoints status gaps nonCompliant creditId error In];
    rewrite ?P;
    repeat split; intros; try congruence; try lia; auto 6.
Qed.

Lemma evaluateMRCr1_settled data (r0 : Evaluation) :
  fresh r0 -> maxPoints (result r0) = 5 ->
  let r := evaluateMRCr1 data r0 in
  agrees r /\ clean r
  /\ creditId (result r) = creditId (result r0)
  /\ maxPoints (result r) = maxPoints (result r0)
  /\ error r = error r0
  /\ status (result r) <> "error"
  /\ awardedPoints (result r) <= 3.
Proof.
  intros (P & G & N) M. cbv zeta. unfold evaluateMRCr1. cbv zeta.
  destruct (PrimFloat.leb 50%float
              (parseFloat (Obj.prop data "Building Reuse Percentage")));
  destruct (PrimFloat.leb 50%float
              (parseFloat (Obj.prop data "Structural Elements Reuse")));
  destruct (PrimFloat.leb 50%float
              (parseFloat (Obj.prop data "Enclosure Materials Reuse")));
  destruct (PrimFloat.leb 10%float
              (parseFloat (Obj.prop data "Life Cycle Assessment Improvement")));
    unfold agrees, clean; cbn; rewrite ?M;
    repeat split; intros; try congruence; try lia; auto 6.
Qed.

Lemma evaluateIEQCr1_settled data (r0 : Evaluation) :
  fresh r0 -> 2 <= maxPoints (result r0) ->
  let r := evaluateIEQCr1 data r0 in
  agrees r /\ clean r
  /\ creditId (result r) = creditId (result r0)
  /\ maxPoints (result r) = maxPoints (result r0)
  /\ error r = error r0
  /\ status (result r) <> "error".
Proof.
  intros (P & G & N) M. cbv zeta. unfold evaluateIEQCr1. cbv zeta.
  destruct (truthy (Obj.prop data "Outdoor Air Delivery Monitoring"));
  destruct (strictEq (Obj.prop data "Increased Ventilation") _);
  destruct (strictEq (Obj.prop data "Air Filtration") _);
    unfold agrees, clean; cbn;
    repeat split; intros; try congruence; try lia; auto 6.
Qed.

(** [evaluateCredit] on EACr1, the one credit whose evaluator can
    throw. *)
Lemma evaluateCredit_EACr1 data unitSystem :
  evaluateCredit parseInt "EACr1" data unitSystem =
  match
    evaluateEACr1 data
      {| result :=
           {| creditId := "EACr1";
              creditName := "Energy Performance - Optimize Energy Performance";
              maxPoints := 18; awardedPoints := 0; status := "pending";
              gaps := []; nonCompliant := []; calculations := None;
              details := [] |};
         numbers := Obj.empty; error := None |}
  with
  | Done r => Return r
  | Raised r e =>
      Return {| result := result (setStatus r "error");
                numbers := numbers r; error := Some (message e) |}
  end.
Proof. reflexivity. Qed.

(** What [evaluateCredit] does on each of the seven credits. *)
Lemma evaluateCredit_known creditId data unitSystem :
  In creditId (Obj.keys RULE_DEFINITIONS) ->
  exists r,
    evaluateCredit parseInt creditId data unitSystem = Return r
    /\ agrees r
    /\ (creditId <> "EACr6" -> clean r)
    /\ RuleEngine.creditId (result r) = creditId
    /\ (exists name,
          Obj.get RULE_DEFINITIONS creditId
          = Some (name, maxPoints (result r)))
    /\ (status (result r) = "error" <-> error r <> None)
    /\ (status (result r) = "error" -> creditId = "EACr1")
    /\ (creditId = "MRCr1" -> awardedPoints (result r) <= 3).
Proof.
  assert (F : forall id name maxP,
            fresh {| result :=
                       {| creditId := id; creditName := name;
                          maxPoints := maxP; awardedPoints := 0;
                          status := "pending"; gaps := []; nonCompliant := [];
                          calculations := None; details := [] |};
                     numbers := Obj.empty; error := None |})
    by (intros; repeat split).
  intros I. cbn in I.
  destruct I as [<- | [<- | [<- | [<- | [<- | [<- | [<- | []]]]]]]].
  - eexists. split; [reflexivity|]. cbn [result numbers error].
    match goal with
    | |- context [evaluateEACr6 data unitSystem ?r0] =>
        destruct (@evaluateEACr6_agrees data unitSystem r0 eq_refl (le_n 1))
          as (A1 & A2 & A3 & A4 & A5 & A6)
    end.
    cbv zeta in A1, A2, A3, A4, A5, A6.
    split; [repeat split; try assumption; apply A2|].
    split; [intros N; exfalso; apply N; reflexivity|].
    split; [exact A4|].
    split; [exists "Enhanced Refrigerant Management"; rewrite A5; reflexivity|].
    split; [split; [intros E; contradiction | intros E; congruence]|].
    split; [intros E; contradiction | discriminate].
  - destruct (@evaluateIEQCr5_settled data _
                (F "IEQCr5" "Indoor Environmental Quality" 1) (le_n 1))
      as (A & C & I & M & E & S).
    cbv zeta in A, C, I, M, E, S.
    eexists. split; [reflexivity|].
    split; [exact A|]. split; [intros _; exact C|]. split; [exact I|].
    split; [exists "Indoor Environmental Quality"; rewrite M; reflexivity|].
    split; [rewrite E; split; [intros X; contradiction
                              | intros X; exfalso; apply X; reflexivity]|].
    split; [intros X; contradiction | discriminate].
  - destruct (@evaluateWECr1_settled data _
                (F "WECr1" "Water Efficiency - Outdoor Water Use Reduction" 2)
                (le_n 2))
      as (A & C & I & M & E & S).
    cbv zeta in A, C, I, M, E, S.
    eexists. split; [reflexivity|].
    split; [exact A|]. split; [intros _; exact C|]. split; [exact I|].
    split; [eexists; rewrite M; reflexivity|].
    split; [rewrite E; split; [intros X; contradiction
                              | intros X; exfalso; apply X; reflexivity]|].
    split; [intros X; contradiction | discriminate].
  - rewrite evaluateCredit_EACr1.
    pose proof (@evaluateEACr1_settled data _
                  (F "EACr1" "Energy Performance - Optimize Energy Performance"
                     18) eq_refl) as S.
    destruct (evaluateEACr1 data _) as [r|r e].
    + destruct S as (A & C & I & M & E & S).
      exists r.
      split; [reflexivity|].
      split; [exact A|]. split; [intros _; exact C|]. split; [exact I|].
      split; [eexists; rewrite M; reflexivity|].
      split; [rewrite E; split; [intros X; contradiction
                                | intros X; exfalso; apply X; reflexivity]|].
      split; [intros X; contradiction | discriminate].
    + destruct S as (P & I & M & G & N).
      eexists. split; [reflexivity|].
      unfold agrees, clean. cbn.
      rewrite P, M. cbn in I. rewrite I.
      repeat split; intros; try congruence; try lia; auto 6.
      eexists. reflexivity.
  - destruct (@evaluateSSCr1_settled data _
                (F "SSCr1" "Sustainable Sites - Site Assessment" 1) (le_n 1))
      as (A & C & I & M & E & S).
    cbv zeta in A, C, I, M, E, S.
    eexists. split; [reflexivity|].
    split; [exact A|]. split; [intros _; exact C|]. split; [exact I|].
    split; [eexists; rewrite M; reflexivity|].
    split; [rewrite E; split; [intros X; contradiction
                              | intros X; exfalso; apply X; reflexivity]|].
    split; [intros X; contradiction | discriminate].
  - destruct (@evaluateMRCr1_settled data _
                (F "MRCr1"
                   "Materials and Resources - Building Life-Cycle Impact Reduction"
                   5) eq_refl)
      as (A & C & I & M & E & S & T).
    cbv zeta in A, C, I, M, E, S, T.
    eexists. split; [reflexivity|].
    split; [exact A|]. split; [intros _; exact C|]. split; [exact I|].
    split; [eexists; rewrite M; reflexivity|].
    split; [rewrite E; split; [intros X; contradiction
                              | intros X; exfalso; apply X; reflexivity]|].
    split; [intros X; contradiction | intros _; exact T].
  - destruct (@evaluateIEQCr1_settled data _
                (F "IEQCr1"
                   "Indoor Environmental Quality - Enhanced Indoor Air Quality Strategies"
                   2) (le_n 2))
      as (A & C & I & M & E & S).
    cbv zeta in A, C, I, M, E, S.
    eexists. split; [reflexivity|].
    split; [exact A|]. split; [intros _; exact C|]. split; [exact I|].
    split; [eexists; rewrite M; reflexivity|].
    split; [rewrite E; split; [intros X; contradiction
                              | intros X; exfalso; apply X; reflexivity]|].
    split; [intros X; contradiction | discriminate].
Qed.

End Facts.
End CreditFacts.

Section Credits.
Context {host : Host}.
Variable parseInt : value -> float.
Import RuleEngine RuleEngineCredits.

(** X20. [evaluateCredit] throws exactly for a credit that has no rule
    definition, with the error naming the credit; for each of the seven
    defined credits it returns a result for that credit, the branch
    [Evaluation not implemented] is never taken, and status [error],
    always with an error message, can only come from EACr1.  (A credit
    id is not a name every object inherits, such as [toString]: the
    lookup [this.rules[creditId]] would find those.) *)
Theorem evaluateCredit_outcomes (creditId : string) (data : Obj.t value)
    (unitSystem : string) :
  (~ In creditId (Obj.keys RULE_DEFINITIONS) ->
   evaluateCredit parseInt creditId data unitSystem
   = Throw (Error ("Rule not found for credit: " ++ creditId)%string))
  /\ (In creditId (Obj.keys RULE_DEFINITIONS) ->
      exists r,
        evaluateCredit parseInt creditId data unitSystem = Return r
        /\ RuleEngine.creditId (result r) = creditId
        /\ (exists name,
              Obj.get RULE_DEFINITIONS creditId
              = Some (name, maxPoints (result r)))
        /\ (status (result r) = "error" <-> error r <> None)
        /\ (status (result r) = "error" -> creditId = "EACr1")).
Proof.
  split.
  - intros N. apply ObjFacts.get_none_keys in N.
    unfold evaluateCredit. rewrite N. reflexivity.
  - intros I.
    destruct (CreditFacts.evaluateCredit_known parseInt data unitSystem I)
      as (r & E & _ & _ & C & M & S & O & _).
    exists r. auto.
Qed.

Lemma evaluateCredit_returned (creditId : string) (data : Obj.t value)
    (unitSystem : string) (r : Evaluation) :
  evaluateCredit parseInt creditId data unitSystem = Return r ->
  In creditId (Obj.keys RULE_DEFINITIONS).
Proof.
  intros E.
  destruct (in_dec string_dec creditId (Obj.keys RULE_DEFINITIONS))
    as [I|N]; [exact I|].
  apply ObjFacts.get_none_keys in N.
  unfold evaluateCredit in E. rewrite N in E. discriminate E.
Qed.

(** X21. In every result [evaluateCredit] returns, the awarded points
    are within the credit's maximum, the status is [compliant] exactly
    when points were awarded, and the status is one of [compliant],
    [non_compliant], [gaps] and [error], never [pending]. *)
Theorem points_and_status_agree (creditId : string) (data : Obj.t value)
    (unitSystem : string) (r : Evaluation) :
  evaluateCredit parseInt creditId data unitSystem = Return r ->
  awardedPoints (result r) <= maxPoints (result r)
  /\ (status (result r) = "compliant" <-> 0 < awardedPoints (result r))
  /\ In (status (result r)) ["compliant"; "non_compliant"; "gaps"; "error"].
Proof.
  intros E.
  destruct (CreditFacts.evaluateCredit_known parseInt data unitSystem
              (evaluateCredit_returned _ _ _ E))
    as (r' & E' & A & _).
  rewrite E in E'. injection E' as <-. exact A.
Qed.

(** X22. For every credit but EACr6, a result with status [compliant]
    lists no gap and no non-compliance issue. *)
Theorem compliant_is_clean_but_for_eacr6 (creditId : string)
    (data : Obj.t value) (unitSystem : string) (r : Evaluation) :
  evaluateCredit parseInt creditId data unitSystem = Return r ->
  creditId <> "EACr6" ->
  status (result r) = "compliant" ->
  gaps (result r) = [] /\ nonCompliant (result r) = [].
Proof.
  intros E N S.
  destruct (CreditFacts.evaluateCredit_known parseInt data unitSystem
              (evaluateCredit_returned _ _ _ E))
    as (r' & E' & _ & C & _).
  rewrite E in E'. injection E' as <-. exact (C N S).
Qed.

(** X23. MRCr1 is defined with a maximum of 5 points, and
    [evaluateCredit] never awards it more than 3. *)
Theorem mrcr1_never_reaches_its_maximum (data : Obj.t value)
    (unitSystem : string) :
  exists r,
    evaluateCredit parseInt "MRCr1" data unitSystem = Return r
    /\ maxPoints (result r) = 5
    /\ awardedPoints (result r) <= 3.
Proof.
  destruct (@CreditFacts.evaluateCredit_known _ parseInt "MRCr1" data unitSystem)
    as (r & E & _ & _ & _ & (name & M) & _ & _ & T).
  - cbn. auto 7.
  - exists r. split; [exact E|]. split; [|exact (T eq_refl)].
    cbn in M. injection M as _ M. symmetry. exact M.
Qed.

(** The documentation loop of [checkIEQCr5Part1] cannot restore
    compliance. *)
Lemma requiredDocs_keep_false (data : Obj.t value) (ps : list string) :
  forall gaps,
    snd (fold_left
           (fun '(gaps, compliant) param =>
              if negb (truthy (Obj.prop data param))
              then (gaps ++ [param], false)
              else (gaps, compliant))
           ps (gaps, false)) = false.
Proof.
  induction ps as [|p ps IH]; intros gaps; cbn [fold_left].
  - reflexivity.
  - destruct (negb (truthy (Obj.prop data p))); apply IH.
Qed.

(** X24. A PMV of zero, thermal neutrality, fails the thermal comfort
    check of [RuleEngine], which reads zero as no value, while
    [IEQCr5RuleSet] finds the same PMV in range; likewise a PPD of zero
    fails in [RuleEngine] and passes in [IEQCr5RuleSet]. *)
Theorem neutral_comfort_is_rejected (data : Obj.t value) :
  (PrimFloat.eqb (parseFloat (Obj.prop data "PMV")) 0%float = true ->
   pc_compliant (checkIEQCr5Part1 data) = false
   /\ In "PMV must be between -0.5 and 0.5"
         (pc_nonCompliant (checkIEQCr5Part1 data))
   /\ (isUndefined (Obj.prop data "PMV") = false ->
       isNull (Obj.prop data "PMV") = false ->
       IEQCr5RuleSet.pmvInRange
         (IEQCr5RuleSet.p1_requirements (IEQCr5RuleSet.assessPart1 data))
       = true))
  /\ (PrimFloat.eqb (parseFloat (Obj.prop data "PPD")) 0%float = true ->
      pc_compliant (checkIEQCr5Part1 data) = false
      /\ In "PPD must be less than 10%"
            (pc_nonCompliant (checkIEQCr5Part1 data))
      /\ (isUndefined (Obj.prop data "PPD") = false ->
          isNull (Obj.prop data "PPD") = false ->
          IEQCr5RuleSet.ppdCompliant
            (IEQCr5RuleSet.p1_requirements (IEQCr5RuleSet.assessPart1 data))
          = true)).
Proof.
  split; intros Z.
  - split; [|split].
    + unfold checkIEQCr5Part1. cbv zeta. unfold falsyNumber at 1.
      rewrite Z. cbn [orb].
      destruct (negb (truthy (Obj.prop data "Compliance Path")));
      destruct (falsyNumber _ || PrimFloat.leb 10%float _);
      match goal with
      | |- context [fold_left ?f ?ps (?g, false)] =>
          pose proof (requiredDocs_keep_false data ps g) as K;
          destruct (fold_left f ps (g, false)) as [g' c']
      end; cbn in K |- *; exact K.
    + unfold checkIEQCr5Part1. cbv zeta. unfold falsyNumber at 1.
      rewrite Z. cbn [orb].
      destruct (negb (truthy (Obj.prop data "Compliance Path")));
      destruct (falsyNumber _ || PrimFloat.leb 10%float _);
      match goal with
      | |- context [fold_left ?f ?ps (?g, false)] =>
          destruct (fold_left f ps (g, false)) as [g' c']
      end; cbn; auto.
    + intros U N.
      destruct (FloatFacts.zero_compares (-0.5)%float Z) as (_ & L1 & _).
      destruct (FloatFacts.zero_compares 0.5%float Z) as (L2 & _).
      unfold IEQCr5RuleSet.assessPart1. cbv zeta.
      rewrite U, N, L1, L2. cbn [orb].
      change (PrimFloat.leb (-0.5)%float 0%float) with true.
      change (PrimFloat.leb 0%float 0.5%float) with true.
      cbn [andb].
      set (m := filter _ IEQCr5RuleSet.environmentalParams).
      destruct (negb (truthy (Obj.prop data "Compliance Path")));
      destruct (isUndefined (Obj.prop data "PPD")
                || isNull (Obj.prop data "PPD"));
      try destruct (PrimFloat.ltb (parseFloat (Obj.prop data "PPD")) 10%float);
      destruct m as [|x m]; reflexivity.
  - split; [|split].
    + unfold checkIEQCr5Part1. cbv zeta. unfold falsyNumber at 2.
      rewrite Z. cbn [orb].
      destruct (negb (truthy (Obj.prop data "Compliance Path")));
      destruct (falsyNumber _ || _ || _);
      match goal with
      | |- context [fold_left ?f ?ps (?g, false)] =>
          pose proof (requiredDocs_keep_false data ps g) as K;
          destruct (fold_left f ps (g, false)) as [g' c']
      end; cbn in K |- *; exact K.
    + unfold checkIEQCr5Part1. cbv zeta. unfold falsyNumber at 2.
      rewrite Z. cbn [orb].
      destruct (negb (truthy (Obj.prop data "Compliance Path")));
      destruct (falsyNumber _ || _ || _);
      match goal with
      | |- context [fold_left ?f ?ps (?g, false)] =>
          destruct (fold_left f ps (g, false)) as [g' c']
      end; cbn; auto.
    + intros U N.
      destruct (FloatFacts.zero_compares 10%float Z) as (_ & _ & L1 & _).
      unfold IEQCr5RuleSet.assessPart1. cbv zeta.
      rewrite U, N, L1. cbn [orb].
      change (PrimFloat.ltb 0%float 10%float) with true.
      set (m := filter _ IEQCr5RuleSet.environmentalParams).
      destruct (negb (truthy (Obj.prop data "Compliance Path")));
      destruct (isUndefined (Obj.prop data "PMV")
                || isNull (Obj.prop data "PMV"));
      try destruct (PrimFloat.leb (-0.5)%float
                      (parseFloat (Obj.prop data "PMV"))
                    && PrimFloat.leb (parseFloat (Obj.prop data "PMV"))
                         0.5%float);
      destruct m as [|x m]; reflexivity.
Qed.

(** X25. A design water use of zero, which is a reduction of 100%, makes
    WECr1 end with status [gaps] and no points, the two uses being
    reported as required; a design energy use of zero does the same to
    EACr1. *)
Theorem zero_design_use_is_a_gap (data : Obj.t value) (unitSystem : string) :
  (PrimFloat.eqb (parseFloat (Obj.prop data "Design Water Use")) 0%float
   = true ->
   exists r,
     evaluateCredit parseInt "WECr1" data unitSystem = Return r
     /\ status (result r) = "gaps"
     /\ awardedPoints (result r) = 0
     /\ gaps (result r)
        = ["Baseline Water Use and Design Water Use required"]
     /\ numbers r = Obj.empty)
  /\ (PrimFloat.eqb (parseFloat (Obj.prop data "Design Energy Use")) 0%float
      = true ->
      exists r,
        evaluateCredit parseInt "EACr1" data unitSystem = Return r
        /\ status (result r) = "gaps"
        /\ awardedPoints (result r) = 0
        /\ gaps (result r)
           = ["Baseline Energy Use and Design Energy Use required"]
        /\ numbers r = Obj.empty).
Proof.
  split; intros Z.
  - assert (E : forall r0,
              evaluateWECr1 data r0
              = setGaps (setStatus r0 "gaps")
                  (gaps (result (setStatus r0 "gaps"))
                   ++ ["Baseline Water Use and Design Water Use required"])).
    { intros r0. unfold evaluateWECr1. cbv zeta.
      unfold falsyNumber at 2. rewrite Z. cbn [orb].
      rewrite orb_true_r. reflexivity. }
    eexists. split; [reflexivity|]. rewrite E. repeat split.
  - assert (E : forall r0,
              evaluateEACr1 data r0
              = Done (setGaps (setStatus r0 "gaps")
                        (gaps (result (setStatus r0 "gaps"))
                         ++ ["Baseline Energy Use and Design Energy Use required"]))).
    { intros r0. unfold evaluateEACr1. cbv zeta.
      unfold falsyNumber at 2. rewrite Z. cbn [orb].
      rewrite orb_true_r. reflexivity. }
    rewrite CreditFacts.evaluateCredit_EACr1, E.
    eexists. split; [reflexivity|]. repeat split.
Qed.

(** X26. With both energy uses given and non-zero, a building type that
    is given but names no threshold table (nor a property every object
    inherits) makes EACr1 end with status [error] and an error message,
    no points, and the energy improvement already stored; a building type
    that is not given falls back to the table for new buildings and
    cannot end in [error]. *)
Theorem unknown_building_type_is_an_error (data : Obj.t value)
    (unitSystem : string) :
  falsyNumber (parseFloat (Obj.prop data "Baseline Energy Use")) = false ->
  falsyNumber (parseFloat (Obj.prop data "Design Energy Use")) = false ->
  (truthy (Obj.prop data "Building Type") = true ->
   thresholdsFor (Obj.prop data "Building Type") = None ->
   exists r m,
     evaluateCredit parseInt "EACr1" data unitSystem = Return r
     /\ status (result r) = "error"
     /\ error r = Some m
     /\ awardedPoints (result r) = 0
     /\ numbers r =
          [("energyImprovement",
            (((parseFloat (Obj.prop data "Baseline Energy Use")
               - parseFloat (Obj.prop data "Design Energy Use"))
              / parseFloat (Obj.prop data "Baseline Energy Use"))
             * 100)%float)])
  /\ (truthy (Obj.prop data "Building Type") = false ->
      exists r,
        evaluateCredit parseInt "EACr1" data unitSystem = Return r
        /\ error r = None
        /\ In (status (result r)) ["compliant"; "non_compliant"]).
Proof.
  intros B D. split.
  - intros T N.
    rewrite CreditFacts.evaluateCredit_EACr1.
    unfold evaluateEACr1. cbv zeta. rewrite B, D, T, N. cbn [orb].
    eexists _, _. split; [reflexivity|]. repeat split.
  - intros T.
    rewrite CreditFacts.evaluateCredit_EACr1.
    unfold evaluateEACr1. cbv zeta. rewrite B, D, T. cbn [orb].
    change (thresholdsFor (VStr "new_buildings"))
      with (Obj.get thresholds "new_buildings").
    destruct (Obj.get thresholds "new_buildings") as [table|] eqn:G;
      [|discriminate G].
    eexists. split; [reflexivity|]. split; [reflexivity|].
    cbn [result status setOutcome].
    match goal with
    | |- context [Nat.ltb 0 ?n] => destruct (Nat.ltb 0 n)
    end; cbn; auto.
Qed.

Lemma in_missingDocs data (ps : list string) (p : string) :
  In p ps -> truthy (Obj.prop data p) = false ->
  In p (fold_left
          (fun gaps param =>
             if negb (truthy (Obj.prop data param)) then gaps ++ [param]
             else gaps) ps []).
Proof.
  intros I T. rewrite CreditFacts.missingDocs_nil. cbn [app].
  apply filter_In. split; [exact I|]. rewrite T. reflexivity.
Qed.

Lemma assessOption2_keeps_gaps (data : Obj.t value) (units : string)
    (calc : Calc.t) (o2 : EACr6RuleSet.Option2Result) :
  EACr6RuleSet.assessOption2 data units calc = Return o2 ->
  exists r0,
    EACr6RuleSet.checkMissing data = Return r0
    /\ EACr6RuleSet.o2_gaps o2 = EACr6RuleSet.o2_gaps r0.
Proof.
  unfold EACr6RuleSet.assessOption2.
  destruct (EACr6RuleSet.checkMissing data) as [r0|e]; [|discriminate].
  intros H. exists r0. split; [reflexivity|].
  destruct (Nat.eqb _ 0);
    [destruct (Calc.calculateRefrigerantImpact calc data units);
     [destruct (PrimFloat.leb _ _)|]|];
    injection H as <-; reflexivity.
Qed.

(** X27. [RuleEngine] reads a required refrigerant parameter whose value
    is the number zero as missing: option 2 reports it as a gap and runs
    no calculation, and a GWP of zero also fails option 1, so that the
    credit cannot be awarded.  [EACr6RuleSet] does not: a required
    parameter that is zero is never a gap of its option 2, and a GWP of
    zero meets option 1 when the other three requirements are met. *)
Theorem ruleEngine_reads_zero_as_missing (data : Obj.t value)
    (p : string) (x : float) :
  Obj.prop data p = VNum x ->
  PrimFloat.eqb x 0%float = true ->
  (In p RuleEngine.requiredParams ->
   forall unitSystem,
     In p (c_gaps (checkEACr6Option2 data unitSystem))
     /\ compliant (checkEACr6Option2 data unitSystem) = false
     /\ c_calculations (checkEACr6Option2 data unitSystem) = None)
  /\ (p = "GWP" ->
      forall unitSystem r0,
        status (evaluateEACr6 data unitSystem r0) = "non_compliant")
  /\ (In p EACr6RuleSet.requiredParams ->
      forall units calc o2,
        EACr6RuleSet.assessOption2 data units calc = Return o2 ->
        ~ In p (EACr6RuleSet.o2_gaps o2))
  /\ (p = "GWP" ->
      truthy (Obj.prop data "Refrigerant Used") = true ->
      strictEq (Obj.prop data "ODP") (VNum 0%float) = true ->
      truthy (Obj.prop data "Confirmation Statement") = true ->
      EACr6RuleSet.o1_compliant (EACr6RuleSet.assessOption1 data) = true).
Proof.
  intros V Z.
  assert (T : truthy (Obj.prop data p) = false)
    by (rewrite V; cbn; rewrite Z; reflexivity).
  assert (O2 : In p RuleEngine.requiredParams ->
               forall unitSystem,
                 In p (c_gaps (checkEACr6Option2 data unitSystem))
                 /\ compliant (checkEACr6Option2 data unitSystem) = false
                 /\ c_calculations (checkEACr6Option2 data unitSystem) = None).
  { intros I unitSystem. pose proof (@in_missingDocs data _ p I T) as G.
    unfold checkEACr6Option2. cbv zeta.
    destruct (fold_left _ RuleEngine.requiredParams []) as [|g gs];
      [destruct G|].
    cbn. auto. }
  split; [exact O2|]. split; [|split].
  - intros -> unitSystem r0.
    destruct (O2 (or_introl eq_refl) unitSystem) as (_ & C2 & _).
    unfold evaluateEACr6. cbv zeta. rewrite C2.
    assert (C1 : compliant (checkEACr6Option1 data) = false).
    { unfold checkEACr6Option1. cbv zeta. rewrite T. cbn [negb orb].
      destruct (negb (truthy (Obj.prop data "Refrigerant Used")));
      destruct (negb (strictEq (Obj.prop data "ODP") (VNum 0%float))
                && negb (strictEq (Obj.prop data "ODP") (VStr "0")));
      destruct (negb (truthy (Obj.prop data "Confirmation Statement")));
      reflexivity. }
    rewrite C1. reflexivity.
  - intros R units calc o2 A I.
    destruct (@assessOption2_keeps_gaps _ _ _ _ A) as (r0 & M & G).
    destruct (@checkMissing_validateData _ _ M) as (extra & G' & Sub & _).
    rewrite G, G' in I. apply in_app_or in I as [I | I].
    + cbn [LEEDUtils.missing LEEDUtils.validateData] in I.
      apply filter_In in I as (_ & I). rewrite V in I. discriminate I.
    + apply Sub in I. cbn in R.
      destruct I as [<- | [<- | []]]; intuition discriminate.
  - intros -> RU ODP CS.
    apply assessOption1_met; try assumption; rewrite V; try reflexivity.
    cbn [toNumber].
    rewrite (proj1 (proj2 (FloatFacts.zero_compares 50%float Z))).
    reflexivity.
Qed.

End Credits.

Section CreditRuns.
Existing Instance decimalHost.
Import RuleEngine RuleEngineCredits.

Lemma points_and_status_agree_witness :
  exists r,
    evaluateCredit wholeNumberParseInt "IEQCr1"
      [("Outdoor Air Delivery Monitoring", VStr "CO2 sensors");
       ("Increased Ventilation", VStr "30_percent_above_standard");
       ("Air Filtration", VStr "MERV_13_or_higher")] "IP" = Return r
    /\ awardedPoints (result r) = 2
    /\ awardedPoints (result r) <= maxPoints (result r)
    /\ (status (result r) = "compliant" <-> 0 < awardedPoints (result r)).
Proof.
  eexists. split; [reflexivity|]. split; [reflexivity|].
  match goal with
  | |- awardedPoints (result ?r) <= _ /\ _ =>
      destruct (@points_and_status_agree _ wholeNumberParseInt "IEQCr1"
                  [("Outdoor Air Delivery Monitoring", VStr "CO2 sensors");
                   ("Increased Ventilation", VStr "30_percent_above_standard");
                   ("Air Filtration", VStr "MERV_13_or_higher")] "IP" r
                  eq_refl) as (A & B & _)
  end.
  split; [exact A | exact B].
Defined.

Lemma compliant_is_clean_but_for_eacr6_witness :
  exists r,
    evaluateCredit wholeNumberParseInt "WECr1"
      [("Baseline Water Use", VNum 1000%float);
       ("Design Water Use", VNum 400%float)] "IP" = Return r
    /\ status (result r) = "compliant"
    /\ awardedPoints (result r) = 2
    /\ gaps (result r) = [] /\ nonCompliant (result r) = [].
Proof.
  eexists. split; [vm_compute; reflexivity|].
  split; [reflexivity|]. split; [reflexivity|].
  match goal with
  | |- gaps (result ?r) = _ /\ _ =>
      apply (@compliant_is_clean_but_for_eacr6 _ wholeNumberParseInt "WECr1"
               [("Baseline Water Use", VNum 1000%float);
                ("Design Water Use", VNum 400%float)] "IP" r)
  end.
  - vm_compute. reflexivity.
  - discriminate.
  - reflexivity.
Defined.

Lemma neutral_comfort_is_rejected_witness :
  (pc_compliant (checkIEQCr5Part1 neutral_comfort) = false
   /\ In "PMV must be between -0.5 and 0.5"
         (pc_nonCompliant (checkIEQCr5Part1 neutral_comfort))
   /\ IEQCr5RuleSet.pmvInRange
        (IEQCr5RuleSet.p1_requirements
           (IEQCr5RuleSet.assessPart1 neutral_comfort)) = true)
  /\ (In "PPD must be less than 10%"
         (pc_nonCompliant (checkIEQCr5Part1 neutral_comfort))
      /\ IEQCr5RuleSet.ppdCompliant
           (IEQCr5RuleSet.p1_requirements
              (IEQCr5RuleSet.assessPart1 neutral_comfort)) = true).
Proof.
  destruct (@neutral_comfort_is_rejected _ neutral_comfort) as (A & B).
  destruct (A eq_refl) as (A1 & A2 & A3).
  destruct (B eq_refl) as (_ & B2 & B3).
  split; [split; [exact A1 | split; [exact A2 | exact (A3 eq_refl eq_refl)]]|].
  split; [exact B2 | exact (B3 eq_refl eq_refl)].
Defined.

Lemma zero_design_use_is_a_gap_witness :
  (exists r,
     evaluateCredit wholeNumberParseInt "WECr1" no_irrigation "IP" = Return r
     /\ status (result r) = "gaps"
     /\ awardedPoints (result r) = 0
     /\ gaps (result r)
        = ["Baseline Water Use and Design Water Use required"]
     /\ numbers r = Obj.empty)
  /\ (exists r,
        evaluateCredit wholeNumberParseInt "EACr1" no_irrigation "IP"
        = Return r
        /\ status (result r) = "gaps"
        /\ awardedPoints (result r) = 0
        /\ gaps (result r)
           = ["Baseline Energy Use and Design Energy Use required"]
        /\ numbers r = Obj.empty).
Proof.
  destruct (@zero_design_use_is_a_gap _ wholeNumberParseInt no_irrigation "IP")
    as (W & E).
  split; [apply W | apply E]; reflexivity.
Defined.

Lemma unknown_building_type_is_an_error_witness :
  exists r m,
    evaluateCredit wholeNumberParseInt "EACr1" warehouse_energy "IP"
    = Return r
    /\ status (result r) = "error"
    /\ error r = Some m
    /\ awardedPoints (result r) = 0
    /\ numbers r = [("energyImprovement", 20%float)].
Proof.
  destruct (@unknown_building_type_is_an_error _ wholeNumberParseInt
              warehouse_energy "IP" eq_refl eq_refl) as (U & _).
  destruct (U eq_refl eq_refl) as (r & m & E & S & M & P & N).
  exists r, m. repeat split; assumption.
Defined.

Lemma ruleEngine_reads_zero_as_missing_witness :
  (In "GWP" (c_gaps (checkEACr6Option2 ammonia_chiller "IP"))
   /\ compliant (checkEACr6Option2 ammonia_chiller "IP") = false)
  /\ status (evaluateCredit_EACr6 ammonia_chiller "IP") = "non_compliant"
  /\ EACr6RuleSet.o1_compliant (EACr6RuleSet.assessOption1 ammonia_chiller)
     = true.
Proof.
  destruct (@ruleEngine_reads_zero_as_missing _ ammonia_chiller "GWP"
              0%float eq_refl eq_refl) as (O2 & Ev & _ & O1).
  destruct (O2 (or_introl eq_refl) "IP") as (G & C & _).
  split; [split; [exact G | exact C]|].
  split; [apply (Ev eq_refl) | apply (O1 eq_refl); reflexivity].
Defined.

End CreditRuns.

Section RealModule.
Context {host : Host}.

(** X28. With the calculation module of the file, option 2 of
    [EACr6RuleSet] never reports a calculation error: once no parameter
    is missing, the calculation is stored, option 2 is compliant exactly
    when the calculation says so, and otherwise the one issue reported
    is the weighted average against the calculation's threshold. *)
Theorem real_module_always_calculates (data : Obj.t value) (units : string)
    (o2 : EACr6RuleSet.Option2Result) :
  EACr6RuleSet.assessOption2 data units CalculationModule.new = Return o2 ->
  EACr6RuleSet.o2_gaps o2 = [] ->
  exists c,
    CalculationModule.calculateRefrigerantImpact data units = Return c
    /\ EACr6RuleSet.o2_calculations o2 = Some c
    /\ EACr6RuleSet.o2_compliant o2 = Calc.compliant c
    /\ EACr6RuleSet.o2_nonCompliant o2 =
         (if Calc.compliant c then []
          else [[Lit "Weighted average (";
                 FixedSub (Calc.weightedAverage c) 2;
                 Lit ") exceeds threshold ("; NumSub (Calc.threshold c);
                 Lit ")"]]).
Proof.
  unfold EACr6RuleSet.assessOption2.
  destruct (EACr6RuleSet.checkMissing data) as [r0|e] eqn:M; [|discriminate].
  destruct (EACr6Facts.checkMissing_frame _ M) as (F1 & F2 & F3).
  destruct (Nat.eqb (length (EACr6RuleSet.o2_gaps r0)) 0) eqn:L.
  - destruct (calculateRefrigerantImpact_returns data units) as (c & C).
    change (Calc.calculateRefrigerantImpact CalculationModule.new data units)
      with (CalculationModule.calculateRefrigerantImpact data units).
    rewrite C.
    assert (K : Calc.compliant c
                = PrimFloat.leb (Calc.weightedAverage c)
                    (if String.eqb units "IP" then 100%float else 13%float)
                /\ Calc.threshold c
                   = (if String.eqb units "IP" then 100%float else 13%float)).
    { unfold CalculationModule.calculateRefrigerantImpact in C.
      cbv zeta in C. injection C as <-. split; reflexivity. }
    destruct K as (K1 & K2). cbv zeta.
    destruct (PrimFloat.leb (Calc.weightedAverage c) _) eqn:Le;
      intros H _; injection H as <-; exists c;
      rewrite ?K1, ?K2, ?Le; cbn; rewrite ?F2; auto.
  - intros H G. injection H as <-. rewrite G in L. discriminate L.
Qed.

End RealModule.

Section RealModuleRuns.
Existing Instance decimalHost.

Lemma real_module_always_calculates_witness :
  exists o2 c,
    EACr6RuleSet.assessOption2 eaCr6_fail "IP" CalculationModule.new
    = Return o2
    /\ EACr6RuleSet.o2_calculations o2 = Some c
    /\ Calc.compliant c = false
    /\ EACr6RuleSet.o2_compliant o2 = Calc.compliant c
    /\ EACr6RuleSet.o2_nonCompliant o2 =
         [[Lit "Weighted average ("; FixedSub (Calc.weightedAverage c) 2;
           Lit ") exceeds threshold ("; NumSub 100%float; Lit ")"]].
Proof.
  eexists.
  match goal with
  | |- exists c, _ = Return ?o /\ _ =>
      destruct (@real_module_always_calculates _ eaCr6_fail "IP" o
                  ltac:(vm_compute; reflexivity) eq_refl)
        as (c & C & S & K & N)
  end.
  exists c. split; [vm_compute; reflexivity|].
  split; [exact S|].
  assert (F : Calc.compliant c = false).
  { vm_compute in C. injection C as <-. reflexivity. }
  split; [exact F|]. split; [exact K|].
  rewrite N, F. vm_compute in C. injection C as <-. reflexivity.
Defined.

End RealModuleRuns.
